(** * Maintenance dashboard ([siuu.py]): loader, filters and indicators

    A shallow embedding of [load_data] and [main] of [siuu.py].  The three
    data frames that [pd.read_csv] delivers are the input: a file is either
    not there or a CSV text that [read_csv] parses.  The widgets the script
    renders (selector options, metrics, chart series) are the output.
    Definitions keep the names of the Python variables they stand for. *)

From Stdlib Require Import ZArith.
From Stdlib Require Import PrimFloat.
From Stdlib Require Uint63.
From stdpp Require Import base decidable option strings list sorting gmap.

Local Open Scope N_scope.

(** ** Python strings

    A Python [str] is a sequence of Unicode code points.  The files are
    decoded as Latin-1, so every code point of a cell is below 256, but
    [str.upper] can leave that range ([ÿ] becomes U+0178, [µ] becomes U+039C)
    and can lengthen the string ([ß] becomes [SS]). *)

Abbreviation pystr := (list N).

(** A literal of the script, written as a Rocq string of ASCII characters. *)
Definition py (s : string) : pystr :=
  Ascii.N_of_ascii <$> String.list_ascii_of_string s.

(** [str.upper] on one code point: the full upper-case mapping of the
    code points below 256; the code points above are those [upper_char]
    itself produces, which are upper case already. *)
Definition upper_char (c : N) : pystr :=
  if (97 <=? c) && (c <=? 122) then [c - 32]
  else if c =? 181 then [924]
  else if c =? 223 then [83; 83]
  else if ((224 <=? c) && (c <=? 246)) || ((248 <=? c) && (c <=? 254)) then [c - 32]
  else if c =? 255 then [376]
  else [c].

Definition upper (s : pystr) : pystr := s ≫= upper_char.

(** The code points [str.strip] removes ([str.isspace]). *)
Definition isspace (c : N) : bool :=
  ((9 <=? c) && (c <=? 13)) || ((28 <=? c) && (c <=? 32))
  || (c =? 133) || (c =? 160) || (c =? 5760)
  || ((8192 <=? c) && (c <=? 8202))
  || (c =? 8232) || (c =? 8233) || (c =? 8239) || (c =? 8287) || (c =? 12288).

Fixpoint lstrip (s : pystr) : pystr :=
  match s with
  | c :: s' => if isspace c then lstrip s' else s
  | [] => []
  end.

Definition rstrip (s : pystr) : pystr := reverse (lstrip (reverse s)).

Definition strip (s : pystr) : pystr := rstrip (lstrip s).

(** [<=] on [str]: lexicographic on code points, a prefix comes first. *)
Fixpoint pystr_leb (s t : pystr) : bool :=
  match s, t with
  | [], _ => true
  | _ :: _, [] => false
  | a :: s', b :: t' => (a <? b) || ((a =? b) && pystr_leb s' t')
  end.

Definition pystr_le (s t : pystr) : Prop := pystr_leb s t = true.

Global Instance pystr_le_dec s t : Decision (pystr_le s t).
Proof. unfold pystr_le. apply _. Defined.

(** [sorted(...)] on a collection of strings. *)
Definition sorted (l : list pystr) : list pystr := merge_sort pystr_le l.

Local Close Scope N_scope.

(** ** Cells and series

    A cell of an [object] column is a string or [NaN]; a column whose cells
    [read_csv] parsed as numbers is represented by the text [str] gives for
    each of them. *)
Abbreviation celda := (option pystr).

(** The numbers of a numeric column are [float64] values: the primitive
    floats, which are the IEEE 754 binary64 numbers with their rounding,
    their two infinities and [NaN]. *)
Abbreviation float64 := PrimFloat.float.

(** A cell of a numeric column as [read_csv] delivers it: empty, a number
    (or a text that [pd.to_numeric] converts to it, as [inf] to the
    infinity), or a text that [pd.to_numeric] cannot convert. *)
Inductive celda_num :=
  | Vacia
  | Numerica (x : float64)
  | NoNumerica (s : pystr).

(** [pd.to_numeric(col, errors="coerce")] on one cell.  In a loaded column
    [None] is [NaN], the missing value of pandas, and [Some x] is a number
    [x] that is not [NaN]. *)
Definition to_numeric (c : celda_num) : option float64 :=
  match c with
  | Numerica x => if PrimFloat.is_nan x then None else Some x
  | Vacia | NoNumerica _ => None
  end.

(** [Series.astype(str)]: [str(float("nan"))] is ["nan"]. *)
Definition astype_str (c : celda) : pystr := default (py "nan") c.

(** [Series.dropna()]. *)
Definition dropna {A} (col : list (option A)) : list A := omap id col.

(** [Series.unique()]: the distinct values in order of first appearance. *)
Fixpoint unique `{EqDecision A} (l : list A) : list A :=
  match l with
  | [] => []
  | x :: l' => x :: filter (λ y, y ≠ x) (unique l')
  end.

(** [Series.isin(values)] on one cell, for [values] without [NaN]. *)
Definition isin (values : list pystr) (c : celda) : Prop :=
  ∃ s, c = Some s ∧ s ∈ values.

Global Instance isin_dec values c : Decision (isin values c).
Proof.
  destruct c as [s|].
  - destruct (decide (s ∈ values)) as [Hin|Hnin].
    + left. by exists s.
    + right. intros (s' & [= <-] & ?). done.
  - right. by intros (s' & [=] & ?).
Defined.

(** Number of occurrences of [x]. *)
Definition cuenta `{EqDecision A} (x : A) (l : list A) : nat :=
  length (filter (λ y, y = x) l).

(** Insertion of a pair into a list sorted by decreasing count: the pair goes
    before the pairs with the same count. *)
Fixpoint inserta_desc {A} (p : A * nat) (l : list (A * nat)) : list (A * nat) :=
  match l with
  | [] => [p]
  | q :: l' => if decide (q.2 ≤ p.2) then p :: l else q :: inserta_desc p l'
  end.

(** [Series.sort_values(ascending=False)] on counts: the rows are inserted
    from the last to the first, so rows with the same count keep their
    order. *)
Definition sort_desc {A} (l : list (A * nat)) : list (A * nat) :=
  foldr inserta_desc [] l.

(** [Series.value_counts()]: each distinct value with its count, by
    decreasing count; values with the same count stay in order of first
    appearance (the order in which pandas collects them, which its sort of
    the counts keeps on a short series). *)
Definition value_counts `{EqDecision A} (l : list A) : list (A * nat) :=
  sort_desc ((λ x, (x, cuenta x l)) <$> unique l).

(** [Series.max()] of the counts. *)
Definition max_ct {A} (vc : list (A * nat)) : nat :=
  foldr (λ p m, p.2 `max` m) 0 vc.

(** [Series.idxmax()]: the label of the first row that holds the maximum. *)
Definition idxmax {A} (vc : list (A * nat)) : option A :=
  fst <$> head (filter (λ p, p.2 = max_ct vc) vc).

(** [Series.mode()] of a column of strings: the values of highest count, in
    increasing order. *)
Definition mode (l : list pystr) : list pystr :=
  sorted (filter (λ x, cuenta x l = max_ct (value_counts l)) (unique l)).

(** The sum of a [float64] array as numpy adds it ([np.add.reduce], pairwise
    summation).  Fewer than 8 values are added from left to right.  Up to
    128 values go to 8 running sums, one for each position modulo 8; the 8
    sums are added in pairs, and the values after the last full group of 8
    are added to the result one by one. *)
Fixpoint acumula8 (grupos : nat) (r a : list float64) : list float64 * list float64 :=
  match grupos with
  | 0 => (r, a)
  | S grupos => acumula8 grupos (zip_with PrimFloat.add r (take 8 a)) (drop 8 a)
  end.

Definition suma_bloque (a : list float64) : float64 :=
  let '(r, resto) := acumula8 (length a / 8 - 1) (take 8 a) (drop 8 a) in
  match r with
  | [r0; r1; r2; r3; r4; r5; r6; r7] =>
      foldl PrimFloat.add (((r0 + r1) + (r2 + r3)) + ((r4 + r5) + (r6 + r7)))%float resto
  | _ => 0%float
  end.

(** A longer array is cut in two near its middle, at a multiple of 8, and the
    sums of the two parts are added.  [fuel] bounds the depth of the cuts;
    the length of the array is enough ([pairwise_sum_fuel]). *)
Fixpoint pairwise_sum (fuel : nat) (a : list float64) : float64 :=
  let n := length a in
  if decide (n < 8) then foldl PrimFloat.add 0%float a
  else if decide (n ≤ 128) then suma_bloque a
  else
    match fuel with
    | 0 => 0%float
    | S fuel =>
        let n2 := n / 2 - (n / 2) mod 8 in
        (pairwise_sum fuel (take n2 a) + pairwise_sum fuel (drop n2 a))%float
    end.

(** [values.sum()]: the reduction starts from 0 (the sign of a sum that is
    zero depends on the version of numpy and is not meant here). *)
Definition np_sum (a : list float64) : float64 :=
  (0 + pairwise_sum (length a) a)%float.

(** A count as a [float64]. *)
Definition float_of_nat (n : nat) : float64 :=
  PrimFloat.of_uint63 (Uint63.of_Z (Z.of_nat n)).

(** [Series.mean()], pandas' [nanmean]: the [NaN] cells are counted out and
    replaced by 0, the column is summed and the sum is divided by the number
    of cells that are not [NaN]; the mean of no value is [NaN]. *)
Definition mean (col : list (option float64)) : float64 :=
  let count := length (dropna col) in
  if decide (0 < count)
  then (np_sum (default 0%float <$> col) / float_of_nat count)%float
  else PrimFloat.nan.

(** ** Data frames

    A data frame is its header and its rows.  [read_csv] gives distinct
    column names, so the header is a set; the names that the renaming of
    [load_data] leaves twice in the header of Table 1 are those of [doble].
    A row carries one cell per column the script reads; the cell of a column
    the header lacks is never read. *)
Record Tabla (F : Type) := {
  columns : gset pystr;
  filas : list F
}.
Arguments columns {F} _.
Arguments filas {F} _.

(** A failure of Table 1.  [f1_maquina] is the cell of the column
    [Machine Name] (or [Maquina]), [f1_turno] that of [Shift] (or [Turno])
    and [f1_eqtype] that of [EQ Type] (or [EQ_Type]). *)
Record Fila1 := {
  f1_id : celda;
  f1_maquina : celda;
  f1_turno : celda;
  f1_eqtype : celda;
  f1_cluster : celda
}.

(** A sample of Table 2, with numeric cells of type [V]: [celda_num] in the
    file, [option float64] once loaded. *)
Record Fila2 (V : Type) := {
  f2_maquina : celda;
  f2_indice : V;
  f2_tiempo : V
}.
Arguments f2_maquina {V} _.
Arguments f2_indice {V} _.
Arguments f2_tiempo {V} _.

(** A forecast of Table 3. *)
Record Fila3 (V : Type) := {
  f3_maquina : celda;
  f3_indice : V;
  f3_forecast : V
}.
Arguments f3_maquina {V} _.
Arguments f3_indice {V} _.
Arguments f3_forecast {V} _.

(** [df.empty]; every frame here has a column. *)
Definition empty {F} (t : Tabla F) : Prop := filas t = [].

Global Instance empty_dec {F} (t : Tabla F) : Decision (empty t).
Proof. unfold empty. destruct (filas t); [by left | by right]. Defined.

(** [df[mask]]: the rows where the mask holds. *)
Definition filtra {F} (P : F → Prop) `{∀ f, Decision (P f)} (t : Tabla F) : Tabla F :=
  {| columns := columns t; filas := filter P (filas t) |}.

(** The three files next to the script; [None] when a file is not there. *)
Record Archivos := {
  TABLA1_FINAL_CON_ID : option (Tabla Fila1);
  TABLA2DASH : option (Tabla (Fila2 celda_num));
  TABLA3_FINAL : option (Tabla (Fila3 celda_num))
}.

(** ** Exceptions *)
Inductive excepcion :=
  | FileNotFoundError
  | KeyError (col : pystr)
  | AttributeError
  | ValueError.

Inductive resultado (A : Type) :=
  | Ok (a : A)
  | Raise (e : excepcion).
Arguments Ok {A} _.
Arguments Raise {A} _.

Global Instance resultado_ret : MRet resultado := λ A a, Ok a.
Global Instance resultado_bind : MBind resultado := λ A B k r,
  match r with
  | Ok a => k a
  | Raise e => Raise e
  end.

(** [pd.read_csv(path)]. *)
Definition read_csv {F} (archivo : option (Tabla F)) : resultado (Tabla F) :=
  match archivo with
  | Some t => Ok t
  | None => Raise FileNotFoundError
  end.

(** [df[col]] raises [KeyError] when the header lacks [col]. *)
Definition getitem {F} (t : Tabla F) (col : pystr) : resultado () :=
  if decide (col ∈ columns t) then Ok () else Raise (KeyError col).

(** ** Column names (lines 29-39) *)
Definition COL_MAQ : pystr := py "Maquina".
Definition COL_CLUSTER : pystr := py "Cluster".
Definition COL_IDX_TIEMPO : pystr := py "Indice_Tiempo".
Definition COL_TIEMPO_ENTRE_FALLAS : pystr := py "Tiempo_Entre_Fallas".
Definition COL_FORECAST : pystr := py "Forecast".

(** ** [load_data] (lines 46-90) *)

(** The mapping of [tabla1.rename(columns=...)] on one name. *)
Definition rename (col : pystr) : pystr :=
  if decide (col = py "Machine Name") then py "Maquina"
  else if decide (col = py "Shift") then py "Turno"
  else if decide (col = py "EQ Type") then py "EQ_Type"
  else col.

(** [col.astype(str).str.upper()] on one cell. *)
Definition normaliza (c : celda) : celda := Some (upper (astype_str c)).

Definition Tablas : Type :=
  Tabla Fila1 * Tabla (Fila2 (option float64)) * Tabla (Fila3 (option float64)).

(** The assignment [tabla1["Maquina"] = ...] on one row. *)
Definition asigna_maquina1 (g : celda → celda) (f : Fila1) : Fila1 :=
  {| f1_id := f1_id f;
     f1_maquina := g (f1_maquina f);
     f1_turno := f1_turno f;
     f1_eqtype := f1_eqtype f;
     f1_cluster := f1_cluster f |}.

(** The three assignments to the columns of Table 2 on one row. *)
Definition asigna_fila2 (g : celda → celda) (f : Fila2 celda_num) : Fila2 (option float64) :=
  {| f2_maquina := g (f2_maquina f);
     f2_indice := to_numeric (f2_indice f);
     f2_tiempo := to_numeric (f2_tiempo f) |}.

(** The three assignments to the columns of Table 3 on one row. *)
Definition asigna_fila3 (g : celda → celda) (f : Fila3 celda_num) : Fila3 (option float64) :=
  {| f3_maquina := g (f3_maquina f);
     f3_indice := to_numeric (f3_indice f);
     f3_forecast := to_numeric (f3_forecast f) |}.

(** Lines 50-60. *)
Definition load_tabla1 (a : Archivos) : resultado (Tabla Fila1) :=
  tabla1 ← read_csv (TABLA1_FINAL_CON_ID a);
  (* a file with both [Machine Name] and [Maquina] has two columns named
     [Maquina] after the renaming: [tabla1["Maquina"]] is then a frame,
     which has no [.str] *)
  if decide (py "Machine Name" ∈ columns tabla1 ∧ COL_MAQ ∈ columns tabla1)
  then Raise AttributeError
  else
    let tabla1 := {| columns := set_map rename (columns tabla1);
                     filas := filas tabla1 |} in
    _ ← getitem tabla1 COL_MAQ;
    mret {| columns := columns tabla1;
            filas := asigna_maquina1 normaliza <$> filas tabla1 |}.

(** Lines 63-74. *)
Definition load_tabla2 (a : Archivos) : resultado (Tabla (Fila2 (option float64))) :=
  tabla2 ← read_csv (TABLA2DASH a);
  let maquina := if decide (COL_MAQ ∈ columns tabla2) then normaliza else id in
  _ ← getitem tabla2 COL_TIEMPO_ENTRE_FALLAS;
  _ ← getitem tabla2 COL_IDX_TIEMPO;
  mret {| columns := columns tabla2;
          filas := asigna_fila2 maquina <$> filas tabla2 |}.

(** Lines 77-88. *)
Definition load_tabla3 (a : Archivos) : resultado (Tabla (Fila3 (option float64))) :=
  tabla3 ← read_csv (TABLA3_FINAL a);
  let maquina := if decide (COL_MAQ ∈ columns tabla3) then normaliza else id in
  _ ← getitem tabla3 COL_FORECAST;
  _ ← getitem tabla3 COL_IDX_TIEMPO;
  mret {| columns := columns tabla3;
          filas := asigna_fila3 maquina <$> filas tabla3 |}.

Definition load_data (a : Archivos) : resultado Tablas :=
  tabla1 ← load_tabla1 a;
  tabla2 ← load_tabla2 a;
  tabla3 ← load_tabla3 a;
  mret (tabla1, tabla2, tabla3).

(** The header of a file admits the loading of Table 1 when it has the
    machine column under exactly one of its two names. *)
Definition cabecera1_ok (r1 : Tabla Fila1) : Prop :=
  (py "Machine Name" ∈ columns r1 ∨ COL_MAQ ∈ columns r1)
  ∧ ¬ (py "Machine Name" ∈ columns r1 ∧ COL_MAQ ∈ columns r1).

Definition cabecera2_ok (r2 : Tabla (Fila2 celda_num)) : Prop :=
  COL_TIEMPO_ENTRE_FALLAS ∈ columns r2 ∧ COL_IDX_TIEMPO ∈ columns r2.

Definition cabecera3_ok (r3 : Tabla (Fila3 celda_num)) : Prop :=
  COL_FORECAST ∈ columns r3 ∧ COL_IDX_TIEMPO ∈ columns r3.

(** The three frames [load_data] returns for the frames of the files. *)
Definition cargada1 (r1 : Tabla Fila1) : Tabla Fila1 :=
  {| columns := set_map rename (columns r1);
     filas := asigna_maquina1 normaliza <$> filas r1 |}.

Definition cargada2 (r2 : Tabla (Fila2 celda_num)) : Tabla (Fila2 (option float64)) :=
  {| columns := columns r2;
     filas := asigna_fila2 (if decide (COL_MAQ ∈ columns r2) then normaliza else id)
                <$> filas r2 |}.

Definition cargada3 (r3 : Tabla (Fila3 celda_num)) : Tabla (Fila3 (option float64)) :=
  {| columns := columns r3;
     filas := asigna_fila3 (if decide (COL_MAQ ∈ columns r3) then normaliza else id)
                <$> filas r3 |}.

(** ** [main] (lines 96-353)

    [cluster_sel] and [maquina_sel] are what the two select boxes of the
    sidebar return.  The page is a record of what the script hands to the
    widgets; the f-strings that format a metric are not modelled, a metric
    is the value they format. *)

Definition Todos : pystr := py "Todos".
Definition Todas : pystr := py "Todas".

Inductive metrica (A : Type) :=
  | Sin_datos
  | Dato (a : A).
Arguments Sin_datos {A}.
Arguments Dato {A} _.

(** The test [tabla1["Cluster"].astype(str) == cluster_sel] on one row. *)
Definition en_cluster (cluster_sel : pystr) (f : Fila1) : Prop :=
  astype_str (f1_cluster f) = cluster_sel.

Global Instance en_cluster_dec cluster_sel f : Decision (en_cluster cluster_sel f).
Proof. unfold en_cluster. apply _. Defined.

(** Lines 119-122.  [astype(str)] leaves the strings that [dropna] keeps. *)
Definition clusters_disp (tabla1 : Tabla Fila1) : list pystr :=
  if decide (COL_CLUSTER ∈ columns tabla1)
  then sorted (unique (dropna (f1_cluster <$> filas tabla1)))
  else [].

(** Lines 130-133. *)
Definition maqs_t1 (tabla1 : Tabla Fila1) (cluster_sel : pystr) : list pystr :=
  if decide (cluster_sel = Todos ∨ COL_CLUSTER ∉ columns tabla1)
  then unique (dropna (f1_maquina <$> filas tabla1))
  else unique (dropna (f1_maquina <$> filter (en_cluster cluster_sel) (filas tabla1))).

(** Lines 135-138: [tabla2["Maquina"]] and [tabla3["Maquina"]] are read
    without a test on the header. *)
Definition maquinas (tablas : Tablas) (cluster_sel : pystr) : resultado (list pystr) :=
  let '(tabla1, tabla2, tabla3) := tablas in
  let maqs_t1 := maqs_t1 tabla1 cluster_sel in
  _ ← getitem tabla2 COL_MAQ;
  let maqs_t2 := unique (dropna (f2_maquina <$> filas tabla2)) in
  _ ← getitem tabla3 COL_MAQ;
  let maqs_t3 := unique (dropna (f3_maquina <$> filas tabla3)) in
  mret (sorted (elements
    (list_to_set maqs_t1 ∪ list_to_set maqs_t2 ∪ list_to_set maqs_t3 : gset pystr))).

(** Line 153: the machines of the cluster, from the filtered Table 1. *)
Definition maquinas_cluster (t1 : Tabla Fila1) : list pystr :=
  unique (dropna (f1_maquina <$> filas t1)).

(** Lines 151-156. *)
Definition filtro_cluster (tablas : Tablas) (cluster_sel : pystr) : Tablas :=
  let '(t1, t2, t3) := tablas in
  if decide (cluster_sel ≠ Todos ∧ COL_CLUSTER ∈ columns t1) then
    let t1 := filtra (en_cluster cluster_sel) t1 in
    let maquinas_cluster := maquinas_cluster t1 in
    let t2 := filtra (λ f, isin maquinas_cluster (f2_maquina f)) t2 in
    let t3 := filtra (λ f, isin maquinas_cluster (f3_maquina f)) t3 in
    (t1, t2, t3)
  else (t1, t2, t3).

(** Lines 159-162.  [col == maquina_sel] is false on a [NaN] cell. *)
Definition filtro_maquina (tablas : Tablas) (maquina_sel : pystr) : Tablas :=
  let '(t1, t2, t3) := tablas in
  if decide (maquina_sel ≠ Todas) then
    (filtra (λ f, f1_maquina f = Some maquina_sel) t1,
     filtra (λ f, f2_maquina f = Some maquina_sel) t2,
     filtra (λ f, f3_maquina f = Some maquina_sel) t3)
  else (t1, t2, t3).

(** Line 172. *)
Definition total_fallas (t1 : Tabla Fila1) : nat :=
  if decide (¬ empty t1) then length (filas t1) else 0.

(** Lines 176-179: the machine names that count, stripped; blank names and
    the text of a missing cell are dropped. *)
Definition serie_m (tabla1 : Tabla Fila1) : list pystr :=
  let serie_m := dropna (f1_maquina <$> filas tabla1) in
  let serie_m := strip <$> serie_m in
  filter (λ s, s ≠ py "" ∧ upper s ≠ py "NAN") serie_m.

(** Lines 175-190: the machine with most failures and its count, over the
    whole Table 1. *)
Definition texto_maq_top (tabla1 : Tabla Fila1) : metrica (pystr * nat) :=
  if decide (¬ empty tabla1) then
    let conteo_global := value_counts (serie_m tabla1) in
    if decide (conteo_global ≠ []) then
      match idxmax conteo_global with
      | Some maq_top => Dato (maq_top, max_ct conteo_global)
      | None => Sin_datos
      end
    else Sin_datos
  else Sin_datos.

(** Lines 193-196; [None] is Python's. *)
Definition prom_tiempo (t2 : Tabla (Fila2 (option float64))) : option float64 :=
  if decide (¬ empty t2) then Some (mean (f2_tiempo <$> filas t2)) else None.

(** Lines 205-208: [prom_tiempo is not None and pd.notna(prom_tiempo)]. *)
Definition metrica_tiempo (prom_tiempo : option float64) : metrica float64 :=
  match prom_tiempo with
  | Some q => if PrimFloat.is_nan q then Sin_datos else Dato q
  | None => Sin_datos
  end.

(** Lines 215-226. *)
Definition cluster_cat (t1 : Tabla Fila1) (cluster_sel maquina_sel : pystr) : pystr :=
  if decide (cluster_sel ≠ Todos) then cluster_sel
  else if decide (maquina_sel = Todas) then py "Varios"
  else if decide (COL_CLUSTER ∈ columns t1 ∧ ¬ empty t1) then
    let moda_cat := mode (astype_str ∘ f1_cluster <$> filas t1) in
    match moda_cat with
    | c :: _ => c
    | [] => py "Sin datos"
    end
  else py "Sin datos".

(** Lines 299-320: the message, the warning, or the points of the line
    chart. *)
Inductive Tipo := Real | Prediccion.

Record Punto := {
  Indice_Tiempo : option float64;
  Valor : option float64;
  Tipo_ : Tipo
}.

Inductive SerieTiempo :=
  | Serie_info
  | Serie_warning
  | Serie_lineas (serie_total : list Punto).

Definition serie_real (t2 : Tabla (Fila2 (option float64))) : list Punto :=
  filter (λ p, Valor p ≠ None)
    ((λ f, {| Indice_Tiempo := f2_indice f; Valor := f2_tiempo f; Tipo_ := Real |})
       <$> filas t2).

Definition serie_fore (t3 : Tabla (Fila3 (option float64))) : list Punto :=
  filter (λ p, Valor p ≠ None)
    ((λ f, {| Indice_Tiempo := f3_indice f; Valor := f3_forecast f; Tipo_ := Prediccion |})
       <$> filas t3).

Definition serie_tiempo (t2 : Tabla (Fila2 (option float64))) (t3 : Tabla (Fila3 (option float64)))
    (cluster_sel maquina_sel : pystr) : SerieTiempo :=
  if decide (cluster_sel ≠ Todos ∧ maquina_sel = Todas) then Serie_info
  else if decide (empty t2) then Serie_warning
  else if decide (¬ empty t3) then Serie_lineas (serie_real t2 ++ serie_fore t3)
  else Serie_lineas (serie_real t2).

(** Lines 341-353: the rows of the box plot, or the message. *)
Inductive Boxplot :=
  | Box_info
  | Box_fig (box_data : list (celda * option float64)).

Definition boxplot (t2 : Tabla (Fila2 (option float64))) : Boxplot :=
  if decide (¬ empty t2) then
    Box_fig (filter (λ r, r.1 ≠ None ∧ r.2 ≠ None)
               ((λ f, (f2_maquina f, f2_tiempo f)) <$> filas t2))
  else Box_info.

(** Lines 241-289, Section 2 of the page: the two bar charts count the rows
    of the filtered Table 1 by shift and by equipment type. *)
Inductive Barras :=
  | Barras_info
  | Barras_fig (conteo : list (pystr * nat)).

(** [t1[col].value_counts().reset_index()] under the test of lines 242 and
    267, for a column that the header has once; [value_counts] skips the
    missing cells. *)
Definition barras (col : pystr) (celdas : Fila1 → celda) (t1 : Tabla Fila1) : Barras :=
  if decide (col ∈ columns t1 ∧ ¬ empty t1)
  then Barras_fig (value_counts (dropna (celdas <$> filas t1)))
  else Barras_info.

(** Lines 242-263. *)
Definition turno_counts (t1 : Tabla Fila1) : Barras := barras (py "Turno") f1_turno t1.

(** Lines 267-289. *)
Definition ubic_counts (t1 : Tabla Fila1) : Barras := barras (py "EQ_Type") f1_eqtype t1.

(** The renaming of lines 54-58 leaves a name twice in the header of Table 1
    when the file has the name and a name that is renamed to it.  A header is
    kept as a set of names, so the names that occur twice are read off the
    header of the file. *)
Definition doble (r1 : Tabla Fila1) (col : pystr) : Prop :=
  col ∈ columns r1 ∧ col ∈ (set_map rename (columns r1 ∖ {[ col ]}) : gset pystr).

Global Instance doble_dec r1 col : Decision (doble r1 col).
Proof. unfold doble. apply _. Defined.

(** The file of Table 1 carries the shift and the equipment type under one
    name each. *)
Definition sin_nombres_repetidos (r1 : Tabla Fila1) : Prop :=
  ¬ (py "Shift" ∈ columns r1 ∧ py "Turno" ∈ columns r1)
  ∧ ¬ (py "EQ Type" ∈ columns r1 ∧ py "EQ_Type" ∈ columns r1).

(** Lines 242-245 and 267-270: under the test, [t1[col]] is a frame of two
    columns when the header has [col] twice, and [value_counts] on it raises
    [ValueError]. *)
Definition cuenta_columna (a : Archivos) (col : pystr) (t1 : Tabla Fila1) : resultado () :=
  if decide (col ∈ columns t1 ∧ ¬ empty t1) then
    match TABLA1_FINAL_CON_ID a with
    | Some r1 => if decide (doble r1 col) then Raise ValueError else Ok ()
    | None => Ok ()
    end
  else Ok ().

Definition seccion2 (a : Archivos) (t1 : Tabla Fila1) : resultado () :=
  _ ← cuenta_columna a (py "Turno") t1;
  cuenta_columna a (py "EQ_Type") t1.

Record Tablero := {
  opciones_cluster : list pystr;
  opciones_maquina : list pystr;
  t1 : Tabla Fila1;
  t2 : Tabla (Fila2 (option float64));
  t3 : Tabla (Fila3 (option float64));
  kpi_total_fallas : nat;
  kpi_maq_top : metrica (pystr * nat);
  kpi_tiempo : metrica float64;
  kpi_cluster : pystr;
  fig_turnos : Barras;
  fig_ubic : Barras;
  fig_serie : SerieTiempo;
  fig_box : Boxplot
}.

(** Lines 145-353: the page below the sidebar, for the loaded frames, the
    machines offered and the two selections. *)
Definition tablero (tablas : Tablas) (clusters_disp maquinas : list pystr)
    (cluster_sel maquina_sel : pystr) : Tablero :=
  let '(t1, t2, t3) := filtro_maquina (filtro_cluster tablas cluster_sel) maquina_sel in
  {| opciones_cluster := Todos :: clusters_disp;
     opciones_maquina := Todas :: maquinas;
     t1 := t1; t2 := t2; t3 := t3;
     kpi_total_fallas := total_fallas t1;
     kpi_maq_top := texto_maq_top tablas.1.1;
     kpi_tiempo := metrica_tiempo (prom_tiempo t2);
     kpi_cluster := cluster_cat t1 cluster_sel maquina_sel;
     fig_turnos := turno_counts t1;
     fig_ubic := ubic_counts t1;
     fig_serie := serie_tiempo t2 t3 cluster_sel maquina_sel;
     fig_box := boxplot t2 |}.

(** What the run leaves on the page: the error message followed by
    [st.stop()], or the dashboard.  A run that raises leaves the page
    unfinished. *)
Inductive Pagina :=
  | Detenida
  | Completa (tablero : Tablero).

Definition main (a : Archivos) (cluster_sel maquina_sel : pystr) : resultado Pagina :=
  match load_data a with
  | Raise FileNotFoundError => Ok Detenida
  | Raise e => Raise e
  | Ok tablas =>
    let clusters_disp := clusters_disp tablas.1.1 in
    maquinas ← maquinas tablas cluster_sel;
    let pagina := tablero tablas clusters_disp maquinas cluster_sel maquina_sel in
    _ ← seccion2 a (t1 pagina);
    mret (Completa pagina)
  end.

(** ** Sample files *)

Definition fila1 (maquina cluster : celda) : Fila1 :=
  {| f1_id := None; f1_maquina := maquina; f1_turno := None; f1_eqtype := None;
     f1_cluster := cluster |}.

Definition fila2 (maquina : celda) (indice tiempo : celda_num) : Fila2 celda_num :=
  {| f2_maquina := maquina; f2_indice := indice; f2_tiempo := tiempo |}.

Definition fila3 (maquina : celda) (indice forecast : celda_num) : Fila3 celda_num :=
  {| f3_maquina := maquina; f3_indice := indice; f3_forecast := forecast |}.

Definition columnas1 : gset pystr :=
  {[ py "ID_Falla"; py "Machine Name"; py "Shift"; py "EQ Type"; COL_CLUSTER ]}.
Definition columnas2 : gset pystr :=
  {[ COL_MAQ; COL_IDX_TIEMPO; COL_TIEMPO_ENTRE_FALLAS ]}.
Definition columnas3 : gset pystr :=
  {[ COL_MAQ; COL_IDX_TIEMPO; COL_FORECAST ]}.

(** A frame of each file with all its columns. *)
Definition cruda1 (filas1 : list Fila1) : Tabla Fila1 :=
  {| columns := columnas1; filas := filas1 |}.
Definition cruda2 (filas2 : list (Fila2 celda_num)) : Tabla (Fila2 celda_num) :=
  {| columns := columnas2; filas := filas2 |}.
Definition cruda3 (filas3 : list (Fila3 celda_num)) : Tabla (Fila3 celda_num) :=
  {| columns := columnas3; filas := filas3 |}.

Definition archivos (filas1 : list Fila1) (filas2 : list (Fila2 celda_num))
    (filas3 : list (Fila3 celda_num)) : Archivos :=
  {| TABLA1_FINAL_CON_ID := Some (cruda1 filas1);
     TABLA2DASH := Some (cruda2 filas2);
     TABLA3_FINAL := Some (cruda3 filas3) |}.

Definition filas1_ejemplo : list Fila1 :=
  [ fila1 (Some (py "a")) (Some (py "X"));
    fila1 (Some (py "b")) (Some (py "X"));
    fila1 (Some (py "c")) (Some (py "Y"));
    fila1 (Some (py "A")) (Some (py "X"));
    fila1 None (Some (py "Y")) ].

Definition filas2_ejemplo : list (Fila2 celda_num) :=
  [ fila2 (Some (py "a")) (Numerica 1) (Numerica 5);
    fila2 (Some (py "a")) (Numerica 2) (NoNumerica (py "n/d"));
    fila2 (Some (py "b")) (Numerica 3) (Numerica 7);
    fila2 (Some (py "d")) (NoNumerica (py "abc")) (Numerica 9);
    fila2 None (Numerica 4) Vacia ].

Definition filas3_ejemplo : list (Fila3 celda_num) :=
  [ fila3 (Some (py "a")) (Numerica 3) (Numerica 6);
    fila3 (Some (py "b")) (Numerica 4) Vacia ].

Definition ejemplo : Archivos :=
  archivos filas1_ejemplo filas2_ejemplo filas3_ejemplo.

(** The same files with the rows of Table 1 in another order. *)
Definition ejemplo_reordenado : Archivos :=
  archivos (reverse filas1_ejemplo) filas2_ejemplo filas3_ejemplo.

(** Two machines with one failure each, in the two orders. *)
Definition archivos_AB : Archivos :=
  archivos [fila1 (Some (py "A")) None; fila1 (Some (py "B")) None] [] [].
Definition archivos_BA : Archivos :=
  archivos [fila1 (Some (py "B")) None; fila1 (Some (py "A")) None] [] [].

(** Table 1 without its machine column. *)
Definition archivos_sin_maquina1 : Archivos :=
  {| TABLA1_FINAL_CON_ID :=
       Some {| columns := {[ py "ID_Falla"; py "Shift"; py "EQ Type"; COL_CLUSTER ]};
               filas := filas1_ejemplo |};
     TABLA2DASH := Some (cruda2 filas2_ejemplo);
     TABLA3_FINAL := Some (cruda3 filas3_ejemplo) |}.

(** Table 2 without its machine column. *)
Definition archivos_sin_maquina2 : Archivos :=
  {| TABLA1_FINAL_CON_ID := Some (cruda1 filas1_ejemplo);
     TABLA2DASH := Some {| columns := {[ COL_IDX_TIEMPO; COL_TIEMPO_ENTRE_FALLAS ]};
                           filas := filas2_ejemplo |};
     TABLA3_FINAL := Some (cruda3 filas3_ejemplo) |}.

(** Machine A in cluster X, machine B in cluster Y and in Table 2. *)
Definition archivos_dos_clusters : Archivos :=
  archivos [fila1 (Some (py "A")) (Some (py "X")); fila1 (Some (py "B")) (Some (py "Y"))]
           [fila2 (Some (py "B")) (Numerica 1) (Numerica 5)]
           [].

(** A sample of Table 2 whose time index is not a number. *)
Definition archivos_indice_no_numerico : Archivos :=
  archivos [fila1 (Some (py "A")) (Some (py "X"))]
           [fila2 (Some (py "A")) (NoNumerica (py "abc")) (Numerica 7)]
           [].

(** The order of [sort_values(ascending=False)] on the rows of a count. *)
Definition ct_ge {A} (p q : A * nat) : Prop := q.2 ≤ p.2.

(** A string that [str.upper] leaves as it is, code point by code point. *)
Definition en_mayusculas (s : pystr) : Prop := Forall (λ c, upper_char c = [c]) s.

(** Three failures with their shifts and equipment types. *)
Definition fila1_turno (maquina turno eqtype cluster : celda) : Fila1 :=
  {| f1_id := None; f1_maquina := maquina; f1_turno := turno; f1_eqtype := eqtype;
     f1_cluster := cluster |}.

Definition filas1_turnos : list Fila1 :=
  [ fila1_turno (Some (py "A")) (Some (py "2")) (Some (py "CNC")) (Some (py "X"));
    fila1_turno (Some (py "B")) (Some (py "1")) None (Some (py "X"));
    fila1_turno (Some (py "A")) (Some (py "1")) (Some (py "CNC")) (Some (py "Y")) ].

Definition archivos_turnos : Archivos := archivos filas1_turnos [] [].

(** Three failures of machine A, two of them without cluster. *)
Definition archivos_sin_cluster : Archivos :=
  archivos [fila1 (Some (py "A")) (Some (py "X")); fila1 (Some (py "A")) None;
            fila1 (Some (py "A")) None]
           [] [].



(** Table 1 with the shift under both of its names. *)
Definition archivos_turno_doble : Archivos :=
  {| TABLA1_FINAL_CON_ID :=
       Some {| columns := {[ py "Machine Name"; py "Shift"; py "Turno"; COL_CLUSTER ]};
               filas := filas1_turnos |};
     TABLA2DASH := Some (cruda2 []);
     TABLA3_FINAL := Some (cruda3 []) |}.
(** * Properties *)

(** ** Strings *)

Global Instance pystr_le_total : Total pystr_le.
Proof.
  intros s. unfold pystr_le. induction s as [|a s IH]; intros [|b t]; simpl; auto.
  destruct (IH t) as [H|H]; rewrite H;
    destruct (N.ltb_spec a b), (N.ltb_spec b a), (N.eqb_spec a b), (N.eqb_spec b a);
    simpl; auto; lia.
Qed.

Global Instance pystr_le_trans : Transitive pystr_le.
Proof.
  intros s. unfold pystr_le. induction s as [|a s IH]; intros [|b t] [|c u]; simpl; auto;
    try discriminate.
  intros H1 H2.
  destruct (N.ltb_spec a b), (N.ltb_spec b c), (N.ltb_spec a c),
    (N.eqb_spec a b), (N.eqb_spec b c), (N.eqb_spec a c);
    simpl in *; try done; try lia. by apply (IH t u).
Qed.

Global Instance pystr_le_antisymm : AntiSymm (=) pystr_le.
Proof.
  intros s. unfold pystr_le. induction s as [|a s IH]; intros [|b t]; simpl; try done.
  intros H1 H2.
  destruct (N.ltb_spec a b), (N.ltb_spec b a), (N.eqb_spec a b), (N.eqb_spec b a);
    simpl in *; try done; try lia. subst. f_equal. by apply IH.
Qed.

(** [sorted] returns the same strings, in increasing order. *)
Lemma elem_of_sorted l (s : pystr) : s ∈ sorted l ↔ s ∈ l.
Proof. unfold sorted. by rewrite merge_sort_Permutation. Qed.

Lemma sorted_StronglySorted l : StronglySorted pystr_le (sorted l).
Proof. apply StronglySorted_merge_sort; apply _. Qed.

(** Upper-casing twice is upper-casing once. *)
Lemma upper_char_idemp c : upper_char c ≫= upper_char = upper_char c.
Proof.
  unfold upper_char.
  repeat (match goal with
          | |- context [if ?b then _ else _] => destruct b eqn:?
          end; simpl); try reflexivity;
  repeat match goal with
         | H : (_ && _) = true |- _ => apply andb_prop in H as [??]
         | H : (_ || _) = true |- _ => apply orb_prop in H as [?|?]
         | H : (_ <=? _)%N = true |- _ => apply N.leb_le in H
         | H : (_ =? _)%N = true |- _ => apply N.eqb_eq in H
         end; exfalso; lia.
Qed.

Lemma upper_idemp s : upper (upper s) = upper s.
Proof.
  unfold upper. induction s as [|c s IH]; [done|].
  change ((c :: s) ≫= upper_char) with (upper_char c ++ (s ≫= upper_char)).
  by rewrite bind_app, IH, upper_char_idemp.
Qed.

(** ** Series *)

Section series.
Context `{EqDecision A}.
Implicit Types (l : list A) (x : A).

Lemma elem_of_unique l x : x ∈ unique l ↔ x ∈ l.
Proof.
  induction l as [|y l IH]; simpl; [done|].
  rewrite !elem_of_cons, list_elem_of_filter, IH.
  destruct (decide (x = y)); naive_solver.
Qed.

Lemma NoDup_unique l : NoDup (unique l).
Proof.
  induction l as [|y l IH]; simpl; [constructor|].
  constructor; [|by apply NoDup_filter].
  rewrite list_elem_of_filter. naive_solver.
Qed.

Lemma unique_nil_inv l : unique l = [] → l = [].
Proof. by destruct l. Qed.

Lemma cuenta_Permutation l l' x : l ≡ₚ l' → cuenta x l = cuenta x l'.
Proof. unfold cuenta. by intros ->. Qed.

Lemma cuenta_pos l x : x ∈ l ↔ 0 < cuenta x l.
Proof.
  unfold cuenta. induction l as [|y l IH]; simpl.
  - split; [by intros ?%not_elem_of_nil | lia].
  - rewrite elem_of_cons, filter_cons. case_decide; simpl; [naive_solver lia|].
    rewrite <- IH. naive_solver.
Qed.

Lemma elem_of_sort_desc (vc : list (A * nat)) p : p ∈ sort_desc vc ↔ p ∈ vc.
Proof.
  assert (Hins : ∀ q v, p ∈ inserta_desc q v ↔ p = q ∨ p ∈ v).
  { intros q v. induction v as [|r v IH]; simpl.
    - by rewrite elem_of_cons.
    - case_decide; rewrite !elem_of_cons; [done|]. rewrite IH. naive_solver. }
  induction vc as [|q vc IH]; simpl; [done|].
  by rewrite Hins, elem_of_cons, IH.
Qed.

Lemma max_ct_ge (vc : list (A * nat)) p : p ∈ vc → p.2 ≤ max_ct vc.
Proof.
  induction vc as [|q vc IH]; simpl; [by intros ?%not_elem_of_nil|].
  rewrite elem_of_cons. intros [->|Hin]; [lia|]. specialize (IH Hin). lia.
Qed.

Lemma max_ct_elem_of (vc : list (A * nat)) : vc ≠ [] → ∃ p, p ∈ vc ∧ p.2 = max_ct vc.
Proof.
  induction vc as [|q vc IH]; [done|]. intros _. simpl.
  destruct vc as [|r vc].
  - exists q. split; [by left|]. simpl. lia.
  - destruct IH as (p & Hin & Hp); [done|].
    destruct (decide (max_ct (r :: vc) ≤ q.2)).
    + exists q. split; [by left|]. lia.
    + exists p. split; [by right|]. lia.
Qed.

(** [idxmax] of a series that is not empty is a label that holds the
    maximum. *)
Lemma idxmax_Some (vc : list (A * nat)) :
  vc ≠ [] → ∃ x, idxmax vc = Some x ∧ (x, max_ct vc) ∈ vc.
Proof.
  intros Hne. destruct (max_ct_elem_of vc Hne) as (p & Hin & Hp).
  unfold idxmax.
  destruct (filter (λ p, p.2 = max_ct vc) vc) as [|[x n] v] eqn:Hf.
  - exfalso. by apply (filter_nil_not_elem_of _ vc p Hf Hp).
  - exists x. split; [done|].
    assert (Hx : (x, n) ∈ filter (λ p, p.2 = max_ct vc) vc) by (rewrite Hf; by left).
    apply list_elem_of_filter in Hx as [Hn Hx]. simpl in Hn. by subst n.
Qed.

Lemma elem_of_value_counts l x n :
  (x, n) ∈ value_counts l ↔ x ∈ l ∧ n = cuenta x l.
Proof.
  unfold value_counts. rewrite elem_of_sort_desc, list_elem_of_fmap.
  setoid_rewrite elem_of_unique. naive_solver.
Qed.

Lemma value_counts_nil_inv l : value_counts l = [] → l = [].
Proof.
  intros Hvc. destruct l as [|x l]; [done|].
  assert (Hin : (x, cuenta x (x :: l)) ∈ value_counts (x :: l)).
  { apply elem_of_value_counts. split; [by left | done]. }
  rewrite Hvc in Hin. by apply not_elem_of_nil in Hin.
Qed.

(** The largest count of [value_counts] bounds every count and is the
    count of some value. *)
Lemma max_ct_value_counts_ge l x : cuenta x l ≤ max_ct (value_counts l).
Proof.
  destruct (decide (x ∈ l)) as [Hin|Hnin].
  - apply (max_ct_ge _ (x, cuenta x l)). by apply elem_of_value_counts.
  - apply (not_iff_compat (cuenta_pos l x)) in Hnin. lia.
Qed.

Lemma max_ct_value_counts_Permutation l l' :
  l ≡ₚ l' → max_ct (value_counts l) = max_ct (value_counts l').
Proof.
  assert (Hle : ∀ l l', l ≡ₚ l' → max_ct (value_counts l) ≤ max_ct (value_counts l')).
  { clear l l'. intros l l' Hp.
    destruct (decide (value_counts l = [])) as [->|Hne]; [simpl; lia|].
    destruct (max_ct_elem_of _ Hne) as ([x n] & Hin & <-).
    apply elem_of_value_counts in Hin as [_ ->]. simpl.
    rewrite (cuenta_Permutation _ _ _ Hp). apply max_ct_value_counts_ge. }
  intros Hp. apply Nat.le_antisymm; by apply Hle.
Qed.
End series.

(** ** Sums *)

(** The length of the array is fuel enough for [pairwise_sum]: more fuel
    gives the same sum. *)
Lemma pairwise_sum_fuel fuel fuel' a :
  length a ≤ fuel → length a ≤ fuel' → pairwise_sum fuel a = pairwise_sum fuel' a.
Proof.
  revert fuel' a. induction fuel as [|fuel IH]; intros fuel' a Hf Hf'.
  - destruct a; [|simpl in Hf; lia]. by destruct fuel'.
  - destruct fuel' as [|fuel'].
    { destruct a; [|simpl in Hf'; lia]. done. }
    cbn [pairwise_sum]. case_decide; [done|]. case_decide; [done|].
    assert (H2 : 57 ≤ length a / 2 - (length a / 2) mod 8 < length a).
    { pose proof (Nat.div_mod_eq (length a) 2).
      pose proof (Nat.mod_upper_bound (length a) 2).
      pose proof (Nat.mod_upper_bound (length a / 2) 8). lia. }
    f_equal; apply IH; rewrite ?length_take, ?length_drop; lia.
Qed.

(** ** The loader *)

Lemma rename_COL_MAQ col : rename col = COL_MAQ ↔ col = py "Machine Name" ∨ col = COL_MAQ.
Proof.
  unfold rename. split.
  - repeat case_decide; intros Heq; auto; by vm_compute in Heq.
  - intros [-> | ->]; reflexivity.
Qed.

Lemma rename_COL_CLUSTER col : rename col = COL_CLUSTER ↔ col = COL_CLUSTER.
Proof.
  unfold rename. split.
  - repeat case_decide; intros Heq; auto; by vm_compute in Heq.
  - intros ->; reflexivity.
Qed.

Lemma rename_casos col :
  (col = py "Machine Name" ∧ rename col = COL_MAQ)
  ∨ (col = py "Shift" ∧ rename col = py "Turno")
  ∨ (col = py "EQ Type" ∧ rename col = py "EQ_Type")
  ∨ ((col ∉ [py "Machine Name"; py "Shift"; py "EQ Type"]) ∧ rename col = col).
Proof.
  unfold rename. repeat case_decide; subst; auto.
  right. right. right. split; [|done]. set_solver.
Qed.

Lemma cargada1_columns r1 col :
  col ∈ columns (cargada1 r1) ↔ ∃ col0, col = rename col0 ∧ col0 ∈ columns r1.
Proof. unfold cargada1. simpl. by rewrite elem_of_map. Qed.

Lemma cargada1_Turno r1 :
  py "Turno" ∈ columns (cargada1 r1) ↔ py "Shift" ∈ columns r1 ∨ py "Turno" ∈ columns r1.
Proof.
  rewrite cargada1_columns. split.
  - intros (col0 & Hr & Hin).
    destruct (rename_casos col0) as [[-> Hr']|[[-> Hr']|[[-> Hr']|[Hn Hr']]]];
      rewrite Hr' in Hr; try (by vm_compute in Hr); auto. subst. auto.
  - intros [?|?]; [by exists (py "Shift") | by exists (py "Turno")].
Qed.

Lemma cargada1_EQ_Type r1 :
  py "EQ_Type" ∈ columns (cargada1 r1)
  ↔ py "EQ Type" ∈ columns r1 ∨ py "EQ_Type" ∈ columns r1.
Proof.
  rewrite cargada1_columns. split.
  - intros (col0 & Hr & Hin).
    destruct (rename_casos col0) as [[-> Hr']|[[-> Hr']|[[-> Hr']|[Hn Hr']]]];
      rewrite Hr' in Hr; try (by vm_compute in Hr); auto. subst. auto.
  - intros [?|?]; [by exists (py "EQ Type") | by exists (py "EQ_Type")].
Qed.

Lemma doble_Turno r1 :
  doble r1 (py "Turno") ↔ py "Shift" ∈ columns r1 ∧ py "Turno" ∈ columns r1.
Proof.
  unfold doble. rewrite elem_of_map. split.
  - intros (Hin & col0 & Hr & [Hcol0 Hne%not_elem_of_singleton]%elem_of_difference).
    split; [|done].
    destruct (rename_casos col0) as [[-> Hr']|[[-> Hr']|[[-> Hr']|[Hn Hr']]]];
      rewrite Hr' in Hr; try (by vm_compute in Hr); try done; by subst.
  - intros [Hs Ht]. split; [done|]. exists (py "Shift"). split; [done|].
    apply elem_of_difference. split; [done|]. by apply not_elem_of_singleton.
Qed.

Lemma doble_EQ_Type r1 :
  doble r1 (py "EQ_Type") ↔ py "EQ Type" ∈ columns r1 ∧ py "EQ_Type" ∈ columns r1.
Proof.
  unfold doble. rewrite elem_of_map. split.
  - intros (Hin & col0 & Hr & [Hcol0 Hne%not_elem_of_singleton]%elem_of_difference).
    split; [|done].
    destruct (rename_casos col0) as [[-> Hr']|[[-> Hr']|[[-> Hr']|[Hn Hr']]]];
      rewrite Hr' in Hr; try (by vm_compute in Hr); try done; by subst.
  - intros [Hs Ht]. split; [done|]. exists (py "EQ Type"). split; [done|].
    apply elem_of_difference. split; [done|]. by apply not_elem_of_singleton.
Qed.

Lemma load_tabla1_Ok a tabla1 :
  load_tabla1 a = Ok tabla1 ↔
  ∃ r1, TABLA1_FINAL_CON_ID a = Some r1 ∧ cabecera1_ok r1 ∧ tabla1 = cargada1 r1.
Proof.
  unfold load_tabla1, cabecera1_ok, cargada1, getitem.
  destruct (TABLA1_FINAL_CON_ID a) as [r1|]; simpl; [|by split; [|intros (? & [=] & _)]].
  assert (Hmaq : COL_MAQ ∈ (set_map rename (columns r1) : gset pystr)
                 ↔ py "Machine Name" ∈ columns r1 ∨ COL_MAQ ∈ columns r1).
  { rewrite elem_of_map. setoid_rewrite (symmetry_iff (=) COL_MAQ).
    setoid_rewrite rename_COL_MAQ. naive_solver. }
  repeat case_decide; simpl; unfold mret, resultado_ret.
  - split; [done | intros (r0 & [= <-] & [_ Hn] & _); done].
  - split.
    + intros [= <-]. exists r1. split_and!; try done. by apply Hmaq.
    + by intros (r0 & [= <-] & _ & ->).
  - split; [done | intros (r0 & [= <-] & [Hor _] & _)]. by apply Hmaq in Hor.
Qed.

Lemma load_tabla2_Ok a tabla2 :
  load_tabla2 a = Ok tabla2 ↔
  ∃ r2, TABLA2DASH a = Some r2 ∧ cabecera2_ok r2 ∧ tabla2 = cargada2 r2.
Proof.
  unfold load_tabla2, cabecera2_ok, cargada2, getitem.
  destruct (TABLA2DASH a) as [r2|]; simpl; [|by split; [|intros (? & [=] & _)]].
  destruct (decide (COL_TIEMPO_ENTRE_FALLAS ∈ columns r2)) as [Hc|Hc]; simpl;
    [destruct (decide (COL_IDX_TIEMPO ∈ columns r2)) as [Hi|Hi]; simpl|];
    unfold mret, resultado_ret.
  - split; [intros [= <-]; by exists r2 | by intros (r0 & [= <-] & _ & ->)].
  - split; [done | intros (r0 & [= <-] & [_ Hn] & _); done].
  - split; [done | intros (r0 & [= <-] & [Hn _] & _); done].
Qed.

Lemma load_tabla3_Ok a tabla3 :
  load_tabla3 a = Ok tabla3 ↔
  ∃ r3, TABLA3_FINAL a = Some r3 ∧ cabecera3_ok r3 ∧ tabla3 = cargada3 r3.
Proof.
  unfold load_tabla3, cabecera3_ok, cargada3, getitem.
  destruct (TABLA3_FINAL a) as [r3|]; simpl; [|by split; [|intros (? & [=] & _)]].
  destruct (decide (COL_FORECAST ∈ columns r3)) as [Hc|Hc]; simpl;
    [destruct (decide (COL_IDX_TIEMPO ∈ columns r3)) as [Hi|Hi]; simpl|];
    unfold mret, resultado_ret.
  - split; [intros [= <-]; by exists r3 | by intros (r0 & [= <-] & _ & ->)].
  - split; [done | intros (r0 & [= <-] & [_ Hn] & _); done].
  - split; [done | intros (r0 & [= <-] & [Hn _] & _); done].
Qed.

(** [load_data] returns exactly when the three files are there and their
    headers have the columns it reads; the cells play no part. *)
Lemma load_data_Ok a tabla1 tabla2 tabla3 :
  load_data a = Ok (tabla1, tabla2, tabla3) ↔
  ∃ r1 r2 r3,
    TABLA1_FINAL_CON_ID a = Some r1 ∧ TABLA2DASH a = Some r2 ∧ TABLA3_FINAL a = Some r3
    ∧ cabecera1_ok r1 ∧ cabecera2_ok r2 ∧ cabecera3_ok r3
    ∧ tabla1 = cargada1 r1 ∧ tabla2 = cargada2 r2 ∧ tabla3 = cargada3 r3.
Proof.
  unfold load_data. split.
  - destruct (load_tabla1 a) as [x1|] eqn:H1; [|done].
    destruct (load_tabla2 a) as [x2|] eqn:H2; [|done].
    destruct (load_tabla3 a) as [x3|] eqn:H3; [|done].
    unfold mret, resultado_ret. simpl. intros [= <- <- <-].
    apply load_tabla1_Ok in H1 as (r1 & ? & ? & ?).
    apply load_tabla2_Ok in H2 as (r2 & ? & ? & ?).
    apply load_tabla3_Ok in H3 as (r3 & ? & ? & ?).
    exists r1, r2, r3. done.
  - intros (r1 & r2 & r3 & F1 & F2 & F3 & C1 & C2 & C3 & -> & -> & ->).
    assert (H1 : load_tabla1 a = Ok (cargada1 r1)) by (apply load_tabla1_Ok; eauto).
    assert (H2 : load_tabla2 a = Ok (cargada2 r2)) by (apply load_tabla2_Ok; eauto).
    assert (H3 : load_tabla3 a = Ok (cargada3 r3)) by (apply load_tabla3_Ok; eauto).
    by rewrite H1, H2, H3.
Qed.

(** ** The page *)

Lemma elem_of_dropna {A} (col : list (option A)) x : x ∈ dropna col ↔ Some x ∈ col.
Proof.
  unfold dropna. rewrite list_elem_of_omap. split.
  - intros (y & Hin & Hy). by rewrite <- Hy.
  - intros Hin. by exists (Some x).
Qed.

Lemma maquinas_Ok tabla1 tabla2 tabla3 cluster_sel ops :
  maquinas (tabla1, tabla2, tabla3) cluster_sel = Ok ops ↔
  COL_MAQ ∈ columns tabla2 ∧ COL_MAQ ∈ columns tabla3
  ∧ ops = sorted (elements
      (list_to_set (maqs_t1 tabla1 cluster_sel)
       ∪ list_to_set (unique (dropna (f2_maquina <$> filas tabla2)))
       ∪ list_to_set (unique (dropna (f3_maquina <$> filas tabla3))) : gset pystr)).
Proof.
  unfold maquinas, getitem.
  destruct (decide (COL_MAQ ∈ columns tabla2)) as [H2|H2]; simpl;
    [destruct (decide (COL_MAQ ∈ columns tabla3)) as [H3|H3]; simpl|];
    unfold mret, resultado_ret.
  - split; [by intros [= <-] | by intros (_ & _ & ->)].
  - split; [done | by intros (_ & ? & _)].
  - split; [done | by intros (? & _ & _)].
Qed.

(** The machines offered: those of [maqs_t1] and every machine of Tables 2
    and 3. *)
Lemma elem_of_maquinas tabla1 tabla2 tabla3 cluster_sel ops m :
  maquinas (tabla1, tabla2, tabla3) cluster_sel = Ok ops →
  m ∈ ops ↔ m ∈ maqs_t1 tabla1 cluster_sel
            ∨ Some m ∈ f2_maquina <$> filas tabla2
            ∨ Some m ∈ f3_maquina <$> filas tabla3.
Proof.
  intros (_ & _ & ->)%maquinas_Ok.
  rewrite elem_of_sorted, elem_of_elements, !elem_of_union, !elem_of_list_to_set.
  rewrite !elem_of_unique, !elem_of_dropna. tauto.
Qed.

Lemma main_Completa a cluster_sel maquina_sel p :
  main a cluster_sel maquina_sel = Ok (Completa p) ↔
  ∃ tablas ops,
    load_data a = Ok tablas ∧ maquinas tablas cluster_sel = Ok ops
    ∧ p = tablero tablas (clusters_disp tablas.1.1) ops cluster_sel maquina_sel
    ∧ seccion2 a (t1 p) = Ok ().
Proof.
  unfold main. destruct (load_data a) as [tablas|e]; simpl.
  - destruct (maquinas tablas cluster_sel) as [ops|e] eqn:Hops; simpl.
    + destruct (seccion2 a _) as [[]|e] eqn:Hs2; simpl; unfold mret, resultado_ret.
      * split.
        -- intros [= <-]. by exists tablas, ops.
        -- intros (? & ? & [= <-] & Hops' & -> & _). rewrite Hops in Hops'.
           by injection Hops' as <-.
      * split; [done | intros (? & ? & [= <-] & Hops' & -> & Hs2')].
        rewrite Hops in Hops'. injection Hops' as <-. by rewrite Hs2 in Hs2'.
    + split; [done | intros (? & ? & [= <-] & Hops' & _)]. by rewrite Hops in Hops'.
  - split; [by destruct e | by intros (? & ? & [=] & _)].
Qed.

(** What a complete page holds, field by field. *)
Lemma main_inv a cluster_sel maquina_sel p tabla1 tabla2 tabla3 :
  main a cluster_sel maquina_sel = Ok (Completa p) →
  load_data a = Ok (tabla1, tabla2, tabla3) →
  (t1 p, t2 p, t3 p)
    = filtro_maquina (filtro_cluster (tabla1, tabla2, tabla3) cluster_sel) maquina_sel
  ∧ opciones_cluster p = Todos :: clusters_disp tabla1
  ∧ (∃ ops, maquinas (tabla1, tabla2, tabla3) cluster_sel = Ok ops
            ∧ opciones_maquina p = Todas :: ops)
  ∧ kpi_total_fallas p = total_fallas (t1 p)
  ∧ kpi_maq_top p = texto_maq_top tabla1
  ∧ kpi_tiempo p = metrica_tiempo (prom_tiempo (t2 p))
  ∧ kpi_cluster p = cluster_cat (t1 p) cluster_sel maquina_sel
  ∧ fig_serie p = serie_tiempo (t2 p) (t3 p) cluster_sel maquina_sel
  ∧ fig_box p = boxplot (t2 p).
Proof.
  intros (tablas & ops & Hload & Hops & -> & _)%main_Completa Hload'.
  rewrite Hload in Hload'. injection Hload' as ->. unfold tablero.
  destruct (filtro_maquina _ _) as [[c1 c2] c3]. simpl.
  split_and!; try done. by exists ops.
Qed.

(** The two charts of Section 2 are on a complete page. *)
Lemma main_barras a cluster_sel maquina_sel p :
  main a cluster_sel maquina_sel = Ok (Completa p) →
  fig_turnos p = turno_counts (t1 p) ∧ fig_ubic p = ubic_counts (t1 p).
Proof.
  intros (tablas & ops & _ & _ & -> & _)%main_Completa. unfold tablero.
  by destruct (filtro_maquina _ _) as [[c1 c2] c3].
Qed.

(** Section 2 raises nothing but [ValueError]. *)
Lemma seccion2_Raise a t e : seccion2 a t = Raise e → e = ValueError.
Proof.
  unfold seccion2, cuenta_columna. simpl.
  destruct (TABLA1_FINAL_CON_ID a) as [r1|]; repeat case_decide; simpl; congruence.
Qed.

Lemma cuenta_columna_Ok a r1 col (t : Tabla Fila1) :
  TABLA1_FINAL_CON_ID a = Some r1 →
  cuenta_columna a col t = Ok () ↔ ¬ (col ∈ columns t ∧ filas t ≠ [] ∧ doble r1 col).
Proof.
  intros F1. unfold cuenta_columna. rewrite F1.
  destruct (decide (col ∈ columns t ∧ ¬ empty t)) as [[Hc He]|Hno]; unfold empty in *.
  - destruct (decide (doble r1 col)) as [Hd|Hd].
    + split; [done|]. intros Hn. exfalso. by apply Hn.
    + split; [|done]. intros _ (_ & _ & ?). done.
  - split; [|done]. intros _ (? & ? & _). by apply Hno.
Qed.

Lemma seccion2_cuenta a t :
  seccion2 a t = Ok ()
  ↔ cuenta_columna a (py "Turno") t = Ok () ∧ cuenta_columna a (py "EQ_Type") t = Ok ().
Proof.
  unfold seccion2. destruct (cuenta_columna a (py "Turno") t) as [[]|e]; simpl.
  - tauto.
  - split; [done | by intros [? _]].
Qed.

(** Section 2 goes through when no row is left or the file carries the shift
    and the equipment type under one name each. *)
Lemma seccion2_Ok a r1 (t : Tabla Fila1) :
  TABLA1_FINAL_CON_ID a = Some r1 → columns t = columns (cargada1 r1) →
  seccion2 a t = Ok () ↔ filas t = [] ∨ sin_nombres_repetidos r1.
Proof.
  intros F1 Hcols.
  rewrite seccion2_cuenta, !(cuenta_columna_Ok a r1) by done.
  unfold sin_nombres_repetidos. rewrite Hcols, cargada1_Turno, cargada1_EQ_Type.
  rewrite doble_Turno, doble_EQ_Type.
  destruct (decide (filas t = [])); tauto.
Qed.

(** ** The filters *)

Lemma elem_of_maquinas_cluster (t : Tabla Fila1) m :
  m ∈ maquinas_cluster t ↔ ∃ f, f ∈ filas t ∧ f1_maquina f = Some m.
Proof.
  unfold maquinas_cluster. rewrite elem_of_unique, elem_of_dropna, list_elem_of_fmap.
  naive_solver.
Qed.

Lemma filtro_cluster_eq tabla1 tabla2 tabla3 cluster_sel :
  cluster_sel ≠ Todos → COL_CLUSTER ∈ columns tabla1 →
  let M := maquinas_cluster (filtra (en_cluster cluster_sel) tabla1) in
  filtro_cluster (tabla1, tabla2, tabla3) cluster_sel
  = (filtra (en_cluster cluster_sel) tabla1,
     filtra (λ f, isin M (f2_maquina f)) tabla2,
     filtra (λ f, isin M (f3_maquina f)) tabla3).
Proof. intros Hsel Hcol. unfold filtro_cluster. by rewrite decide_True. Qed.

Lemma filtro_cluster_skip tabla1 tabla2 tabla3 cluster_sel :
  cluster_sel = Todos ∨ COL_CLUSTER ∉ columns tabla1 →
  filtro_cluster (tabla1, tabla2, tabla3) cluster_sel = (tabla1, tabla2, tabla3).
Proof. intros Hskip. unfold filtro_cluster. rewrite decide_False; [done | tauto]. Qed.

Lemma filtro_maquina_eq c1 c2 c3 maquina_sel :
  maquina_sel ≠ Todas →
  filtro_maquina (c1, c2, c3) maquina_sel
  = (filtra (λ f, f1_maquina f = Some maquina_sel) c1,
     filtra (λ f, f2_maquina f = Some maquina_sel) c2,
     filtra (λ f, f3_maquina f = Some maquina_sel) c3).
Proof. intros Hsel. unfold filtro_maquina. by rewrite decide_True. Qed.

Lemma filtro_maquina_Todas tablas : filtro_maquina tablas Todas = tablas.
Proof. by destruct tablas as [[??]?]. Qed.

(** The filters keep the header of Table 1. *)
Lemma filtros_columns tabla1 tabla2 tabla3 cluster_sel maquina_sel :
  columns (filtro_maquina (filtro_cluster (tabla1, tabla2, tabla3) cluster_sel)
             maquina_sel).1.1 = columns tabla1.
Proof.
  unfold filtro_cluster, filtro_maquina. by repeat case_decide.
Qed.

(** A complete page exists as soon as the frames load, the machine columns
    of Tables 2 and 3 are there and the file of Table 1 carries the shift and
    the equipment type under one name each. *)
Lemma main_Ok a cluster_sel maquina_sel r1 tabla1 tabla2 tabla3 :
  TABLA1_FINAL_CON_ID a = Some r1 → sin_nombres_repetidos r1 →
  load_data a = Ok (tabla1, tabla2, tabla3) →
  COL_MAQ ∈ columns tabla2 → COL_MAQ ∈ columns tabla3 →
  ∃ p, main a cluster_sel maquina_sel = Ok (Completa p).
Proof.
  intros F1 Hsin Hload H2 H3. eexists. apply main_Completa. eexists _, _.
  split; [done|]. split; [by apply maquinas_Ok|]. split; [done|].
  apply (seccion2_Ok a r1); [done| |by right].
  apply load_data_Ok in Hload as (r1' & _ & _ & F1' & _ & _ & _ & _ & _ & -> & _).
  rewrite F1 in F1'. injection F1' as <-. unfold tablero.
  rewrite <- (filtros_columns (cargada1 r1) tabla2 tabla3 cluster_sel maquina_sel).
  by destruct (filtro_maquina _ _) as [[c1 c2] c3].
Qed.

(** C1: when a cluster other than "Todos" is selected and Table 1 has the
    column [Cluster], the machines that restrict Tables 2 and 3 are the
    distinct non-missing machines of the rows of Table 1 in that cluster, and
    the restricted Tables 2 and 3 keep exactly the rows whose machine is one
    of them; with "Todas" selected these are the tables of the page. *)
Theorem C1_maquinas_cluster a cluster_sel tabla1 tabla2 tabla3 :
  load_data a = Ok (tabla1, tabla2, tabla3) →
  cluster_sel ≠ Todos →
  COL_CLUSTER ∈ columns tabla1 →
  let c1 := filtra (en_cluster cluster_sel) tabla1 in
  let M := maquinas_cluster c1 in
  ∃ c2 c3,
    filtro_cluster (tabla1, tabla2, tabla3) cluster_sel = (c1, c2, c3)
    ∧ NoDup M
    ∧ (∀ m, m ∈ M ↔
         ∃ f, f ∈ filas tabla1 ∧ astype_str (f1_cluster f) = cluster_sel
              ∧ f1_maquina f = Some m)
    ∧ filas c2 = filter (λ f, isin M (f2_maquina f)) (filas tabla2)
    ∧ filas c3 = filter (λ f, isin M (f3_maquina f)) (filas tabla3)
    ∧ (∀ f, f ∈ filas c2 ↔ f ∈ filas tabla2 ∧ ∃ m, f2_maquina f = Some m ∧ m ∈ M)
    ∧ (∀ f, f ∈ filas c3 ↔ f ∈ filas tabla3 ∧ ∃ m, f3_maquina f = Some m ∧ m ∈ M)
    ∧ (∀ p, main a cluster_sel Todas = Ok (Completa p) →
         t1 p = c1 ∧ t2 p = c2 ∧ t3 p = c3).
Proof.
  intros Hload Hsel Hcol c1 M.
  eexists _, _. split; [by apply filtro_cluster_eq|].
  split; [apply NoDup_unique|].
  split.
  { intros m. unfold M. rewrite elem_of_maquinas_cluster. unfold c1; simpl.
    setoid_rewrite list_elem_of_filter. unfold en_cluster. naive_solver. }
  split; [done|]. split; [done|].
  split; [|split].
  - intros f. simpl. rewrite list_elem_of_filter. unfold isin. tauto.
  - intros f. simpl. rewrite list_elem_of_filter. unfold isin. tauto.
  - intros p Hmain. destruct (main_inv _ _ _ _ _ _ _ Hmain Hload) as [Heq _].
    rewrite filtro_maquina_Todas, filtro_cluster_eq in Heq by done.
    by injection Heq as -> -> ->.
Qed.

Lemma filtro_cluster_sublist tabla1 tabla2 tabla3 cluster_sel c1 c2 c3 :
  filtro_cluster (tabla1, tabla2, tabla3) cluster_sel = (c1, c2, c3) →
  filas c1 `sublist_of` filas tabla1
  ∧ filas c2 `sublist_of` filas tabla2
  ∧ filas c3 `sublist_of` filas tabla3.
Proof.
  unfold filtro_cluster. case_decide; intros [= <- <- <-]; simpl;
    split_and!; try done; apply sublist_filter.
Qed.

(** A complete page comes from the frames [load_data] makes of the files,
    and the machine columns of Tables 2 and 3 were there. *)
Lemma main_load a cluster_sel maquina_sel p r1 r2 r3 :
  TABLA1_FINAL_CON_ID a = Some r1 → TABLA2DASH a = Some r2 → TABLA3_FINAL a = Some r3 →
  main a cluster_sel maquina_sel = Ok (Completa p) →
  load_data a = Ok (cargada1 r1, cargada2 r2, cargada3 r3)
  ∧ COL_MAQ ∈ columns r2 ∧ COL_MAQ ∈ columns r3.
Proof.
  intros F1 F2 F3 (tablas & ops & Hload & Hops & _ & _)%main_Completa.
  destruct tablas as [[tabla1 tabla2] tabla3].
  pose proof Hload as (r1' & r2' & r3' & F1' & F2' & F3' & _ & _ & _ & -> & -> & ->)%load_data_Ok.
  rewrite F1 in F1'. rewrite F2 in F2'. rewrite F3 in F3'.
  injection F1' as <-. injection F2' as <-. injection F3' as <-.
  by apply maquinas_Ok in Hops as (? & ? & _).
Qed.

(** C2: with a machine other than "Todas" selected, whatever the cluster,
    every row of the three filtered tables has the selected name as its
    machine, which is the upper-cased text of the cell of the file; the
    machine filter runs on the tables the cluster filter leaves and keeps a
    part of their rows. *)
Theorem C2_maquina_exacta a cluster_sel maquina_sel p r1 r2 r3 :
  TABLA1_FINAL_CON_ID a = Some r1 → TABLA2DASH a = Some r2 → TABLA3_FINAL a = Some r3 →
  main a cluster_sel maquina_sel = Ok (Completa p) →
  maquina_sel ≠ Todas →
  (∀ f, f ∈ filas (t1 p) →
     f1_maquina f = Some maquina_sel
     ∧ ∃ f0, f0 ∈ filas r1 ∧ f = asigna_maquina1 normaliza f0
             ∧ upper (astype_str (f1_maquina f0)) = maquina_sel)
  ∧ (∀ f, f ∈ filas (t2 p) →
     f2_maquina f = Some maquina_sel
     ∧ ∃ f0, f0 ∈ filas r2 ∧ f = asigna_fila2 normaliza f0
             ∧ upper (astype_str (f2_maquina f0)) = maquina_sel)
  ∧ (∀ f, f ∈ filas (t3 p) →
     f3_maquina f = Some maquina_sel
     ∧ ∃ f0, f0 ∈ filas r3 ∧ f = asigna_fila3 normaliza f0
             ∧ upper (astype_str (f3_maquina f0)) = maquina_sel)
  ∧ ∃ c1 c2 c3,
      filtro_cluster (cargada1 r1, cargada2 r2, cargada3 r3) cluster_sel = (c1, c2, c3)
      ∧ filas (t1 p) = filter (λ f, f1_maquina f = Some maquina_sel) (filas c1)
      ∧ filas (t2 p) = filter (λ f, f2_maquina f = Some maquina_sel) (filas c2)
      ∧ filas (t3 p) = filter (λ f, f3_maquina f = Some maquina_sel) (filas c3)
      ∧ filas (t1 p) `sublist_of` filas c1
      ∧ filas (t2 p) `sublist_of` filas c2
      ∧ filas (t3 p) `sublist_of` filas c3.
Proof.
  intros F1 F2 F3 Hmain Hsel.
  destruct (main_load _ _ _ _ _ _ _ F1 F2 F3 Hmain) as (Hload & Hm2 & Hm3).
  destruct (main_inv _ _ _ _ _ _ _ Hmain Hload) as [Heq _].
  destruct (filtro_cluster _ cluster_sel) as [[c1 c2] c3] eqn:Hfc.
  rewrite filtro_maquina_eq in Heq by done. injection Heq as -> -> ->.
  apply filtro_cluster_sublist in Hfc as (S1 & S2 & S3). simpl.
  split_and!.
  - intros f [Hf Hin]%list_elem_of_filter. split; [done|].
    apply (sublist_subseteq _ _ S1) in Hin. simpl in Hin.
    apply list_elem_of_fmap in Hin as (f0 & -> & Hin).
    exists f0. split_and!; try done. by injection Hf.
  - intros f [Hf Hin]%list_elem_of_filter. split; [done|].
    apply (sublist_subseteq _ _ S2) in Hin. simpl in Hin.
    rewrite decide_True in Hin by done.
    apply list_elem_of_fmap in Hin as (f0 & -> & Hin).
    exists f0. split_and!; try done. by injection Hf.
  - intros f [Hf Hin]%list_elem_of_filter. split; [done|].
    apply (sublist_subseteq _ _ S3) in Hin. simpl in Hin.
    rewrite decide_True in Hin by done.
    apply list_elem_of_fmap in Hin as (f0 & -> & Hin).
    exists f0. split_and!; try done. by injection Hf.
  - exists c1, c2, c3. split_and!; try done; apply sublist_filter.
Qed.

(** ** The indicators *)

(** A complete page, without naming the frames in advance. *)
Lemma main_inv_ex a cluster_sel maquina_sel p :
  main a cluster_sel maquina_sel = Ok (Completa p) →
  ∃ tabla1 tabla2 tabla3, load_data a = Ok (tabla1, tabla2, tabla3).
Proof.
  intros ([[tabla1 tabla2] tabla3] & ops & Hload & _)%main_Completa. eauto.
Qed.

(** Every mode is a value of the column with the highest count, and a
    column that is not empty has a mode. *)
Lemma elem_of_mode l m :
  m ∈ mode l ↔ m ∈ l ∧ ∀ c, cuenta c l ≤ cuenta m l.
Proof.
  unfold mode. rewrite elem_of_sorted, list_elem_of_filter, elem_of_unique. split.
  - intros [Hm Hin]. split; [done|]. intros c. rewrite Hm.
    apply max_ct_value_counts_ge.
  - intros [Hin Hmax]. split; [|done].
    apply Nat.le_antisymm; [apply max_ct_value_counts_ge|].
    assert (Hvc : value_counts l ≠ []).
    { intros Hnil%value_counts_nil_inv. subst l. by apply not_elem_of_nil in Hin. }
    destruct (max_ct_elem_of _ Hvc) as ([x n] & Hx & <-).
    apply elem_of_value_counts in Hx as [_ ->]. apply Hmax.
Qed.

Lemma mode_nil_inv l : mode l = [] → l = [].
Proof.
  intros Hmode. destruct (decide (value_counts l = [])) as [Hvc|Hvc];
    [by apply value_counts_nil_inv|].
  destruct (max_ct_elem_of _ Hvc) as ([x n] & Hx & Hn). simpl in Hn. subst n.
  pose proof Hx as [Hin Hc]%elem_of_value_counts.
  assert (Hm : x ∈ mode l).
  { apply elem_of_mode. split; [done|]. intros c. rewrite <- Hc.
    apply max_ct_value_counts_ge. }
  rewrite Hmode in Hm. by apply not_elem_of_nil in Hm.
Qed.

(** The first mode is the least of the modes. *)
Lemma mode_head_le l c moda m : mode l = c :: moda → m ∈ mode l → pystr_le c m.
Proof.
  intros Hmode Hm. pose proof (sorted_StronglySorted
    (filter (λ x, cuenta x l = max_ct (value_counts l)) (unique l))) as Hs.
  fold (mode l) in Hs. rewrite Hmode in Hs, Hm.
  apply StronglySorted_inv in Hs as [_ Hall].
  apply elem_of_cons in Hm as [->|Hm].
  - destruct (total pystr_le c c); done.
  - by apply (proj1 (Forall_forall _ _) Hall).
Qed.

(** The cluster indicator echoes a selected cluster; with "Todos" and
    "Todas" it reads "Varios"; with "Todos" and one machine it is a most
    frequent text among the texts that [astype(str)] gives for the cluster
    cells of the rows of Table 1 of that machine, the text "nan" of a
    missing cell among them, and "Sin datos" when Table 1 has no column
    [Cluster] or no row is left.  Among several most frequent texts the
    indicator is the first in the order of strings. *)
Lemma kpi_cluster_casos a cluster_sel maquina_sel p tabla1 tabla2 tabla3 :
  main a cluster_sel maquina_sel = Ok (Completa p) →
  load_data a = Ok (tabla1, tabla2, tabla3) →
  (cluster_sel ≠ Todos → kpi_cluster p = cluster_sel)
  ∧ (cluster_sel = Todos → maquina_sel = Todas → kpi_cluster p = py "Varios")
  ∧ (cluster_sel = Todos → maquina_sel ≠ Todas →
       filas (t1 p) = filter (λ f, f1_maquina f = Some maquina_sel) (filas tabla1)
       ∧ (COL_CLUSTER ∉ columns tabla1 ∨ filas (t1 p) = [] →
            kpi_cluster p = py "Sin datos")
       ∧ (COL_CLUSTER ∈ columns tabla1 → filas (t1 p) ≠ [] →
            let clusters := astype_str ∘ f1_cluster <$> filas (t1 p) in
            kpi_cluster p ∈ clusters
            ∧ (∀ c, cuenta c clusters ≤ cuenta (kpi_cluster p) clusters)
            ∧ (∀ c, c ∈ clusters →
                 cuenta c clusters = cuenta (kpi_cluster p) clusters →
                 pystr_le (kpi_cluster p) c))).
Proof.
  intros Hmain Hload.
  destruct (main_inv _ _ _ _ _ _ _ Hmain Hload) as (Heq & _ & _ & _ & _ & _ & -> & _).
  assert (Hcols : columns (t1 p) = columns tabla1).
  { rewrite <- (filtros_columns tabla1 tabla2 tabla3 cluster_sel maquina_sel).
    by rewrite <- Heq. }
  unfold cluster_cat. split_and!.
  - intros Hsel. by rewrite decide_True.
  - intros -> ->. rewrite decide_False by (intros Hne; by apply Hne).
    by rewrite decide_True.
  - intros -> Hsel.
    rewrite filtro_cluster_skip, filtro_maquina_eq in Heq by auto.
    injection Heq as H1 _ _.
    rewrite (decide_False (P := Todos ≠ Todos)) by (intros Hne; by apply Hne).
    rewrite (decide_False (P := maquina_sel = Todas)) by done.
    rewrite Hcols. split_and!.
    + by rewrite H1.
    + intros Hno. rewrite decide_False; [done|]. unfold empty. tauto.
    + intros Hcol Hne. set (clusters := astype_str ∘ f1_cluster <$> filas (t1 p)).
      rewrite decide_True by done.
      destruct (mode clusters) as [|c moda] eqn:Hmode.
      * apply mode_nil_inv, fmap_nil_inv in Hmode. done.
      * assert (Hc : c ∈ mode clusters) by (rewrite Hmode; by left).
        pose proof Hc as [Hin Hmax]%elem_of_mode. split_and!; try done.
        intros c' Hin' Heq. apply (mode_head_le _ _ _ _ Hmode).
        apply elem_of_mode. split; [done|]. intros x. rewrite Heq. apply Hmax.
Qed.

(** C5 fails on the code: machine A has a failure in cluster X and two
    failures without cluster; with "Todos" and A selected the indicator
    reads "nan", the text of the missing cells, which is the cluster of no
    row and which the cluster selector does not offer.  The branch of
    line 224 for a column without mode is never taken. *)
Theorem C5_nan_como_cluster :
  ∃ p,
    main archivos_sin_cluster Todos (py "A") = Ok (Completa p)
    ∧ f1_cluster <$> filas (t1 p) = [Some (py "X"); None; None]
    ∧ kpi_cluster p = py "nan"
    ∧ opciones_cluster p = [Todos; py "X"]
    ∧ (∀ t : Tabla Fila1, filas t ≠ [] →
         mode (astype_str ∘ f1_cluster <$> filas t) ≠ []).
Proof.
  eexists. split; [vm_compute; reflexivity|].
  split; [vm_compute; reflexivity|]. split; [vm_compute; reflexivity|].
  split; [vm_compute; reflexivity|].
  intros t Hne Hmode. apply mode_nil_inv, fmap_nil_inv in Hmode. done.
Qed.

Lemma dropna_nil_Forall {A} (col : list (option A)) :
  dropna col = [] ↔ Forall (λ v, v = None) col.
Proof.
  unfold dropna. induction col as [|[x|] col IH]; simpl.
  - split; [constructor | done].
  - split; [done | by intros [[=] _]%Forall_cons_1].
  - rewrite IH, Forall_cons. naive_solver.
Qed.

(** The mean of a column without values is [NaN]. *)
Lemma mean_sin_valores col : Forall (λ v, v = None) col → mean col = nan.
Proof.
  intros Hall%dropna_nil_Forall. unfold mean. by rewrite Hall.
Qed.

(** The mean of a column with a value is the sum of the column, the missing
    cells adding 0, divided by the number of values. *)
Lemma mean_con_valores col :
  ¬ Forall (λ v, v = None) col →
  mean col = (np_sum (default 0 <$> col) / float_of_nat (length (dropna col)))%float.
Proof.
  intros Hno. unfold mean. rewrite decide_True; [done|].
  destruct (dropna col) eqn:Hd; [|simpl; lia].
  exfalso. apply Hno. by apply dropna_nil_Forall.
Qed.

(** The mean-interval indicator of a page. *)
Lemma main_kpi_tiempo a cluster_sel maquina_sel p :
  main a cluster_sel maquina_sel = Ok (Completa p) →
  kpi_tiempo p
  = if decide (filas (t2 p) = []) then Sin_datos
    else if is_nan (mean (f2_tiempo <$> filas (t2 p))) then Sin_datos
         else Dato (mean (f2_tiempo <$> filas (t2 p))).
Proof.
  intros Hmain.
  destruct (main_inv_ex _ _ _ _ Hmain) as (tabla1 & tabla2 & tabla3 & Hload).
  destruct (main_inv _ _ _ _ _ _ _ Hmain Hload) as (_ & _ & _ & _ & _ & -> & _).
  unfold prom_tiempo, metrica_tiempo, empty.
  destruct (decide (filas (t2 p) = [])) as [Hnil|Hne].
  - by rewrite decide_False by tauto.
  - by rewrite decide_True by tauto.
Qed.



(** C8: the line chart gives way to the message exactly when a cluster
    other than "Todos" is selected with "Todas"; in every other case the
    chart is drawn, unless the filtered Table 2 is empty. *)
Theorem C8_serie_suprimida a cluster_sel maquina_sel p :
  main a cluster_sel maquina_sel = Ok (Completa p) →
  (fig_serie p = Serie_info ↔ cluster_sel ≠ Todos ∧ maquina_sel = Todas)
  ∧ (¬ (cluster_sel ≠ Todos ∧ maquina_sel = Todas) →
       (filas (t2 p) = [] → fig_serie p = Serie_warning)
       ∧ (filas (t2 p) ≠ [] →
            fig_serie p = Serie_lineas
              (serie_real (t2 p) ++ (if decide (filas (t3 p) = []) then [] else serie_fore (t3 p))))).
Proof.
  intros Hmain.
  destruct (main_inv_ex _ _ _ _ Hmain) as (tabla1 & tabla2 & tabla3 & Hload).
  destruct (main_inv _ _ _ _ _ _ _ Hmain Hload) as (_ & _ & _ & _ & _ & _ & _ & -> & _).
  unfold serie_tiempo, empty. split.
  - repeat case_decide; naive_solver.
  - intros Hno. rewrite decide_False by done. split.
    + intros Hnil. by rewrite decide_True.
    + intros Hne. rewrite decide_False by done.
      destruct (decide (filas (t3 p) = [])) as [H3|H3].
      * rewrite decide_False by tauto. by rewrite app_nil_r.
      * by rewrite decide_True.
Qed.

(** ** The machine with most failures *)

(** The machine indicator reads the frame [load_data] makes of the first
    file, whatever is selected. *)
Lemma main_kpi_maq_top a cluster_sel maquina_sel p r1 :
  TABLA1_FINAL_CON_ID a = Some r1 →
  main a cluster_sel maquina_sel = Ok (Completa p) →
  kpi_maq_top p = texto_maq_top (cargada1 r1).
Proof.
  intros F1 Hmain.
  destruct (main_inv_ex _ _ _ _ Hmain) as (tabla1 & tabla2 & tabla3 & Hload).
  destruct (main_inv _ _ _ _ _ _ _ Hmain Hload) as (_ & _ & _ & _ & -> & _).
  apply load_data_Ok in Hload as (r1' & _ & _ & F1' & _ & _ & _ & _ & _ & -> & _).
  rewrite F1 in F1'. by injection F1' as <-.
Qed.

(** The winner is a name of [serie_m], its count is its number of
    occurrences and no name occurs more often; "Sin datos" is shown when
    [serie_m] is empty. *)
Lemma texto_maq_top_spec tabla1 :
  match texto_maq_top tabla1 with
  | Sin_datos => serie_m tabla1 = []
  | Dato (m, n) =>
      m ∈ serie_m tabla1 ∧ n = cuenta m (serie_m tabla1)
      ∧ n = max_ct (value_counts (serie_m tabla1))
  end.
Proof.
  unfold texto_maq_top. case_decide as Hemp.
  - case_decide as Hvc.
    + destruct (idxmax_Some _ Hvc) as (x & -> & Hx).
      apply elem_of_value_counts in Hx as [Hin Hn]. done.
    + by apply value_counts_nil_inv.
  - unfold serie_m, empty in *. by rewrite Hemp.
Qed.

Lemma serie_m_Permutation r1 r1' :
  filas r1 ≡ₚ filas r1' → serie_m (cargada1 r1) ≡ₚ serie_m (cargada1 r1').
Proof. intros Hp. unfold serie_m, dropna, cargada1. simpl. by rewrite Hp. Qed.

(** C6 as stated fails: the two orders of the same two rows give two
    different winners. *)
Lemma C6_contraejemplo :
  ∃ r1 r1' p p',
    TABLA1_FINAL_CON_ID archivos_AB = Some r1
    ∧ TABLA1_FINAL_CON_ID archivos_BA = Some r1'
    ∧ filas r1 ≡ₚ filas r1'
    ∧ main archivos_AB Todos Todas = Ok (Completa p)
    ∧ main archivos_BA Todos Todas = Ok (Completa p')
    ∧ kpi_maq_top p = Dato (py "A", 1)
    ∧ kpi_maq_top p' = Dato (py "B", 1).
Proof.
  eexists _, _, _, _. split; [reflexivity|]. split; [reflexivity|].
  split; [apply Permutation_swap|].
  split; [vm_compute; reflexivity|]. split; [vm_compute; reflexivity|].
  split; vm_compute; reflexivity.
Qed.

(** C6, amended: for two first files whose rows are permutations of each
    other, and whatever is selected in each run, the top-machine indicator
    shows "Sin datos" in both runs or the same count in both; each winner is a
    name with that highest count, and the two winners are the same name when
    only one name reaches it. *)
Theorem C6_maq_top_permutacion a a' r1 r1' cluster_sel maquina_sel cluster_sel'
    maquina_sel' p p' :
  TABLA1_FINAL_CON_ID a = Some r1 →
  TABLA1_FINAL_CON_ID a' = Some r1' →
  filas r1 ≡ₚ filas r1' →
  main a cluster_sel maquina_sel = Ok (Completa p) →
  main a' cluster_sel' maquina_sel' = Ok (Completa p') →
  (kpi_maq_top p = Sin_datos ↔ kpi_maq_top p' = Sin_datos)
  ∧ ∀ m n, kpi_maq_top p = Dato (m, n) →
      ∃ m', kpi_maq_top p' = Dato (m', n)
            ∧ cuenta m (serie_m (cargada1 r1)) = n
            ∧ cuenta m' (serie_m (cargada1 r1)) = n
            ∧ (∀ x, cuenta x (serie_m (cargada1 r1)) ≤ n)
            ∧ ((∀ x, x ≠ m → cuenta x (serie_m (cargada1 r1)) < n) → m' = m).
Proof.
  intros F1 F1' Hperm Hmain Hmain'.
  rewrite (main_kpi_maq_top _ _ _ _ _ F1 Hmain).
  rewrite (main_kpi_maq_top _ _ _ _ _ F1' Hmain').
  pose proof (serie_m_Permutation _ _ Hperm) as HL.
  pose proof (texto_maq_top_spec (cargada1 r1)) as Hs.
  pose proof (texto_maq_top_spec (cargada1 r1')) as Hs'.
  set (L := serie_m (cargada1 r1)) in *. set (L' := serie_m (cargada1 r1')) in *.
  destruct (texto_maq_top (cargada1 r1)) as [|[m n]];
    destruct (texto_maq_top (cargada1 r1')) as [|[m' n']].
  - split; [done|]. by intros m n [=].
  - exfalso. destruct Hs' as (Hin & _). rewrite <- HL, Hs in Hin.
    by apply not_elem_of_nil in Hin.
  - exfalso. destruct Hs as (Hin & _). rewrite HL, Hs' in Hin.
    by apply not_elem_of_nil in Hin.
  - split; [done|]. intros ? ? [= <- <-].
    destruct Hs as (Hin & Hn & Hmax). destruct Hs' as (Hin' & Hn' & Hmax').
    assert (Hnn : n' = n).
    { rewrite Hmax, Hmax'. symmetry. by apply max_ct_value_counts_Permutation. }
    rewrite Hnn in Hn' |- *. rewrite <- (cuenta_Permutation _ _ m' HL) in Hn'.
    exists m'. split_and!; try done.
    + intros x. rewrite Hmax. apply max_ct_value_counts_ge.
    + intros Huniq. destruct (decide (m' = m)) as [|Hne]; [done|].
      specialize (Huniq m' Hne). lia.
Qed.

(** ** Columns that may be missing *)

Lemma cargada1_COL_CLUSTER r1 : COL_CLUSTER ∈ columns (cargada1 r1) ↔ COL_CLUSTER ∈ columns r1.
Proof.
  unfold cargada1. simpl. rewrite elem_of_map.
  setoid_rewrite (symmetry_iff (=) COL_CLUSTER). setoid_rewrite rename_COL_CLUSTER.
  naive_solver.
Qed.

(** C3 as stated fails: without the machine column of Table 1 the loader
    raises [KeyError], and so does every run of the page. *)
Lemma C3_contraejemplo :
  ∃ r1, TABLA1_FINAL_CON_ID archivos_sin_maquina1 = Some r1
        ∧ (py "Machine Name" ∉ columns r1) ∧ (COL_MAQ ∉ columns r1)
        ∧ load_data archivos_sin_maquina1 = Raise (KeyError COL_MAQ)
        ∧ ∀ cluster_sel maquina_sel,
            main archivos_sin_maquina1 cluster_sel maquina_sel = Raise (KeyError COL_MAQ).
Proof.
  eexists. split; [reflexivity|].
  assert (Hload : load_data archivos_sin_maquina1 = Raise (KeyError COL_MAQ))
    by (vm_compute; reflexivity).
  split; [by vm_compute|]. split; [by vm_compute|]. split; [done|].
  intros cluster_sel maquina_sel. unfold main. by rewrite Hload.
Qed.

(** The page of a run on files whose Table 2 has no machine column: the
    loader returns, line 135 raises. *)
Example main_sin_maquina2 cluster_sel maquina_sel :
  (∃ tablas, load_data archivos_sin_maquina2 = Ok tablas)
  ∧ main archivos_sin_maquina2 cluster_sel maquina_sel = Raise (KeyError COL_MAQ).
Proof.
  assert (∃ tablas, load_data archivos_sin_maquina2 = Ok tablas
                    ∧ COL_MAQ ∉ columns tablas.1.2) as (tablas & Hload & Hcol).
  { eexists. split; [vm_compute; reflexivity | by vm_compute]. }
  split; [by exists tablas|].
  unfold main. rewrite Hload. destruct tablas as [[tabla1 tabla2] tabla3].
  unfold maquinas, getitem. simpl in Hcol.
  by rewrite (decide_False (P := COL_MAQ ∈ columns tabla2)).
Qed.

(** Without the machine column of Table 1 the loader raises [KeyError]. *)
Lemma load_data_sin_maquina1 a r1 :
  TABLA1_FINAL_CON_ID a = Some r1 →
  py "Machine Name" ∉ columns r1 → COL_MAQ ∉ columns r1 →
  load_data a = Raise (KeyError COL_MAQ).
Proof.
  intros F1 Hmn Hmaq. unfold load_data, load_tabla1, getitem. rewrite F1. simpl.
  rewrite decide_False by tauto. simpl.
  rewrite decide_False; [done|].
  rewrite elem_of_map. intros (col & Hcol & Hin).
  symmetry in Hcol. apply rename_COL_MAQ in Hcol as [-> | ->]; tauto.
Qed.

(** C3, amended: when the files are there and Tables 2 and 3 have their
    numeric columns, [load_data] returns the three frames if Table 1 has its
    machine column, with or without the machine column of Table 2 or 3 (left
    as it is when missing) and the column [Cluster] of Table 1; when Tables 2
    and 3 have their machine columns and Table 1 carries the shift and the
    equipment type under one name each, every run then gives a complete
    page, and without the column [Cluster] the cluster selector offers only
    "Todos" and the cluster filter is skipped.  Without the machine column
    of Table 1 the loader raises [KeyError]. *)
Theorem C3_columnas_opcionales a r1 r2 r3 :
  TABLA1_FINAL_CON_ID a = Some r1 → TABLA2DASH a = Some r2 → TABLA3_FINAL a = Some r3 →
  cabecera2_ok r2 → cabecera3_ok r3 →
  (cabecera1_ok r1 →
     load_data a = Ok (cargada1 r1, cargada2 r2, cargada3 r3)
     ∧ (COL_MAQ ∈ columns r2 → COL_MAQ ∈ columns r3 → sin_nombres_repetidos r1 →
        ∀ cluster_sel maquina_sel,
          ∃ p, main a cluster_sel maquina_sel = Ok (Completa p)
               ∧ (COL_CLUSTER ∉ columns r1 →
                    opciones_cluster p = [Todos]
                    ∧ (t1 p, t2 p, t3 p)
                      = filtro_maquina (cargada1 r1, cargada2 r2, cargada3 r3)
                          maquina_sel)))
  ∧ (COL_MAQ ∉ columns r2 → filas (cargada2 r2) = asigna_fila2 id <$> filas r2)
  ∧ (COL_MAQ ∉ columns r3 → filas (cargada3 r3) = asigna_fila3 id <$> filas r3)
  ∧ (py "Machine Name" ∉ columns r1 → COL_MAQ ∉ columns r1 →
       load_data a = Raise (KeyError COL_MAQ)
       ∧ ∀ cluster_sel maquina_sel,
           main a cluster_sel maquina_sel = Raise (KeyError COL_MAQ)).
Proof.
  intros F1 F2 F3 C2 C3. split_and!.
  - intros C1.
    assert (Hload : load_data a = Ok (cargada1 r1, cargada2 r2, cargada3 r3)).
    { apply load_data_Ok. exists r1, r2, r3. by split_and!. }
    split; [done|]. intros H2 H3 Hsin cluster_sel maquina_sel.
    destruct (main_Ok a cluster_sel maquina_sel r1 _ _ _ F1 Hsin Hload H2 H3)
      as [p Hmain].
    exists p. split; [done|]. intros Hno.
    destruct (main_inv _ _ _ _ _ _ _ Hmain Hload) as (Heq & -> & _).
    rewrite <- cargada1_COL_CLUSTER in Hno. split.
    + unfold clusters_disp. by rewrite decide_False.
    + by rewrite filtro_cluster_skip in Heq by auto.
  - intros Hno. unfold cargada2. simpl. by rewrite decide_False.
  - intros Hno. unfold cargada3. simpl. by rewrite decide_False.
  - intros Hmn Hmaq.
    pose proof (load_data_sin_maquina1 a r1 F1 Hmn Hmaq) as Hload.
    split; [done|]. intros cluster_sel maquina_sel. unfold main. by rewrite Hload.
Qed.

(** ** The machines offered *)

(** With "Todos" selected, or without the column [Cluster], the machines
    offered are those of the three loaded tables. *)
Lemma opciones_maquina_Todos a cluster_sel maquina_sel p tabla1 tabla2 tabla3 m :
  main a cluster_sel maquina_sel = Ok (Completa p) →
  load_data a = Ok (tabla1, tabla2, tabla3) →
  cluster_sel = Todos ∨ COL_CLUSTER ∉ columns tabla1 →
  m ∈ opciones_maquina p ↔
  m = Todas
  ∨ Some m ∈ f1_maquina <$> filas tabla1
  ∨ Some m ∈ f2_maquina <$> filas tabla2
  ∨ Some m ∈ f3_maquina <$> filas tabla3.
Proof.
  intros Hmain Hload Hsel.
  destruct (main_inv _ _ _ _ _ _ _ Hmain Hload) as (_ & _ & (ops & Hops & ->) & _).
  rewrite elem_of_cons, (elem_of_maquinas _ _ _ _ _ _ Hops).
  unfold maqs_t1. rewrite decide_True by done.
  by rewrite elem_of_unique, elem_of_dropna.
Qed.

(** C4 fails on the code: with cluster X selected the machine selector
    still offers B, a machine of cluster Y that Table 2 names; the cluster
    filter keeps machine A only, and selecting B empties the three tables. *)
Theorem C4_opciones_fuera_del_cluster :
  ∃ p p',
    main archivos_dos_clusters (py "X") Todas = Ok (Completa p)
    ∧ opciones_maquina p = [Todas; py "A"; py "B"]
    ∧ maquinas_cluster (t1 p) = [py "A"]
    ∧ main archivos_dos_clusters (py "X") (py "B") = Ok (Completa p')
    ∧ filas (t1 p') = [] ∧ filas (t2 p') = [] ∧ filas (t3 p') = [].
Proof.
  eexists _, _. split; [vm_compute; reflexivity|].
  split; [vm_compute; reflexivity|]. split; [vm_compute; reflexivity|].
  split; [vm_compute; reflexivity|]. by vm_compute.
Qed.

(** ** Cells that are not numbers *)

Lemma serie_real_Valor t pt : pt ∈ serie_real t → ∃ v, Valor pt = Some v.
Proof.
  unfold serie_real. intros [Hv _]%list_elem_of_filter.
  destruct (Valor pt) as [v|]; [by exists v | done].
Qed.

Lemma serie_fore_Valor t pt : pt ∈ serie_fore t → ∃ v, Valor pt = Some v.
Proof.
  unfold serie_fore. intros [Hv _]%list_elem_of_filter.
  destruct (Valor pt) as [v|]; [by exists v | done].
Qed.

(** C9 as stated fails: a time index that is not a number is loaded as a
    missing value, and its row stays in the series of the line chart. *)
Lemma C9_contraejemplo :
  ∃ r2 f0 p serie_total pt,
    TABLA2DASH archivos_indice_no_numerico = Some r2
    ∧ f0 ∈ filas r2
    ∧ f2_indice f0 = NoNumerica (py "abc")
    ∧ main archivos_indice_no_numerico Todos Todas = Ok (Completa p)
    ∧ fig_serie p = Serie_lineas serie_total
    ∧ pt ∈ serie_total
    ∧ Indice_Tiempo pt = to_numeric (f2_indice f0)
    ∧ Indice_Tiempo pt = None.
Proof.
  eexists _, _, _, _, _. split; [reflexivity|].
  split; [by left|]. split; [reflexivity|].
  split; [vm_compute; reflexivity|]. split; [vm_compute; reflexivity|].
  split; [by left|]. by split.
Qed.

(** C9, amended: the loader returns whatever the numeric cells hold (only
    the files and their headers count) and a cell that is not a number is
    loaded as a missing value; on every page the mean interval counts the
    interval values that are not missing, a missing value adding 0 to the
    sum and nothing to the divisor, every point of the line chart has a
    value and every row of the box plot has a machine and a value.  A row of
    the filtered Table 2 whose value is not missing is a point of the line
    chart, with or without its time index. *)
Theorem C9_coercion a r1 r2 r3 :
  TABLA1_FINAL_CON_ID a = Some r1 → TABLA2DASH a = Some r2 → TABLA3_FINAL a = Some r3 →
  cabecera1_ok r1 → cabecera2_ok r2 → cabecera3_ok r3 →
  (∀ s, to_numeric (NoNumerica s) = None)
  ∧ ∃ tabla1 tabla2 tabla3,
      load_data a = Ok (tabla1, tabla2, tabla3)
      ∧ f2_indice <$> filas tabla2 = to_numeric ∘ f2_indice <$> filas r2
      ∧ f2_tiempo <$> filas tabla2 = to_numeric ∘ f2_tiempo <$> filas r2
      ∧ f3_indice <$> filas tabla3 = to_numeric ∘ f3_indice <$> filas r3
      ∧ f3_forecast <$> filas tabla3 = to_numeric ∘ f3_forecast <$> filas r3
      ∧ ∀ cluster_sel maquina_sel,
          (COL_MAQ ∈ columns r2 → COL_MAQ ∈ columns r3 → sin_nombres_repetidos r1 →
             ∃ p, main a cluster_sel maquina_sel = Ok (Completa p))
          ∧ ∀ p, main a cluster_sel maquina_sel = Ok (Completa p) →
              (Forall (λ v, v = None) (f2_tiempo <$> filas (t2 p)) →
                 kpi_tiempo p = Sin_datos)
              ∧ (∀ q, kpi_tiempo p = Dato q →
                   q = (np_sum (default 0 <$> (f2_tiempo <$> filas (t2 p)))
                        / float_of_nat (length (dropna (f2_tiempo <$> filas (t2 p)))))%float)
              ∧ (∀ serie_total, fig_serie p = Serie_lineas serie_total →
                   ∀ pt, pt ∈ serie_total → ∃ v, Valor pt = Some v)
              ∧ (∀ serie_total, fig_serie p = Serie_lineas serie_total →
                   ∀ f, f ∈ filas (t2 p) → f2_tiempo f ≠ None →
                     {| Indice_Tiempo := f2_indice f; Valor := f2_tiempo f;
                        Tipo_ := Real |} ∈ serie_total)
              ∧ (∀ box_data, fig_box p = Box_fig box_data →
                   ∀ r, r ∈ box_data → ∃ m v, r = (Some m, Some v)).
Proof.
  intros F1 F2 F3 C1 C2 C3. split; [done|].
  assert (Hload : load_data a = Ok (cargada1 r1, cargada2 r2, cargada3 r3)).
  { apply load_data_Ok. exists r1, r2, r3. by split_and!. }
  eexists _, _, _. split; [done|].
  split_and!; try (simpl; by rewrite <- list_fmap_compose).
  intros cluster_sel maquina_sel. split.
  { intros H2 H3 Hsin.
    by apply (main_Ok a cluster_sel maquina_sel r1 _ _ _ F1 Hsin Hload). }
  intros p Hmain. pose proof (main_kpi_tiempo _ _ _ _ Hmain) as Hkpi.
  destruct (main_inv _ _ _ _ _ _ _ Hmain Hload)
    as (_ & _ & _ & _ & _ & _ & _ & -> & ->).
  split_and!.
  - intros Hall. rewrite Hkpi. case_decide; [done|].
    by rewrite (mean_sin_valores _ Hall).
  - intros q. rewrite Hkpi. case_decide; [done|].
    destruct (is_nan (mean _)) eqn:Hm; [done|]. intros [= <-].
    apply mean_con_valores. intros Hall.
    by rewrite (mean_sin_valores _ Hall) in Hm.
  - unfold serie_tiempo. intros serie_total Hs pt Hpt.
    repeat case_decide; try done; injection Hs as <-.
    + apply elem_of_app in Hpt as [Hpt|Hpt];
        [by eapply serie_real_Valor | by eapply serie_fore_Valor].
    + by eapply serie_real_Valor.
  - unfold serie_tiempo. intros serie_total Hs f Hf Hv.
    assert (Hpt : {| Indice_Tiempo := f2_indice f; Valor := f2_tiempo f; Tipo_ := Real |}
                  ∈ serie_real (t2 p)).
    { unfold serie_real. apply list_elem_of_filter. split; [done|].
      apply list_elem_of_fmap. by exists f. }
    repeat case_decide; try done; injection Hs as <-; [|done].
    apply elem_of_app. by left.
  - unfold boxplot. intros box_data Hb [m v] Hr.
    case_decide; [|done]. injection Hb as <-.
    apply list_elem_of_filter in Hr as [[Hm Hv] _]. simpl in *.
    destruct m as [m|]; [|done]. destruct v as [v|]; [|done]. by exists m, v.
Qed.

(** ** Missing machine names *)

Lemma normaliza_NaN : normaliza None = Some (py "NAN").
Proof. reflexivity. Qed.

Lemma elem_of_maqs_t1 tabla1 cluster_sel m :
  m ∈ maqs_t1 tabla1 cluster_sel ↔
  ∃ f, f ∈ filas tabla1 ∧ f1_maquina f = Some m
       ∧ (cluster_sel = Todos ∨ COL_CLUSTER ∉ columns tabla1
          ∨ astype_str (f1_cluster f) = cluster_sel).
Proof.
  unfold maqs_t1. case_decide as Hsel;
    rewrite elem_of_unique, elem_of_dropna, list_elem_of_fmap.
  - split.
    + intros (f & Hm & Hin). exists f. symmetry in Hm. tauto.
    + intros (f & Hin & Hm & _). by exists f.
  - setoid_rewrite list_elem_of_filter. unfold en_cluster. split.
    + intros (f & Hm & Hc & Hin). exists f. symmetry in Hm. tauto.
    + intros (f & Hin & Hm & Hc). exists f. symmetry in Hm. tauto.
Qed.

(** The rows the two filters leave when the cluster filter is skipped. *)
Lemma filtros_sin_cluster tabla1 tabla2 tabla3 cluster_sel maquina_sel :
  cluster_sel = Todos ∨ COL_CLUSTER ∉ columns tabla1 →
  maquina_sel ≠ Todas →
  filtro_maquina (filtro_cluster (tabla1, tabla2, tabla3) cluster_sel) maquina_sel
  = (filtra (λ f, f1_maquina f = Some maquina_sel) tabla1,
     filtra (λ f, f2_maquina f = Some maquina_sel) tabla2,
     filtra (λ f, f3_maquina f = Some maquina_sel) tabla3).
Proof. intros Hskip Hsel. by rewrite filtro_cluster_skip, filtro_maquina_eq. Qed.

(** C10: a missing machine cell is loaded as the text "NAN", which
    [dropna] keeps: "NAN" is then among the machines offered and selecting
    it keeps the row, while the top-machine indicator never shows it. *)
Theorem C10_maquina_NAN a r1 r2 r3 cluster_sel maquina_sel p :
  TABLA1_FINAL_CON_ID a = Some r1 → TABLA2DASH a = Some r2 → TABLA3_FINAL a = Some r3 →
  main a cluster_sel maquina_sel = Ok (Completa p) →
  let sin_cluster := cluster_sel = Todos ∨ COL_CLUSTER ∉ columns r1 in
  (∀ f0, f0 ∈ filas r1 → f1_maquina f0 = None →
     let f := asigna_maquina1 normaliza f0 in
     f ∈ filas (cargada1 r1) ∧ f1_maquina f = Some (py "NAN")
     ∧ py "NAN" ∈ dropna (f1_maquina <$> filas (cargada1 r1))
     ∧ (sin_cluster ∨ astype_str (f1_cluster f0) = cluster_sel →
          py "NAN" ∈ opciones_maquina p)
     ∧ (sin_cluster → maquina_sel = py "NAN" → f ∈ filas (t1 p)))
  ∧ (∀ f0, f0 ∈ filas r2 → f2_maquina f0 = None →
     let f := asigna_fila2 normaliza f0 in
     f ∈ filas (cargada2 r2) ∧ f2_maquina f = Some (py "NAN")
     ∧ py "NAN" ∈ opciones_maquina p
     ∧ (sin_cluster → maquina_sel = py "NAN" → f ∈ filas (t2 p)))
  ∧ (∀ f0, f0 ∈ filas r3 → f3_maquina f0 = None →
     let f := asigna_fila3 normaliza f0 in
     f ∈ filas (cargada3 r3) ∧ f3_maquina f = Some (py "NAN")
     ∧ py "NAN" ∈ opciones_maquina p
     ∧ (sin_cluster → maquina_sel = py "NAN" → f ∈ filas (t3 p)))
  ∧ (∀ m n, kpi_maq_top p = Dato (m, n) → upper m ≠ py "NAN" ∧ m ≠ py "NAN").
Proof.
  intros F1 F2 F3 Hmain sin_cluster.
  destruct (main_load _ _ _ _ _ _ _ F1 F2 F3 Hmain) as (Hload & Hm2 & Hm3).
  destruct (main_inv _ _ _ _ _ _ _ Hmain Hload)
    as (Heq & _ & (ops & Hops & Hop) & _ & Htop & _).
  assert (Hsin : sin_cluster → cluster_sel = Todos ∨ COL_CLUSTER ∉ columns (cargada1 r1)).
  { unfold sin_cluster. rewrite cargada1_COL_CLUSTER. tauto. }
  assert (HNAN : py "NAN" ≠ Todas) by (by vm_compute).
  split_and!.
  - intros f0 Hin Hnan f.
    assert (Hf : f ∈ filas (cargada1 r1)) by (by apply list_elem_of_fmap_2).
    assert (Hmaq : f1_maquina f = Some (py "NAN")).
    { unfold f. simpl. by rewrite Hnan. }
    split_and!; try done.
    + apply elem_of_dropna, list_elem_of_fmap. by exists f.
    + intros Hc. rewrite Hop. right.
      apply (elem_of_maquinas _ _ _ _ _ _ Hops). left.
      apply elem_of_maqs_t1. exists f. split_and!; try done.
      destruct Hc as [Hc|Hc]; [destruct (Hsin Hc); tauto | tauto].
    + intros Hc ->. rewrite filtros_sin_cluster in Heq by auto.
      injection Heq as -> _ _. simpl. by apply list_elem_of_filter.
  - intros f0 Hin Hnan f.
    assert (Hf : f ∈ filas (cargada2 r2)).
    { unfold cargada2. simpl. rewrite decide_True by done. by apply list_elem_of_fmap_2. }
    assert (Hmaq : f2_maquina f = Some (py "NAN")).
    { unfold f. simpl. by rewrite Hnan. }
    split_and!; try done.
    + rewrite Hop. right. apply (elem_of_maquinas _ _ _ _ _ _ Hops). right. left.
      apply list_elem_of_fmap. by exists f.
    + intros Hc ->. rewrite filtros_sin_cluster in Heq by auto.
      injection Heq as _ -> _. simpl. by apply list_elem_of_filter.
  - intros f0 Hin Hnan f.
    assert (Hf : f ∈ filas (cargada3 r3)).
    { unfold cargada3. simpl. rewrite decide_True by done. by apply list_elem_of_fmap_2. }
    assert (Hmaq : f3_maquina f = Some (py "NAN")).
    { unfold f. simpl. by rewrite Hnan. }
    split_and!; try done.
    + rewrite Hop. right. apply (elem_of_maquinas _ _ _ _ _ _ Hops). right. right.
      apply list_elem_of_fmap. by exists f.
    + intros Hc ->. rewrite filtros_sin_cluster in Heq by auto.
      injection Heq as _ _ ->. simpl. by apply list_elem_of_filter.
  - intros m n Hdato. rewrite Htop in Hdato.
    pose proof (texto_maq_top_spec (cargada1 r1)) as Hs. rewrite Hdato in Hs.
    destruct Hs as (Hin & _). unfold serie_m in Hin.
    apply list_elem_of_filter in Hin as [[_ Hup] _].
    split; [done|]. by intros ->.
Qed.

(** ** The theorems on the sample files *)

(** An equation between closed terms, by evaluation. *)
Ltac calcula := vm_compute; reflexivity.

(** A decidable closed proposition, by evaluation of its decision. *)
Ltac decide_calcula := apply (bool_decide_unpack _); vm_compute; exact I.

(** C1 on the sample files, with cluster X selected. *)
Lemma C1_witness :
  load_data ejemplo
    = Ok (cargada1 (cruda1 filas1_ejemplo), cargada2 (cruda2 filas2_ejemplo),
          cargada3 (cruda3 filas3_ejemplo))
  ∧ py "X" ≠ Todos
  ∧ COL_CLUSTER ∈ columns (cargada1 (cruda1 filas1_ejemplo))
  ∧ ∀ m, m ∈ maquinas_cluster (filtra (en_cluster (py "X")) (cargada1 (cruda1 filas1_ejemplo)))
         ↔ ∃ f, f ∈ filas (cargada1 (cruda1 filas1_ejemplo))
                ∧ astype_str (f1_cluster f) = py "X" ∧ f1_maquina f = Some m.
Proof.
  assert (Hload : load_data ejemplo
    = Ok (cargada1 (cruda1 filas1_ejemplo), cargada2 (cruda2 filas2_ejemplo),
          cargada3 (cruda3 filas3_ejemplo))) by calcula.
  assert (Hsel : py "X" ≠ Todos) by decide_calcula.
  assert (Hcol : COL_CLUSTER ∈ columns (cargada1 (cruda1 filas1_ejemplo)))
    by decide_calcula.
  split; [exact Hload|]. split; [exact Hsel|]. split; [exact Hcol|].
  destruct (C1_maquinas_cluster ejemplo (py "X") _ _ _ Hload Hsel Hcol)
    as (c2 & c3 & _ & _ & HM & _).
  exact HM.
Defined.

(** C2 on the sample files, with cluster X and machine A selected. *)
Lemma C2_witness :
  ∃ p,
    TABLA1_FINAL_CON_ID ejemplo = Some (cruda1 filas1_ejemplo)
    ∧ TABLA2DASH ejemplo = Some (cruda2 filas2_ejemplo)
    ∧ TABLA3_FINAL ejemplo = Some (cruda3 filas3_ejemplo)
    ∧ main ejemplo (py "X") (py "A") = Ok (Completa p)
    ∧ py "A" ≠ Todas
    ∧ ∀ f, f ∈ filas (t2 p) →
        f2_maquina f = Some (py "A")
        ∧ ∃ f0, f0 ∈ filas (cruda2 filas2_ejemplo) ∧ f = asigna_fila2 normaliza f0
                ∧ upper (astype_str (f2_maquina f0)) = py "A".
Proof.
  eexists. split; [reflexivity|]. split; [reflexivity|]. split; [reflexivity|].
  assert (Hsel : py "A" ≠ Todas) by decide_calcula.
  split; [calcula|]. split; [exact Hsel|].
  refine (proj1 (proj2 (C2_maquina_exacta ejemplo (py "X") (py "A") _ _ _ _
                          eq_refl eq_refl eq_refl _ Hsel))).
  calcula.
Defined.

(** C3 on the sample files whose Table 2 has no machine column. *)
Lemma C3_witness :
  ∃ r2,
    TABLA1_FINAL_CON_ID archivos_sin_maquina2 = Some (cruda1 filas1_ejemplo)
    ∧ TABLA2DASH archivos_sin_maquina2 = Some r2
    ∧ TABLA3_FINAL archivos_sin_maquina2 = Some (cruda3 filas3_ejemplo)
    ∧ cabecera1_ok (cruda1 filas1_ejemplo) ∧ cabecera2_ok r2
    ∧ cabecera3_ok (cruda3 filas3_ejemplo)
    ∧ (COL_MAQ ∉ columns r2)
    ∧ load_data archivos_sin_maquina2
      = Ok (cargada1 (cruda1 filas1_ejemplo), cargada2 r2, cargada3 (cruda3 filas3_ejemplo)).
Proof.
  eexists. split; [reflexivity|]. split; [reflexivity|]. split; [reflexivity|].
  assert (C1 : cabecera1_ok (cruda1 filas1_ejemplo)) by decide_calcula.
  assert (C2 : cabecera2_ok {| columns := {[ COL_IDX_TIEMPO; COL_TIEMPO_ENTRE_FALLAS ]};
                               filas := filas2_ejemplo |}) by decide_calcula.
  assert (C3 : cabecera3_ok (cruda3 filas3_ejemplo)) by decide_calcula.
  split; [exact C1|]. split; [exact C2|]. split; [exact C3|].
  split; [decide_calcula|].
  exact (proj1 (proj1 (C3_columnas_opcionales archivos_sin_maquina2 _ _ _
                         eq_refl eq_refl eq_refl C2 C3) C1)).
Defined.

(** C6 on the sample files and on their reordering, with two different
    selections. *)
Lemma C6_witness :
  ∃ p p',
    TABLA1_FINAL_CON_ID ejemplo = Some (cruda1 filas1_ejemplo)
    ∧ TABLA1_FINAL_CON_ID ejemplo_reordenado = Some (cruda1 (reverse filas1_ejemplo))
    ∧ filas (cruda1 filas1_ejemplo) ≡ₚ filas (cruda1 (reverse filas1_ejemplo))
    ∧ main ejemplo Todos Todas = Ok (Completa p)
    ∧ main ejemplo_reordenado (py "X") (py "B") = Ok (Completa p')
    ∧ (kpi_maq_top p = Sin_datos ↔ kpi_maq_top p' = Sin_datos).
Proof.
  eexists _, _. split; [reflexivity|]. split; [reflexivity|].
  assert (Hperm : filas (cruda1 filas1_ejemplo) ≡ₚ filas (cruda1 (reverse filas1_ejemplo))).
  { simpl. by rewrite reverse_Permutation. }
  split; [exact Hperm|]. split; [calcula|]. split; [calcula|].
  refine (proj1 (C6_maq_top_permutacion ejemplo ejemplo_reordenado _ _
                   Todos Todas (py "X") (py "B") _ _ eq_refl eq_refl Hperm _ _)); calcula.
Defined.


(** C8 on the sample files, with cluster X and "Todas" selected. *)
Lemma C8_witness :
  ∃ p,
    main ejemplo (py "X") Todas = Ok (Completa p)
    ∧ (fig_serie p = Serie_info ↔ py "X" ≠ Todos ∧ Todas = Todas).
Proof.
  eexists. split; [calcula|].
  refine (proj1 (C8_serie_suprimida ejemplo (py "X") Todas _ _)). calcula.
Defined.

(** C9 on the sample files, whose numeric columns hold texts. *)
Lemma C9_witness :
  TABLA1_FINAL_CON_ID ejemplo = Some (cruda1 filas1_ejemplo)
  ∧ TABLA2DASH ejemplo = Some (cruda2 filas2_ejemplo)
  ∧ TABLA3_FINAL ejemplo = Some (cruda3 filas3_ejemplo)
  ∧ cabecera1_ok (cruda1 filas1_ejemplo) ∧ cabecera2_ok (cruda2 filas2_ejemplo)
  ∧ cabecera3_ok (cruda3 filas3_ejemplo)
  ∧ ∃ tabla1 tabla2 tabla3,
      load_data ejemplo = Ok (tabla1, tabla2, tabla3)
      ∧ f2_tiempo <$> filas tabla2 = to_numeric ∘ f2_tiempo <$> filas (cruda2 filas2_ejemplo).
Proof.
  assert (C1 : cabecera1_ok (cruda1 filas1_ejemplo)) by decide_calcula.
  assert (C2 : cabecera2_ok (cruda2 filas2_ejemplo)) by decide_calcula.
  assert (C3 : cabecera3_ok (cruda3 filas3_ejemplo)) by decide_calcula.
  split; [reflexivity|]. split; [reflexivity|]. split; [reflexivity|].
  split; [exact C1|]. split; [exact C2|]. split; [exact C3|].
  destruct (proj2 (C9_coercion ejemplo _ _ _ eq_refl eq_refl eq_refl C1 C2 C3))
    as (tabla1 & tabla2 & tabla3 & Hload & _ & Htiempo & _).
  exists tabla1, tabla2, tabla3. split; [exact Hload | exact Htiempo].
Defined.

(** C10 on the sample files, whose Tables 1 and 2 have a missing machine. *)
Lemma C10_witness :
  ∃ p,
    TABLA1_FINAL_CON_ID ejemplo = Some (cruda1 filas1_ejemplo)
    ∧ TABLA2DASH ejemplo = Some (cruda2 filas2_ejemplo)
    ∧ TABLA3_FINAL ejemplo = Some (cruda3 filas3_ejemplo)
    ∧ main ejemplo Todos (py "NAN") = Ok (Completa p)
    ∧ ∀ m n, kpi_maq_top p = Dato (m, n) → upper m ≠ py "NAN" ∧ m ≠ py "NAN".
Proof.
  eexists. split; [reflexivity|]. split; [reflexivity|]. split; [reflexivity|].
  split; [calcula|].
  refine (proj2 (proj2 (proj2 (C10_maquina_NAN ejemplo _ _ _ Todos (py "NAN") _
                                 eq_refl eq_refl eq_refl _)))).
  calcula.
Defined.

(** * Further properties of the loader and of the page *)

(** ** Counts *)

Section conteos.
Context `{EqDecision A}.
Implicit Types (l : list A) (x : A) (vc : list (A * nat)).

Lemma inserta_desc_Permutation (p : A * nat) vc : inserta_desc p vc ≡ₚ p :: vc.
Proof.
  induction vc as [|q vc IH]; simpl; [done|].
  case_decide; [done|]. by rewrite IH, Permutation_swap.
Qed.

Lemma sort_desc_Permutation vc : sort_desc vc ≡ₚ vc.
Proof.
  induction vc as [|q vc IH]; simpl; [done|].
  by rewrite inserta_desc_Permutation, IH.
Qed.

Lemma inserta_desc_Sorted (p : A * nat) vc :
  Sorted ct_ge vc → Sorted ct_ge (inserta_desc p vc).
Proof.
  induction 1 as [|q vc Hs IH Hhd]; simpl.
  - by repeat constructor.
  - case_decide as Hle.
    + constructor; [by constructor|]. by constructor.
    + constructor; [done|].
      destruct Hhd as [|r vc' Hr]; simpl.
      * constructor. unfold ct_ge. lia.
      * case_decide; constructor; unfold ct_ge in *; lia.
Qed.

Lemma sort_desc_Sorted vc : Sorted ct_ge (sort_desc vc).
Proof.
  induction vc as [|q vc IH]; simpl; [constructor|]. by apply inserta_desc_Sorted.
Qed.

(** The labels of [value_counts] are the distinct values. *)
Lemma value_counts_labels l : (value_counts l).*1 ≡ₚ unique l.
Proof.
  unfold value_counts. rewrite sort_desc_Permutation, <- list_fmap_compose.
  by induction (unique l) as [|k ks IH]; simpl; [|rewrite IH].
Qed.

Lemma value_counts_NoDup l : NoDup (value_counts l).*1.
Proof. rewrite value_counts_labels. apply NoDup_unique. Qed.

Lemma cuenta_cons x y l :
  cuenta x (y :: l) = (if decide (y = x) then 1 else 0) + cuenta x l.
Proof. unfold cuenta. rewrite filter_cons. by case_decide. Qed.

(** Over distinct keys that cover the list, the counts add up to its
    length. *)
Lemma suma_cuentas (ks : list A) l :
  NoDup ks → (∀ x, x ∈ l → x ∈ ks) →
  sum_list_with (λ k, cuenta k l) ks = length l.
Proof.
  intros Hnd. induction l as [|y l IH]; intros Hin.
  - clear Hnd Hin. induction ks as [|k ks IH]; [done|]. simpl. by rewrite IH.
  - simpl. rewrite <- IH by (intros x Hx; apply Hin; by right).
    assert (Hy : y ∈ ks) by (apply Hin; by left).
    clear IH Hin. induction Hnd as [|k ks Hk Hnd IH]; [by apply not_elem_of_nil in Hy|].
    simpl. rewrite cuenta_cons. apply elem_of_cons in Hy as [->|Hy].
    + rewrite decide_True by done.
      assert (Hrest : sum_list_with (λ k0, cuenta k0 (k :: l)) ks
                      = sum_list_with (λ k0, cuenta k0 l) ks).
      { clear IH Hnd. induction ks as [|k' ks IH']; simpl; [done|].
        rewrite cuenta_cons, decide_False, IH'; [done| |].
        - intros Hk'. apply Hk. by right.
        - intros ->. apply Hk. by left. }
      rewrite Hrest. lia.
    + rewrite decide_False by (intros ->; done). rewrite (IH Hy). lia.
Qed.

Lemma value_counts_suma l : sum_list (value_counts l).*2 = length l.
Proof.
  unfold value_counts. rewrite sort_desc_Permutation, <- list_fmap_compose.
  rewrite <- (suma_cuentas (unique l) l (NoDup_unique l)).
  - induction (unique l) as [|k ks IH]; [done|]. simpl. unfold id at 1. by f_equal.
  - intros x. by rewrite elem_of_unique.
Qed.

Lemma value_counts_pos l x n : (x, n) ∈ value_counts l → 0 < n.
Proof. intros [Hin ->]%elem_of_value_counts. by apply cuenta_pos. Qed.
End conteos.

(** ** Upper case *)

Ltac casos_upper :=
  repeat (match goal with
          | |- context [if ?b then _ else _] => destruct b eqn:?
          end; simpl);
  try reflexivity;
  repeat match goal with
         | H : (_ && _) = true |- _ => apply andb_prop in H as [??]
         | H : (_ || _) = true |- _ => apply orb_prop in H as [?|?]
         | H : (_ && _) = false |- _ => apply andb_false_iff in H as [?|?]
         | H : (_ || _) = false |- _ => apply orb_false_iff in H as [??]
         | H : (_ <=? _)%N = true |- _ => apply N.leb_le in H
         | H : (_ <=? _)%N = false |- _ => apply N.leb_gt in H
         | H : (_ =? _)%N = true |- _ => apply N.eqb_eq in H
         | H : (_ =? _)%N = false |- _ => apply N.eqb_neq in H
         end;
  try (exfalso; lia).

Lemma upper_char_en_mayusculas c : en_mayusculas (upper_char c).
Proof.
  unfold en_mayusculas. unfold upper_char at 2.
  repeat (match goal with
          | |- context [if ?b then _ else _] => destruct b eqn:?
          end);
  repeat constructor; unfold upper_char; casos_upper.
Qed.

Lemma upper_en_mayusculas s : en_mayusculas (upper s).
Proof.
  unfold en_mayusculas, upper. induction s as [|c s IH]; [constructor|].
  change ((c :: s) ≫= upper_char) with (upper_char c ++ (s ≫= upper_char)).
  apply Forall_app. split; [apply upper_char_en_mayusculas | done].
Qed.

Lemma en_mayusculas_upper s : en_mayusculas s → upper s = s.
Proof.
  unfold upper. induction 1 as [|c s Hc Hs IH]; [done|].
  change ((c :: s) ≫= upper_char) with (upper_char c ++ (s ≫= upper_char)).
  by rewrite Hc, IH.
Qed.

Lemma lstrip_en_mayusculas s : en_mayusculas s → en_mayusculas (lstrip s).
Proof.
  unfold en_mayusculas. induction 1 as [|c s Hc Hs IH]; simpl; [constructor|].
  destruct (isspace c); [done | by constructor].
Qed.

Lemma strip_en_mayusculas s : en_mayusculas s → en_mayusculas (strip s).
Proof.
  intros Hs. unfold strip, rstrip, en_mayusculas.
  apply Forall_reverse. apply lstrip_en_mayusculas. apply Forall_reverse.
  by apply lstrip_en_mayusculas.
Qed.

(** ** Outcomes of a run *)

Lemma load_tabla1_Raise a e :
  load_tabla1 a = Raise e →
  (e = FileNotFoundError ∧ TABLA1_FINAL_CON_ID a = None)
  ∨ ∃ r1, TABLA1_FINAL_CON_ID a = Some r1 ∧ ¬ cabecera1_ok r1
          ∧ (e = AttributeError ∨ e = KeyError COL_MAQ).
Proof.
  unfold load_tabla1, getitem, cabecera1_ok.
  destruct (TABLA1_FINAL_CON_ID a) as [r1|]; simpl; [|intros [= <-]; by left].
  intros Hr. right. exists r1. split; [done|].
  case_decide as Hdup; [injection Hr as <-; split; [tauto | by left]|].
  simpl in Hr. case_decide as Hmaq; [done|]. injection Hr as <-. split; [|by right].
  intros [[Hmn|Hm] _]; apply Hmaq, elem_of_map.
  - by exists (py "Machine Name").
  - by exists COL_MAQ.
Qed.

Lemma load_tabla2_Raise a e :
  load_tabla2 a = Raise e →
  (e = FileNotFoundError ∧ TABLA2DASH a = None)
  ∨ ∃ r2, TABLA2DASH a = Some r2 ∧ ¬ cabecera2_ok r2
          ∧ (e = KeyError COL_TIEMPO_ENTRE_FALLAS ∨ e = KeyError COL_IDX_TIEMPO).
Proof.
  unfold load_tabla2, getitem, cabecera2_ok.
  destruct (TABLA2DASH a) as [r2|]; simpl; [|intros [= <-]; by left].
  intros Hr. right. exists r2. split; [done|].
  destruct (decide (COL_TIEMPO_ENTRE_FALLAS ∈ columns r2)); simpl in Hr;
    [destruct (decide (COL_IDX_TIEMPO ∈ columns r2)); simpl in Hr; [done|]|];
    injection Hr as <-; split; (tauto || auto).
Qed.

Lemma load_tabla3_Raise a e :
  load_tabla3 a = Raise e →
  (e = FileNotFoundError ∧ TABLA3_FINAL a = None)
  ∨ ∃ r3, TABLA3_FINAL a = Some r3 ∧ ¬ cabecera3_ok r3
          ∧ (e = KeyError COL_FORECAST ∨ e = KeyError COL_IDX_TIEMPO).
Proof.
  unfold load_tabla3, getitem, cabecera3_ok.
  destruct (TABLA3_FINAL a) as [r3|]; simpl; [|intros [= <-]; by left].
  intros Hr. right. exists r3. split; [done|].
  destruct (decide (COL_FORECAST ∈ columns r3)); simpl in Hr;
    [destruct (decide (COL_IDX_TIEMPO ∈ columns r3)); simpl in Hr; [done|]|];
    injection Hr as <-; split; (tauto || auto).
Qed.

(** The files are read one after the other, each header is used before the
    next file is opened: [load_data] raises [FileNotFoundError] for the first
    file that is not there, provided the headers of the files before it have
    the columns the loader reads. *)
Lemma load_data_FileNotFoundError a :
  load_data a = Raise FileNotFoundError ↔
  TABLA1_FINAL_CON_ID a = None
  ∨ ∃ r1, TABLA1_FINAL_CON_ID a = Some r1 ∧ cabecera1_ok r1
          ∧ (TABLA2DASH a = None
             ∨ ∃ r2, TABLA2DASH a = Some r2 ∧ cabecera2_ok r2 ∧ TABLA3_FINAL a = None).
Proof.
  unfold load_data.
  destruct (load_tabla1 a) as [x1|e1] eqn:H1; simpl.
  - apply load_tabla1_Ok in H1 as (r1 & F1 & C1 & _).
    destruct (load_tabla2 a) as [x2|e2] eqn:H2; simpl.
    + apply load_tabla2_Ok in H2 as (r2 & F2 & C2 & _).
      destruct (load_tabla3 a) as [x3|e3] eqn:H3; simpl.
      * apply load_tabla3_Ok in H3 as (r3 & F3 & _).
        split; [done|]. intros [?|(? & _ & _ & [?|(? & _ & _ & ?)])]; congruence.
      * apply load_tabla3_Raise in H3 as [[-> F3]|(r3 & F3 & _ & [->| ->])].
        -- split; [|done]. intros _. right. exists r1.
           split_and!; try done; right; by exists r2.
        -- split; [done|]. intros [?|(? & _ & _ & [?|(? & _ & _ & ?)])]; congruence.
        -- split; [done|]. intros [?|(? & _ & _ & [?|(? & _ & _ & ?)])]; congruence.
    + apply load_tabla2_Raise in H2 as [[-> F2]|(r2 & F2 & C2 & [->| ->])].
      * split; [|done]. intros _. right. exists r1. split_and!; try done; by left.
      * split; [done|].
        intros [?|(? & _ & _ & [?|(r2' & F2' & C2' & _)])]; congruence.
      * split; [done|].
        intros [?|(? & _ & _ & [?|(r2' & F2' & C2' & _)])]; congruence.
  - apply load_tabla1_Raise in H1 as [[-> F1]|(r1 & F1 & C1 & [->| ->])].
    + split; [|done]. by left.
    + split; [done|]. intros [?|(r1' & F1' & C1' & _)]; congruence.
    + split; [done|]. intros [?|(r1' & F1' & C1' & _)]; congruence.
Qed.

(** X1: the run shows the missing-file message and stops exactly when a file
    is not there and the headers of the files read before it are in order;
    a header fault in an earlier file comes first. *)
Theorem X1_detenida a cluster_sel maquina_sel :
  main a cluster_sel maquina_sel = Ok Detenida ↔
  TABLA1_FINAL_CON_ID a = None
  ∨ ∃ r1, TABLA1_FINAL_CON_ID a = Some r1 ∧ cabecera1_ok r1
          ∧ (TABLA2DASH a = None
             ∨ ∃ r2, TABLA2DASH a = Some r2 ∧ cabecera2_ok r2 ∧ TABLA3_FINAL a = None).
Proof.
  rewrite <- load_data_FileNotFoundError. unfold main.
  destruct (load_data a) as [tablas|e]; simpl.
  - split; [|done]. destruct (maquinas tablas cluster_sel); simpl; [|done].
    by destruct (seccion2 a _).
  - destruct e; split; done.
Qed.

Lemma maquinas_Raise tablas cluster_sel e :
  maquinas tablas cluster_sel = Raise e →
  e = KeyError COL_MAQ
  ∧ (COL_MAQ ∉ columns tablas.1.2 ∨ COL_MAQ ∉ columns tablas.2)
  ∧ ∀ cluster_sel', maquinas tablas cluster_sel' = Raise e.
Proof.
  destruct tablas as [[tabla1 tabla2] tabla3]. unfold maquinas, getitem. simpl.
  destruct (decide (COL_MAQ ∈ columns tabla2)); simpl;
    [destruct (decide (COL_MAQ ∈ columns tabla3)); simpl; [done|]|];
    intros [= <-]; auto.
Qed.

Lemma load_data_Raise a e :
  load_data a = Raise e →
  e = FileNotFoundError ∨ e = AttributeError
  ∨ e ∈ KeyError <$> [COL_MAQ; COL_TIEMPO_ENTRE_FALLAS; COL_IDX_TIEMPO; COL_FORECAST].
Proof.
  unfold load_data.
  destruct (load_tabla1 a) as [x1|e1] eqn:H1; simpl.
  - destruct (load_tabla2 a) as [x2|e2] eqn:H2; simpl.
    + destruct (load_tabla3 a) as [x3|e3] eqn:H3; simpl; [done|]. intros [= <-].
      apply load_tabla3_Raise in H3 as [[-> _]|(_ & _ & _ & [->| ->])]; auto;
        right; right; set_solver.
    + intros [= <-].
      apply load_tabla2_Raise in H2 as [[-> _]|(_ & _ & _ & [->| ->])]; auto;
        right; right; set_solver.
  - intros [= <-].
    apply load_tabla1_Raise in H1 as [[-> _]|(_ & _ & _ & [->| ->])]; auto.
    right; right; set_solver.
Qed.

(** The header of the filtered Table 1 of a run is that of the loaded
    table. *)
Lemma tablero_columns tabla1 tabla2 tabla3 clusters ops cluster_sel maquina_sel :
  columns (t1 (tablero (tabla1, tabla2, tabla3) clusters ops cluster_sel maquina_sel))
  = columns tabla1.
Proof.
  rewrite <- (filtros_columns tabla1 tabla2 tabla3 cluster_sel maquina_sel).
  unfold tablero. by destruct (filtro_maquina _ _) as [[c1 c2] c3].
Qed.

Lemma tablero_filas tabla1 tabla2 tabla3 clusters ops cluster_sel maquina_sel :
  filas (t1 (tablero (tabla1, tabla2, tabla3) clusters ops cluster_sel maquina_sel))
  = filas (filtro_maquina (filtro_cluster (tabla1, tabla2, tabla3) cluster_sel)
             maquina_sel).1.1.
Proof. unfold tablero. by destruct (filtro_maquina _ _) as [[c1 c2] c3]. Qed.

(** X2: a run gives a complete page exactly when the three files are there,
    their headers have the columns the loader reads, Tables 2 and 3 have the
    machine column, and the two selections leave no row of Table 1 or the
    file of Table 1 carries the shift and the equipment type under one name
    each. *)
Theorem X2_completa a cluster_sel maquina_sel :
  (∃ p, main a cluster_sel maquina_sel = Ok (Completa p)) ↔
  ∃ r1 r2 r3,
    TABLA1_FINAL_CON_ID a = Some r1 ∧ TABLA2DASH a = Some r2 ∧ TABLA3_FINAL a = Some r3
    ∧ cabecera1_ok r1 ∧ cabecera2_ok r2 ∧ cabecera3_ok r3
    ∧ COL_MAQ ∈ columns r2 ∧ COL_MAQ ∈ columns r3
    ∧ (filas (filtro_maquina
                (filtro_cluster (cargada1 r1, cargada2 r2, cargada3 r3) cluster_sel)
                maquina_sel).1.1 = []
       ∨ sin_nombres_repetidos r1).
Proof.
  split.
  - intros (p & ([[tabla1 tabla2] tabla3] & ops & Hload & Hops & -> & Hs2)%main_Completa).
    apply load_data_Ok in Hload as (r1 & r2 & r3 & F1 & F2 & F3 & C1 & C2 & C3 & -> & -> & ->).
    apply maquinas_Ok in Hops as (H2 & H3 & _).
    apply (seccion2_Ok a r1) in Hs2; [|done|apply tablero_columns].
    rewrite tablero_filas in Hs2. exists r1, r2, r3. by split_and!.
  - intros (r1 & r2 & r3 & F1 & F2 & F3 & C1 & C2 & C3 & H2 & H3 & Hs2).
    assert (∃ ops, maquinas (cargada1 r1, cargada2 r2, cargada3 r3) cluster_sel = Ok ops)
      as [ops Hops] by (eexists; by apply maquinas_Ok).
    eexists. apply main_Completa. exists (cargada1 r1, cargada2 r2, cargada3 r3), ops.
    split; [apply load_data_Ok; exists r1, r2, r3; by split_and!|].
    split; [done|]. split; [done|].
    apply (seccion2_Ok a r1); [done|apply tablero_columns|].
    by rewrite tablero_filas.
Qed.

(** The three places where a run raises: the loader, the machine columns of
    Tables 2 and 3, and Section 2. *)
Lemma main_Raise a cluster_sel maquina_sel e :
  main a cluster_sel maquina_sel = Raise e ↔
  (load_data a = Raise e ∧ e ≠ FileNotFoundError)
  ∨ (∃ tablas, load_data a = Ok tablas ∧ maquinas tablas cluster_sel = Raise e)
  ∨ (∃ tablas ops,
       load_data a = Ok tablas ∧ maquinas tablas cluster_sel = Ok ops
       ∧ seccion2 a (t1 (tablero tablas (clusters_disp tablas.1.1) ops
                           cluster_sel maquina_sel)) = Raise e).
Proof.
  unfold main. destruct (load_data a) as [tablas|e'] eqn:Hload; simpl.
  - destruct (maquinas tablas cluster_sel) as [ops|e''] eqn:Hops; simpl.
    + destruct (seccion2 a _) as [[]|e3] eqn:Hs2; simpl; unfold mret, resultado_ret.
      * split; [done|]. intros [[? _]|[(? & [= <-] & ?)|(? & ? & [= <-] & Hops' & Hs2')]];
          [done|congruence|].
        rewrite Hops in Hops'. injection Hops' as <-. congruence.
      * split.
        -- intros [= <-]. right. right. by exists tablas, ops.
        -- intros [[? _]|[(? & [= <-] & ?)|(? & ? & [= <-] & Hops' & Hs2')]];
             [done|congruence|].
           rewrite Hops in Hops'. injection Hops' as <-. congruence.
    + split.
      * intros [= <-]. right. left. by exists tablas.
      * intros [[? _]|[(? & [= <-] & ?)|(? & ? & [= <-] & Hops' & _)]];
          [done|congruence|congruence].
  - split.
    + intros Hr. left. destruct e'; simpl in Hr; try done; by injection Hr as <-.
    + intros [[[= ->] Hne]|[(? & ? & _)|(? & ? & ? & _)]]; [|done..].
      by destruct e.
Qed.

(** X3: a run never ends with [FileNotFoundError], which [main] catches.  A
    run that raises does so with [ValueError] exactly when the frames load,
    Tables 2 and 3 have the machine column, the selections leave a row of
    Table 1 and the file of Table 1 has the shift or the equipment type
    under both of its names; any other exception is raised whatever is
    selected. *)
Theorem X3_excepciones a cluster_sel maquina_sel e :
  main a cluster_sel maquina_sel = Raise e →
  e ≠ FileNotFoundError
  ∧ (e = ValueError ↔
     ∃ r1 r2 r3,
       TABLA1_FINAL_CON_ID a = Some r1 ∧ TABLA2DASH a = Some r2
       ∧ TABLA3_FINAL a = Some r3
       ∧ cabecera1_ok r1 ∧ cabecera2_ok r2 ∧ cabecera3_ok r3
       ∧ COL_MAQ ∈ columns r2 ∧ COL_MAQ ∈ columns r3
       ∧ filas (filtro_maquina
                  (filtro_cluster (cargada1 r1, cargada2 r2, cargada3 r3) cluster_sel)
                  maquina_sel).1.1 ≠ []
       ∧ ¬ sin_nombres_repetidos r1)
  ∧ (e ≠ ValueError →
     ∀ cluster_sel' maquina_sel', main a cluster_sel' maquina_sel' = Raise e).
Proof.
  intros [[Hload Hne]|[(tablas & Hload & Hops)|(tablas & ops & Hload & Hops & Hs2)]]%main_Raise.
  - split; [done|]. split.
    + split.
      * intros ->. apply load_data_Raise in Hload as [?|[?|?]]; [done..|set_solver].
      * intros (r1 & r2 & r3 & F1 & F2 & F3 & C1 & C2 & C3 & _).
        assert (load_data a = Ok (cargada1 r1, cargada2 r2, cargada3 r3)) as Hok
          by (apply load_data_Ok; exists r1, r2, r3; by split_and!).
        congruence.
    + intros _ cluster_sel' maquina_sel'. apply main_Raise. by left.
  - apply maquinas_Raise in Hops as (-> & Hcol & Hsel). split; [done|]. split.
    + split; [done|].
      intros (r1 & r2 & r3 & F1 & F2 & F3 & C1 & C2 & C3 & H2 & H3 & _).
      assert (load_data a = Ok (cargada1 r1, cargada2 r2, cargada3 r3)) as Hok
        by (apply load_data_Ok; exists r1, r2, r3; by split_and!).
      rewrite Hload in Hok. injection Hok as ->. simpl in Hcol. tauto.
    + intros _ cluster_sel' maquina_sel'. apply main_Raise. right. left.
      exists tablas. split; [done|]. apply Hsel.
  - pose proof (seccion2_Raise _ _ _ Hs2) as ->. split; [done|]. split; [|done].
    split; [|done]. intros _. destruct tablas as [[tabla1 tabla2] tabla3].
    apply load_data_Ok in Hload as (r1 & r2 & r3 & F1 & F2 & F3 & C1 & C2 & C3 & -> & -> & ->).
    apply maquinas_Ok in Hops as (H2 & H3 & _).
    exists r1, r2, r3. split_and!; try done.
    + intros Hnil.
      rewrite <- (tablero_filas _ _ _ (clusters_disp (cargada1 r1)) ops) in Hnil.
      assert (seccion2 a (t1 (tablero (cargada1 r1, cargada2 r2, cargada3 r3)
                (clusters_disp (cargada1 r1)) ops cluster_sel maquina_sel)) = Ok ()) as Hok.
      { apply (seccion2_Ok a r1); [done|apply tablero_columns|]. left. exact Hnil. }
      simpl in Hs2. congruence.
    + intros Hsin.
      assert (seccion2 a (t1 (tablero (cargada1 r1, cargada2 r2, cargada3 r3)
                (clusters_disp (cargada1 r1)) ops cluster_sel maquina_sel)) = Ok ()) as Hok.
      { apply (seccion2_Ok a r1); [done|apply tablero_columns|]. by right. }
      simpl in Hs2. congruence.
Qed.

(** X3 on the files whose Table 1 has both [Shift] and [Turno]. *)
Lemma X3_witness :
  main archivos_turno_doble Todos Todas = Raise ValueError
  ∧ (∃ p, main archivos_turno_doble (py "Z") Todas = Ok (Completa p))
  ∧ (ValueError = ValueError ↔
     ∃ r1 r2 r3,
       TABLA1_FINAL_CON_ID archivos_turno_doble = Some r1
       ∧ TABLA2DASH archivos_turno_doble = Some r2
       ∧ TABLA3_FINAL archivos_turno_doble = Some r3
       ∧ cabecera1_ok r1 ∧ cabecera2_ok r2 ∧ cabecera3_ok r3
       ∧ COL_MAQ ∈ columns r2 ∧ COL_MAQ ∈ columns r3
       ∧ filas (filtro_maquina
                  (filtro_cluster (cargada1 r1, cargada2 r2, cargada3 r3) Todos)
                  Todas).1.1 ≠ []
       ∧ ¬ sin_nombres_repetidos r1).
Proof.
  assert (Hmain : main archivos_turno_doble Todos Todas = Raise ValueError) by calcula.
  split; [exact Hmain|]. split; [eexists; calcula|].
  exact (proj1 (proj2 (X3_excepciones archivos_turno_doble Todos Todas _ Hmain))).
Defined.

(** ** What the loader keeps *)

(** X4: the header of the loaded Table 1 is the header of the file with the
    three source names replaced by [Maquina], [Turno] and [EQ_Type]: the
    source names are gone, [Maquina] is there, [Turno] and [EQ_Type] are
    there when the file has them under either name, every other name is kept;
    the headers of Tables 2 and 3 are those of their files. *)
Theorem X4_cabeceras a tabla1 tabla2 tabla3 r1 r2 r3 :
  load_data a = Ok (tabla1, tabla2, tabla3) →
  TABLA1_FINAL_CON_ID a = Some r1 → TABLA2DASH a = Some r2 → TABLA3_FINAL a = Some r3 →
  (∀ col, col ∈ [py "Machine Name"; py "Shift"; py "EQ Type"] → col ∉ columns tabla1)
  ∧ COL_MAQ ∈ columns tabla1
  ∧ (py "Turno" ∈ columns tabla1 ↔ py "Shift" ∈ columns r1 ∨ py "Turno" ∈ columns r1)
  ∧ (py "EQ_Type" ∈ columns tabla1 ↔ py "EQ Type" ∈ columns r1 ∨ py "EQ_Type" ∈ columns r1)
  ∧ (∀ col, col ∉ [py "Machine Name"; py "Shift"; py "EQ Type";
                    COL_MAQ; py "Turno"; py "EQ_Type"] →
       col ∈ columns tabla1 ↔ col ∈ columns r1)
  ∧ columns tabla2 = columns r2 ∧ columns tabla3 = columns r3.
Proof.
  intros (r1' & r2' & r3' & F1' & F2' & F3' & C1 & _ & _ & -> & -> & ->)%load_data_Ok
    F1 F2 F3.
  rewrite F1 in F1'. rewrite F2 in F2'. rewrite F3 in F3'.
  injection F1' as <-. injection F2' as <-. injection F3' as <-.
  pose proof (cargada1_columns r1) as Hcol.
  split_and!; try done.
  - intros col Hsrc (col0 & -> & _)%Hcol.
    destruct (rename_casos col0) as [[_ Hr]|[[_ Hr]|[[_ Hr]|[Hn Hr]]]];
      rewrite Hr in Hsrc; [by vm_compute in Hsrc; set_solver..|done].
  - apply Hcol. destruct C1 as [[?|?] _].
    + by exists (py "Machine Name").
    + by exists COL_MAQ.
  - apply cargada1_Turno.
  - apply cargada1_EQ_Type.
  - intros col Hno. rewrite Hcol. split.
    + intros (col0 & -> & Hin).
      destruct (rename_casos col0) as [[-> Hr']|[[-> Hr']|[[-> Hr']|[Hn Hr']]]];
        rewrite Hr' in *; try done; exfalso; apply Hno; set_solver.
    + intros Hin. exists col. split; [|done].
      destruct (rename_casos col) as [[-> Hr']|[[-> Hr']|[[-> Hr']|[Hn Hr']]]];
        try done; exfalso; apply Hno; set_solver.
Qed.

(** X4 on the sample files. *)
Lemma X4_witness :
  load_data ejemplo
    = Ok (cargada1 (cruda1 filas1_ejemplo), cargada2 (cruda2 filas2_ejemplo),
          cargada3 (cruda3 filas3_ejemplo))
  ∧ TABLA1_FINAL_CON_ID ejemplo = Some (cruda1 filas1_ejemplo)
  ∧ TABLA2DASH ejemplo = Some (cruda2 filas2_ejemplo)
  ∧ TABLA3_FINAL ejemplo = Some (cruda3 filas3_ejemplo)
  ∧ COL_MAQ ∈ columns (cargada1 (cruda1 filas1_ejemplo)).
Proof.
  assert (Hload : load_data ejemplo
    = Ok (cargada1 (cruda1 filas1_ejemplo), cargada2 (cruda2 filas2_ejemplo),
          cargada3 (cruda3 filas3_ejemplo))) by calcula.
  split; [exact Hload|]. split; [reflexivity|]. split; [reflexivity|].
  split; [reflexivity|].
  exact (proj1 (proj2 (X4_cabeceras ejemplo _ _ _ _ _ _ Hload eq_refl eq_refl eq_refl))).
Defined.

(** X5: the loader keeps the rows of the three files in their order and
    leaves every cell but the machine and the numeric ones as it is; after
    it every machine cell of Table 1, and of Tables 2 and 3 when they have
    the column, is a string in upper case, never a missing value. *)
Theorem X5_filas_cargadas a tabla1 tabla2 tabla3 r1 r2 r3 :
  load_data a = Ok (tabla1, tabla2, tabla3) →
  TABLA1_FINAL_CON_ID a = Some r1 → TABLA2DASH a = Some r2 → TABLA3_FINAL a = Some r3 →
  length (filas tabla1) = length (filas r1)
  ∧ length (filas tabla2) = length (filas r2)
  ∧ length (filas tabla3) = length (filas r3)
  ∧ (∀ i f, filas tabla1 !! i = Some f →
       ∃ f0 m, filas r1 !! i = Some f0
               ∧ f1_maquina f = Some m ∧ m = upper (astype_str (f1_maquina f0))
               ∧ en_mayusculas m
               ∧ f1_id f = f1_id f0 ∧ f1_turno f = f1_turno f0
               ∧ f1_eqtype f = f1_eqtype f0 ∧ f1_cluster f = f1_cluster f0)
  ∧ (∀ i f, filas tabla2 !! i = Some f →
       ∃ f0, filas r2 !! i = Some f0
             ∧ (COL_MAQ ∈ columns r2 →
                  ∃ m, f2_maquina f = Some m ∧ m = upper (astype_str (f2_maquina f0))
                       ∧ en_mayusculas m)
             ∧ (COL_MAQ ∉ columns r2 → f2_maquina f = f2_maquina f0))
  ∧ (∀ i f, filas tabla3 !! i = Some f →
       ∃ f0, filas r3 !! i = Some f0
             ∧ (COL_MAQ ∈ columns r3 →
                  ∃ m, f3_maquina f = Some m ∧ m = upper (astype_str (f3_maquina f0))
                       ∧ en_mayusculas m)
             ∧ (COL_MAQ ∉ columns r3 → f3_maquina f = f3_maquina f0)).
Proof.
  intros (r1' & r2' & r3' & F1' & F2' & F3' & _ & _ & _ & -> & -> & ->)%load_data_Ok
    F1 F2 F3.
  rewrite F1 in F1'. rewrite F2 in F2'. rewrite F3 in F3'.
  injection F1' as <-. injection F2' as <-. injection F3' as <-.
  unfold cargada1, cargada2, cargada3. simpl. rewrite !length_fmap.
  split_and!; try done.
  - intros i f (f0 & -> & Hf0)%list_lookup_fmap_Some.
    exists f0, (upper (astype_str (f1_maquina f0))). split_and!; try done.
    apply upper_en_mayusculas.
  - intros i f (f0 & -> & Hf0)%list_lookup_fmap_Some. exists f0. split; [done|].
    split; intros Hcol.
    + rewrite decide_True by done. eexists. split_and!; try done.
      apply upper_en_mayusculas.
    + by rewrite decide_False.
  - intros i f (f0 & -> & Hf0)%list_lookup_fmap_Some. exists f0. split; [done|].
    split; intros Hcol.
    + rewrite decide_True by done. eexists. split_and!; try done.
      apply upper_en_mayusculas.
    + by rewrite decide_False.
Qed.

(** X5 on the sample files. *)
Lemma X5_witness :
  load_data ejemplo
    = Ok (cargada1 (cruda1 filas1_ejemplo), cargada2 (cruda2 filas2_ejemplo),
          cargada3 (cruda3 filas3_ejemplo))
  ∧ TABLA1_FINAL_CON_ID ejemplo = Some (cruda1 filas1_ejemplo)
  ∧ TABLA2DASH ejemplo = Some (cruda2 filas2_ejemplo)
  ∧ TABLA3_FINAL ejemplo = Some (cruda3 filas3_ejemplo)
  ∧ length (filas (cargada1 (cruda1 filas1_ejemplo))) = length (filas (cruda1 filas1_ejemplo)).
Proof.
  assert (Hload : load_data ejemplo
    = Ok (cargada1 (cruda1 filas1_ejemplo), cargada2 (cruda2 filas2_ejemplo),
          cargada3 (cruda3 filas3_ejemplo))) by calcula.
  split; [exact Hload|]. split; [reflexivity|]. split; [reflexivity|].
  split; [reflexivity|].
  exact (proj1 (X5_filas_cargadas ejemplo _ _ _ _ _ _ Hload eq_refl eq_refl eq_refl)).
Defined.

(** ** The top machine, from the file *)

Lemma cuenta_filter `{EqDecision A} (P : A → Prop) `{∀ x, Decision (P x)} x (l : list A) :
  P x → cuenta x (filter P l) = cuenta x l.
Proof.
  intros HP. unfold cuenta. induction l as [|y l IH]; [done|].
  rewrite !filter_cons. destruct (decide (P y)) as [Hy|Hy].
  - rewrite filter_cons. case_decide; simpl; by rewrite IH.
  - rewrite decide_False by (by intros ->). done.
Qed.

Lemma cuenta_le_length `{EqDecision A} x (l : list A) : cuenta x l ≤ length l.
Proof. unfold cuenta. apply length_filter. Qed.

(** The names that count for the top machine, from the cells of the file:
    the second upper-casing of line 178 changes nothing. *)
Lemma serie_m_cargada1 r1 :
  serie_m (cargada1 r1)
  = filter (λ s, s ≠ py "" ∧ s ≠ py "NAN")
      ((λ f0, strip (upper (astype_str (f1_maquina f0)))) <$> filas r1).
Proof.
  unfold serie_m, cargada1, dropna. cbn [filas].
  assert (Hdrop : ∀ l : list Fila1,
            omap id (f1_maquina <$> (asigna_maquina1 normaliza <$> l))
                       = (λ f0, upper (astype_str (f1_maquina f0))) <$> l).
  { intros l. induction l as [|f0 l IH]; [done|]. simpl. by f_equal. }
  rewrite Hdrop, <- list_fmap_compose.
  induction (filas r1) as [|f0 l IH]; [done|].
  rewrite !fmap_cons, !filter_cons, IH. unfold compose at 1 2 3.
  pose proof (en_mayusculas_upper (strip (upper (astype_str (f1_maquina f0))))
                (strip_en_mayusculas _ (upper_en_mayusculas _))) as Hup.
  repeat case_decide; try done; exfalso; rewrite ?Hup in *; tauto.
Qed.

(** X6: the top-machine indicator, read off the file: each machine cell is
    turned into text, upper-cased and stripped, blank names and "NAN" are
    set aside; the indicator shows "Sin datos" exactly when no name is left,
    and otherwise a name in upper case with its number of occurrences, which
    is at least one, at most the number of rows and no less than that of any
    other name. *)
Theorem X6_maq_top_archivo a cluster_sel maquina_sel p r1 :
  TABLA1_FINAL_CON_ID a = Some r1 →
  main a cluster_sel maquina_sel = Ok (Completa p) →
  let nombres := (λ f0, strip (upper (astype_str (f1_maquina f0)))) <$> filas r1 in
  (kpi_maq_top p = Sin_datos ↔ ∀ s, s ∈ nombres → s = py "" ∨ s = py "NAN")
  ∧ ∀ m n, kpi_maq_top p = Dato (m, n) →
      m ∈ nombres ∧ m ≠ py "" ∧ m ≠ py "NAN" ∧ en_mayusculas m
      ∧ n = cuenta m nombres ∧ 0 < n ≤ length (filas r1)
      ∧ ∀ s, s ≠ py "" → s ≠ py "NAN" → cuenta s nombres ≤ n.
Proof.
  intros F1 Hmain nombres.
  rewrite (main_kpi_maq_top _ _ _ _ _ F1 Hmain).
  pose proof (texto_maq_top_spec (cargada1 r1)) as Hs.
  rewrite serie_m_cargada1 in Hs. fold nombres in Hs.
  destruct (texto_maq_top (cargada1 r1)) as [|[m n]].
  - split; [|by intros m n [=]]. split; [|done]. intros _ s Hin.
    destruct (decide (s = py "")) as [|H1]; [by left|].
    destruct (decide (s = py "NAN")) as [|H2]; [by right|].
    exfalso. by apply (filter_nil_not_elem_of _ _ s Hs).
  - destruct Hs as (Hin & Hn & Hmax).
    apply list_elem_of_filter in Hin as [[Hb Hnan] Hin].
    rewrite cuenta_filter in Hn by done. split.
    + split; [done|]. intros Hall. exfalso. destruct (Hall m Hin); done.
    + intros ? ? [= <- <-]. split_and!; try done.
      * apply list_elem_of_fmap in Hin as (f0 & -> & _).
        apply strip_en_mayusculas, upper_en_mayusculas.
      * rewrite Hn. by apply cuenta_pos.
      * rewrite Hn, <- (length_fmap (λ f0, strip (upper (astype_str (f1_maquina f0))))).
        apply cuenta_le_length.
      * intros s H1 H2. rewrite Hmax, <- (cuenta_filter (λ s, s ≠ py "" ∧ s ≠ py "NAN") s nombres)
          by done.
        apply max_ct_value_counts_ge.
Qed.

(** X6 on the sample files. *)
Lemma X6_witness :
  ∃ p,
    TABLA1_FINAL_CON_ID ejemplo = Some (cruda1 filas1_ejemplo)
    ∧ main ejemplo Todos Todas = Ok (Completa p)
    ∧ (kpi_maq_top p = Sin_datos ↔
       ∀ s, s ∈ (λ f0, strip (upper (astype_str (f1_maquina f0))))
                  <$> filas (cruda1 filas1_ejemplo) →
            s = py "" ∨ s = py "NAN").
Proof.
  eexists. split; [reflexivity|]. split; [calcula|].
  refine (proj1 (X6_maq_top_archivo ejemplo Todos Todas _ _ eq_refl _)). calcula.
Defined.

(** ** The options of the two selectors *)

Lemma NoDup_sorted l : NoDup (sorted l) ↔ NoDup l.
Proof. unfold sorted. by rewrite merge_sort_Permutation. Qed.

Lemma cargada1_maquina r1 f m :
  f ∈ filas (cargada1 r1) → f1_maquina f = Some m → en_mayusculas m.
Proof.
  unfold cargada1. simpl. intros (f0 & -> & _)%list_elem_of_fmap [= <-].
  apply upper_en_mayusculas.
Qed.

Lemma cargada2_maquina r2 f m :
  COL_MAQ ∈ columns r2 →
  f ∈ filas (cargada2 r2) → f2_maquina f = Some m → en_mayusculas m.
Proof.
  unfold cargada2. simpl. intros Hcol. rewrite decide_True by done.
  intros (f0 & -> & _)%list_elem_of_fmap [= <-]. apply upper_en_mayusculas.
Qed.

Lemma cargada3_maquina r3 f m :
  COL_MAQ ∈ columns r3 →
  f ∈ filas (cargada3 r3) → f3_maquina f = Some m → en_mayusculas m.
Proof.
  unfold cargada3. simpl. intros Hcol. rewrite decide_True by done.
  intros (f0 & -> & _)%list_elem_of_fmap [= <-]. apply upper_en_mayusculas.
Qed.

(** X7: the cluster selector offers "Todos" first and then, in increasing
    order and once each, the cluster values of the file that are not
    missing; without the column [Cluster] it offers "Todos" alone. *)
Theorem X7_opciones_cluster a cluster_sel maquina_sel p r1 :
  TABLA1_FINAL_CON_ID a = Some r1 →
  main a cluster_sel maquina_sel = Ok (Completa p) →
  ∃ clusters,
    opciones_cluster p = Todos :: clusters
    ∧ StronglySorted pystr_le clusters ∧ NoDup clusters
    ∧ (∀ c, c ∈ clusters ↔
         COL_CLUSTER ∈ columns r1 ∧ ∃ f0, f0 ∈ filas r1 ∧ f1_cluster f0 = Some c)
    ∧ (COL_CLUSTER ∉ columns r1 → clusters = []).
Proof.
  intros F1 Hmain.
  destruct (main_inv_ex _ _ _ _ Hmain) as (tabla1 & tabla2 & tabla3 & Hload).
  destruct (main_inv _ _ _ _ _ _ _ Hmain Hload) as (_ & Hop & _).
  apply load_data_Ok in Hload as (r1' & _ & _ & F1' & _ & _ & _ & _ & _ & -> & _).
  rewrite F1 in F1'. injection F1' as <-.
  exists (clusters_disp (cargada1 r1)). split; [done|].
  assert (Hcl : f1_cluster <$> filas (cargada1 r1) = f1_cluster <$> filas r1).
  { unfold cargada1. simpl. by rewrite <- list_fmap_compose. }
  unfold clusters_disp. rewrite Hcl.
  destruct (decide (COL_CLUSTER ∈ columns (cargada1 r1))) as [Hcol|Hcol];
    rewrite cargada1_COL_CLUSTER in Hcol.
  - split_and!; try done.
    + apply sorted_StronglySorted.
    + apply NoDup_sorted, NoDup_unique.
    + intros c. rewrite elem_of_sorted, elem_of_unique, elem_of_dropna, list_elem_of_fmap.
      naive_solver.
  - split_and!; try done; [constructor | constructor |].
    intros c. split; [by intros ?%not_elem_of_nil | tauto].
Qed.

(** X7 on the sample files. *)
Lemma X7_witness :
  ∃ p,
    TABLA1_FINAL_CON_ID ejemplo = Some (cruda1 filas1_ejemplo)
    ∧ main ejemplo Todos Todas = Ok (Completa p)
    ∧ ∃ clusters, opciones_cluster p = Todos :: clusters ∧ NoDup clusters.
Proof.
  eexists. split; [reflexivity|]. split; [calcula|].
  assert (Hmain : main ejemplo Todos Todas = Ok (Completa _)) by calcula.
  destruct (X7_opciones_cluster ejemplo Todos Todas _ _ eq_refl Hmain)
    as (clusters & Hop & _ & Hnd & _).
  exists clusters. split; [exact Hop | exact Hnd].
Defined.

(** X8: the machine selector offers "Todas" first and then, in increasing
    order and once each, names in upper case: the machines of the rows of
    Table 1 (of the selected cluster, when one is selected and the column is
    there) and every machine of Tables 2 and 3.  Selecting a cluster only
    removes options. *)
Theorem X8_opciones_maquina a cluster_sel maquina_sel p tabla1 tabla2 tabla3 :
  main a cluster_sel maquina_sel = Ok (Completa p) →
  load_data a = Ok (tabla1, tabla2, tabla3) →
  ∃ ops,
    opciones_maquina p = Todas :: ops
    ∧ StronglySorted pystr_le ops ∧ NoDup ops
    ∧ (∀ m, m ∈ ops → en_mayusculas m)
    ∧ (∀ m, m ∈ ops ↔
         (∃ f, f ∈ filas tabla1 ∧ f1_maquina f = Some m
               ∧ (cluster_sel = Todos ∨ COL_CLUSTER ∉ columns tabla1
                  ∨ astype_str (f1_cluster f) = cluster_sel))
         ∨ (∃ f, f ∈ filas tabla2 ∧ f2_maquina f = Some m)
         ∨ (∃ f, f ∈ filas tabla3 ∧ f3_maquina f = Some m))
    ∧ (∀ maquina_sel' p', main a Todos maquina_sel' = Ok (Completa p') →
         ∀ m, m ∈ opciones_maquina p → m ∈ opciones_maquina p').
Proof.
  intros Hmain Hload.
  destruct (main_inv _ _ _ _ _ _ _ Hmain Hload) as (_ & _ & (ops & Hops & Hop) & _).
  exists ops. split; [done|].
  assert (Hmem : ∀ m, m ∈ ops ↔
         (∃ f, f ∈ filas tabla1 ∧ f1_maquina f = Some m
               ∧ (cluster_sel = Todos ∨ COL_CLUSTER ∉ columns tabla1
                  ∨ astype_str (f1_cluster f) = cluster_sel))
         ∨ (∃ f, f ∈ filas tabla2 ∧ f2_maquina f = Some m)
         ∨ (∃ f, f ∈ filas tabla3 ∧ f3_maquina f = Some m)).
  { intros m. rewrite (elem_of_maquinas _ _ _ _ _ _ Hops), elem_of_maqs_t1.
    rewrite !list_elem_of_fmap. naive_solver. }
  pose proof Hops as (H2 & H3 & Heq)%maquinas_Ok.
  split_and!; try done.
  - rewrite Heq. apply sorted_StronglySorted.
  - rewrite Heq. apply NoDup_sorted, NoDup_elements.
  - pose proof Hload as (r1 & r2 & r3 & _ & _ & _ & _ & _ & _ & -> & -> & ->)%load_data_Ok.
    intros m [(f & Hf & Hm & _)|[(f & Hf & Hm)|(f & Hf & Hm)]]%Hmem.
    + exact (cargada1_maquina r1 f m Hf Hm).
    + exact (cargada2_maquina r2 f m H2 Hf Hm).
    + exact (cargada3_maquina r3 f m H3 Hf Hm).
  - intros maquina_sel' p' Hmain' m.
    destruct (main_inv _ _ _ _ _ _ _ Hmain' Hload) as (_ & _ & (ops' & Hops' & Hop') & _).
    rewrite Hop, Hop', !elem_of_cons, Hmem.
    rewrite (elem_of_maquinas _ _ _ _ _ _ Hops'), elem_of_maqs_t1, !list_elem_of_fmap.
    naive_solver.
Qed.

(** X8 on the sample files, with cluster X selected. *)
Lemma X8_witness :
  ∃ p,
    main ejemplo (py "X") Todas = Ok (Completa p)
    ∧ load_data ejemplo
      = Ok (cargada1 (cruda1 filas1_ejemplo), cargada2 (cruda2 filas2_ejemplo),
            cargada3 (cruda3 filas3_ejemplo))
    ∧ ∃ ops, opciones_maquina p = Todas :: ops ∧ NoDup ops.
Proof.
  assert (Hload : load_data ejemplo
    = Ok (cargada1 (cruda1 filas1_ejemplo), cargada2 (cruda2 filas2_ejemplo),
          cargada3 (cruda3 filas3_ejemplo))) by calcula.
  eexists. split; [calcula|]. split; [exact Hload|].
  assert (Hmain : main ejemplo (py "X") Todas = Ok (Completa _)) by calcula.
  destruct (X8_opciones_maquina ejemplo (py "X") Todas _ _ _ _ Hmain Hload)
    as (ops & Hop & _ & Hnd & _).
  exists ops. split; [exact Hop | exact Hnd].
Defined.

(** ** The filtered tables *)

Lemma filter_nil_intro {A} (P : A → Prop) `{∀ x, Decision (P x)} (l : list A) :
  (∀ x, x ∈ l → ¬ P x) → filter P l = [].
Proof.
  intros Hno. induction l as [|x l IH]; [done|].
  rewrite filter_cons, decide_False by (apply Hno; by left).
  apply IH. intros y Hy. apply Hno. by right.
Qed.

Lemma filter_all {A} (P : A → Prop) `{∀ x, Decision (P x)} (l : list A) :
  (∀ x, x ∈ l → P x) → filter P l = l.
Proof.
  intros Hall. induction l as [|x l IH]; [done|].
  rewrite filter_cons, decide_True by (apply Hall; by left).
  f_equal. apply IH. intros y Hy. apply Hall. by right.
Qed.

Lemma filter_fmap {A B} (f : A → B) (P : B → Prop) `{∀ y, Decision (P y)} (l : list A) :
  filter P (f <$> l) = f <$> filter (λ x, P (f x)) l.
Proof.
  induction l as [|x l IH]; [done|].
  rewrite fmap_cons, !filter_cons. case_decide; [rewrite fmap_cons|]; by rewrite IH.
Qed.

Lemma sum_list_with_fmap {A B} (f : A → B) (g : B → nat) (l : list A) :
  sum_list_with g (f <$> l) = sum_list_with (λ x, g (f x)) l.
Proof. induction l as [|x l IH]; [done|]. simpl. by f_equal. Qed.

Lemma length_filter_cuenta {A B} `{EqDecision B} (g : A → B) y (l : list A) :
  length (filter (λ x, g x = y) l) = cuenta y (g <$> l).
Proof. unfold cuenta. by rewrite filter_fmap, length_fmap. Qed.

(** The rows of Table 1 that the two filters keep. *)
Lemma filas_t1 tabla1 tabla2 tabla3 cluster_sel maquina_sel :
  filas (filtro_maquina (filtro_cluster (tabla1, tabla2, tabla3) cluster_sel)
           maquina_sel).1.1
  = filter (λ f, maquina_sel = Todas ∨ f1_maquina f = Some maquina_sel)
      (filter (λ f, cluster_sel = Todos ∨ COL_CLUSTER ∉ columns tabla1
                    ∨ astype_str (f1_cluster f) = cluster_sel)
         (filas tabla1)).
Proof.
  assert (Hcl : filas (filtro_cluster (tabla1, tabla2, tabla3) cluster_sel).1.1
                = filter (λ f, cluster_sel = Todos ∨ COL_CLUSTER ∉ columns tabla1
                               ∨ astype_str (f1_cluster f) = cluster_sel) (filas tabla1)).
  { unfold filtro_cluster, en_cluster.
    destruct (decide (cluster_sel ≠ Todos ∧ COL_CLUSTER ∈ columns tabla1)) as [Hc|Hc]; simpl.
    - apply list_filter_iff. tauto.
    - symmetry. apply filter_all. intros f _.
      destruct (decide (cluster_sel = Todos)); [tauto|].
      destruct (decide (COL_CLUSTER ∈ columns tabla1)); tauto. }
  rewrite <- Hcl. destruct (filtro_cluster _ _) as [[c1 c2] c3]. simpl.
  unfold filtro_maquina. clear Hcl.
  destruct (decide (maquina_sel ≠ Todas)) as [Hm|Hm]; simpl.
  - apply list_filter_iff. tauto.
  - symmetry. apply filter_all. intros f _. left. by apply dec_stable.
Qed.

(** X9: the total of failures is the number of rows of the filtered
    Table 1, at most that of the whole table; with "Todas" selected it is the
    sum, over the machines of these rows, of their numbers of rows, and the
    total shown when one machine is selected instead is that machine's
    term. *)
Theorem X9_total_fallas a cluster_sel p tabla1 tabla2 tabla3 :
  main a cluster_sel Todas = Ok (Completa p) →
  load_data a = Ok (tabla1, tabla2, tabla3) →
  kpi_total_fallas p = length (filas (t1 p))
  ∧ kpi_total_fallas p ≤ length (filas tabla1)
  ∧ kpi_total_fallas p
    = sum_list_with (λ m, cuenta (Some m) (f1_maquina <$> filas (t1 p)))
        (maquinas_cluster (t1 p))
  ∧ ∀ m p', m ≠ Todas → main a cluster_sel m = Ok (Completa p') →
      kpi_total_fallas p' = cuenta (Some m) (f1_maquina <$> filas (t1 p))
      ∧ kpi_total_fallas p' ≤ kpi_total_fallas p.
Proof.
  intros Hmain Hload.
  destruct (main_inv _ _ _ _ _ _ _ Hmain Hload) as (Heq & _ & _ & Htot & _).
  assert (Hlen : ∀ t, total_fallas t = length (filas t)).
  { intros t. unfold total_fallas, empty.
    destruct (decide (¬ filas t = [])) as [He|He]; [done|].
    apply dec_stable in He. by rewrite He. }
  rewrite Htot, Hlen.
  assert (H1 : filas (t1 p)
               = filter (λ f, cluster_sel = Todos ∨ COL_CLUSTER ∉ columns tabla1
                              ∨ astype_str (f1_cluster f) = cluster_sel) (filas tabla1)).
  { pose proof (filas_t1 tabla1 tabla2 tabla3 cluster_sel Todas) as Hf.
    rewrite <- Heq in Hf. simpl in Hf. rewrite Hf. apply filter_all. tauto. }
  split_and!; try done.
  - rewrite H1. apply length_filter.
  - rewrite <- (length_fmap f1_maquina).
    rewrite <- (suma_cuentas (Some <$> maquinas_cluster (t1 p))).
    + by rewrite sum_list_with_fmap.
    + apply (NoDup_fmap_2 _). apply NoDup_unique.
    + intros c (f & -> & Hf)%list_elem_of_fmap.
      assert (Hin : f ∈ filas tabla1).
      { rewrite H1 in Hf. by apply list_elem_of_filter in Hf as [_ Hf]. }
      apply load_data_Ok in Hload as (r1 & _ & _ & _ & _ & _ & _ & _ & _ & -> & _).
      unfold cargada1 in Hin. simpl in Hin.
      apply list_elem_of_fmap in Hin as (f0 & Hf0 & _).
      apply list_elem_of_fmap. exists (upper (astype_str (f1_maquina f0))).
      split; [by rewrite Hf0|].
      apply elem_of_maquinas_cluster. exists f. split; [done|]. by rewrite Hf0.
  - intros m p' Hm Hmain'.
    destruct (main_inv _ _ _ _ _ _ _ Hmain' Hload) as (Heq' & _ & _ & Htot' & _).
    pose proof (filas_t1 tabla1 tabla2 tabla3 cluster_sel m) as Hf.
    rewrite <- Heq' in Hf. simpl in Hf. rewrite <- H1 in Hf.
    rewrite Htot', Hlen, Hf.
    rewrite (list_filter_iff _ (λ f, f1_maquina f = Some m)) by (intros f; tauto).
    rewrite length_filter_cuenta. split; [done|].
    rewrite <- (length_fmap f1_maquina (filas (t1 p))). apply cuenta_le_length.
Qed.

(** X9 on the sample files, with cluster X selected. *)
Lemma X9_witness :
  ∃ p,
    main ejemplo (py "X") Todas = Ok (Completa p)
    ∧ load_data ejemplo
      = Ok (cargada1 (cruda1 filas1_ejemplo), cargada2 (cruda2 filas2_ejemplo),
            cargada3 (cruda3 filas3_ejemplo))
    ∧ kpi_total_fallas p = length (filas (t1 p)).
Proof.
  assert (Hload : load_data ejemplo
    = Ok (cargada1 (cruda1 filas1_ejemplo), cargada2 (cruda2 filas2_ejemplo),
          cargada3 (cruda3 filas3_ejemplo))) by calcula.
  eexists. split; [calcula|]. split; [exact Hload|].
  refine (proj1 (X9_total_fallas ejemplo (py "X") _ _ _ _ _ Hload)). calcula.
Defined.

(** X10: with a cluster selected, selecting a machine that has no row of
    Table 1 in that cluster empties the three tables: the total is 0, the
    mean interval shows "Sin datos", the line chart gives way to the warning
    and the box plot to its message. *)
Theorem X10_maquina_fuera_del_cluster a cluster_sel maquina_sel p tabla1 tabla2 tabla3 :
  main a cluster_sel maquina_sel = Ok (Completa p) →
  load_data a = Ok (tabla1, tabla2, tabla3) →
  cluster_sel ≠ Todos → COL_CLUSTER ∈ columns tabla1 → maquina_sel ≠ Todas →
  maquina_sel ∉ maquinas_cluster (filtra (en_cluster cluster_sel) tabla1) →
  filas (t1 p) = [] ∧ filas (t2 p) = [] ∧ filas (t3 p) = []
  ∧ kpi_total_fallas p = 0 ∧ kpi_tiempo p = Sin_datos ∧ kpi_cluster p = cluster_sel
  ∧ fig_serie p = Serie_warning ∧ fig_box p = Box_info.
Proof.
  intros Hmain Hload Hcs Hcol Hms Hno.
  destruct (main_inv _ _ _ _ _ _ _ Hmain Hload)
    as (Heq & _ & _ & -> & _ & -> & -> & -> & ->).
  rewrite filtro_cluster_eq, filtro_maquina_eq in Heq by done.
  injection Heq as H1 H2 H3.
  assert (E1 : filas (t1 p) = []).
  { rewrite H1. simpl. apply filter_nil_intro.
    intros f Hf Hm. apply Hno. apply elem_of_maquinas_cluster. by exists f. }
  assert (E2 : filas (t2 p) = []).
  { rewrite H2. simpl. apply filter_nil_intro.
    intros f [(m & Hm & Hin) _]%list_elem_of_filter Hsel.
    rewrite Hsel in Hm. injection Hm as <-. done. }
  assert (E3 : filas (t3 p) = []).
  { rewrite H3. simpl. apply filter_nil_intro.
    intros f [(m & Hm & Hin) _]%list_elem_of_filter Hsel.
    rewrite Hsel in Hm. injection Hm as <-. done. }
  split_and!; try done.
  - unfold total_fallas, empty. by rewrite decide_False by tauto.
  - unfold prom_tiempo, empty. by rewrite decide_False by tauto.
  - unfold cluster_cat. by rewrite decide_True.
  - unfold serie_tiempo, empty. rewrite decide_False by tauto. by rewrite decide_True.
  - unfold boxplot, empty. by rewrite decide_False by tauto.
Qed.

(** X10 on the sample files: machine C is not of cluster X. *)
Lemma X10_witness :
  ∃ p,
    main ejemplo (py "X") (py "C") = Ok (Completa p)
    ∧ load_data ejemplo
      = Ok (cargada1 (cruda1 filas1_ejemplo), cargada2 (cruda2 filas2_ejemplo),
            cargada3 (cruda3 filas3_ejemplo))
    ∧ py "X" ≠ Todos ∧ COL_CLUSTER ∈ columns (cargada1 (cruda1 filas1_ejemplo))
    ∧ py "C" ≠ Todas
    ∧ (py "C" ∉ maquinas_cluster (filtra (en_cluster (py "X")) (cargada1 (cruda1 filas1_ejemplo))))
    ∧ filas (t1 p) = [].
Proof.
  assert (Hload : load_data ejemplo
    = Ok (cargada1 (cruda1 filas1_ejemplo), cargada2 (cruda2 filas2_ejemplo),
          cargada3 (cruda3 filas3_ejemplo))) by calcula.
  assert (Hcs : py "X" ≠ Todos) by decide_calcula.
  assert (Hcol : COL_CLUSTER ∈ columns (cargada1 (cruda1 filas1_ejemplo))) by decide_calcula.
  assert (Hms : py "C" ≠ Todas) by decide_calcula.
  assert (Hno : py "C" ∉ maquinas_cluster
                  (filtra (en_cluster (py "X")) (cargada1 (cruda1 filas1_ejemplo))))
    by decide_calcula.
  eexists. split; [calcula|]. split; [exact Hload|]. split; [exact Hcs|].
  split; [exact Hcol|]. split; [exact Hms|]. split; [exact Hno|].
  refine (proj1 (X10_maquina_fuera_del_cluster ejemplo (py "X") (py "C") _ _ _ _
                   _ Hload Hcs Hcol Hms Hno)).
  calcula.
Defined.

(** X11: with a cluster selected, the three filtered tables have the same
    machine population: every row left in Table 1 is of the cluster, and
    every machine left in Table 2 or 3 is the machine of a row left in
    Table 1. *)
Theorem X11_tablas_consistentes a cluster_sel maquina_sel p tabla1 tabla2 tabla3 :
  main a cluster_sel maquina_sel = Ok (Completa p) →
  load_data a = Ok (tabla1, tabla2, tabla3) →
  cluster_sel ≠ Todos → COL_CLUSTER ∈ columns tabla1 →
  (∀ g, g ∈ filas (t1 p) → astype_str (f1_cluster g) = cluster_sel)
  ∧ (∀ f, f ∈ filas (t2 p) → ∃ g, g ∈ filas (t1 p) ∧ f1_maquina g = f2_maquina f)
  ∧ (∀ f, f ∈ filas (t3 p) → ∃ g, g ∈ filas (t1 p) ∧ f1_maquina g = f3_maquina f).
Proof.
  intros Hmain Hload Hcs Hcol.
  destruct (main_inv _ _ _ _ _ _ _ Hmain Hload) as (Heq & _).
  rewrite filtro_cluster_eq in Heq by done. unfold filtro_maquina in Heq.
  destruct (decide (maquina_sel ≠ Todas)) as [Hms|Hms];
    injection Heq as -> -> ->; simpl.
  - split_and!.
    + by intros g [_ [Hc _]%list_elem_of_filter]%list_elem_of_filter.
    + intros f [Hm [(m & Hfm & (g & Hg & Hgm)%elem_of_maquinas_cluster) _]
                  %list_elem_of_filter]%list_elem_of_filter.
      exists g. split; [|congruence]. apply list_elem_of_filter. split; [congruence|done].
    + intros f [Hm [(m & Hfm & (g & Hg & Hgm)%elem_of_maquinas_cluster) _]
                  %list_elem_of_filter]%list_elem_of_filter.
      exists g. split; [|congruence]. apply list_elem_of_filter. split; [congruence|done].
  - split_and!.
    + by intros g [Hc _]%list_elem_of_filter.
    + intros f [(m & Hfm & (g & Hg & Hgm)%elem_of_maquinas_cluster) _]%list_elem_of_filter.
      exists g. split; [done | congruence].
    + intros f [(m & Hfm & (g & Hg & Hgm)%elem_of_maquinas_cluster) _]%list_elem_of_filter.
      exists g. split; [done | congruence].
Qed.

(** X11 on the sample files, with cluster X selected. *)
Lemma X11_witness :
  ∃ p,
    main ejemplo (py "X") Todas = Ok (Completa p)
    ∧ load_data ejemplo
      = Ok (cargada1 (cruda1 filas1_ejemplo), cargada2 (cruda2 filas2_ejemplo),
            cargada3 (cruda3 filas3_ejemplo))
    ∧ py "X" ≠ Todos ∧ COL_CLUSTER ∈ columns (cargada1 (cruda1 filas1_ejemplo))
    ∧ ∀ g, g ∈ filas (t1 p) → astype_str (f1_cluster g) = py "X".
Proof.
  assert (Hload : load_data ejemplo
    = Ok (cargada1 (cruda1 filas1_ejemplo), cargada2 (cruda2 filas2_ejemplo),
          cargada3 (cruda3 filas3_ejemplo))) by calcula.
  assert (Hcs : py "X" ≠ Todos) by decide_calcula.
  assert (Hcol : COL_CLUSTER ∈ columns (cargada1 (cruda1 filas1_ejemplo))) by decide_calcula.
  eexists. split; [calcula|]. split; [exact Hload|]. split; [exact Hcs|].
  split; [exact Hcol|].
  refine (proj1 (X11_tablas_consistentes ejemplo (py "X") Todas _ _ _ _ _ Hload Hcs Hcol)).
  calcula.
Defined.

(** ** The box plot and the mean *)

(** Every row of the filtered Table 2 of a complete page has a machine. *)
Lemma t2_maquina a cluster_sel maquina_sel p f :
  main a cluster_sel maquina_sel = Ok (Completa p) →
  f ∈ filas (t2 p) → f2_maquina f ≠ None.
Proof.
  intros Hmain Hf.
  destruct (main_inv_ex _ _ _ _ Hmain) as (tabla1 & tabla2 & tabla3 & Hload).
  destruct (main_inv _ _ _ _ _ _ _ Hmain Hload) as (Heq & _ & (ops & Hops & _) & _).
  apply maquinas_Ok in Hops as (H2 & _).
  apply load_data_Ok in Hload as (r1 & r2 & r3 & _ & _ & _ & _ & _ & _ & -> & -> & ->).
  destruct (filtro_cluster _ cluster_sel) as [[c1 c2] c3] eqn:Hfc.
  apply filtro_cluster_sublist in Hfc as (_ & S2 & _).
  assert (Hin : f ∈ filas c2).
  { unfold filtro_maquina in Heq.
    destruct (decide (maquina_sel ≠ Todas)); injection Heq as _ H2' _;
      rewrite H2' in Hf; [|done].
    by apply list_elem_of_filter in Hf as [_ Hf]. }
  apply (sublist_subseteq _ _ S2) in Hin. unfold cargada2 in Hin, H2. simpl in Hin, H2.
  rewrite decide_True in Hin by done.
  by apply list_elem_of_fmap in Hin as (f0 & -> & _).
Qed.

Lemma filter_ext_in {A} (P Q : A → Prop) `{∀ x, Decision (P x)} `{∀ x, Decision (Q x)}
    (l : list A) :
  (∀ x, x ∈ l → P x ↔ Q x) → filter P l = filter Q l.
Proof.
  intros Hext. induction l as [|x l IH]; [done|].
  rewrite !filter_cons, IH by (intros y Hy; apply Hext; by right).
  assert (Hx : P x ↔ Q x) by (apply Hext; by left).
  destruct (decide (P x)), (decide (Q x)); tauto.
Qed.

Lemma dropna_fmap_filter {A B} (g : A → option B) (l : list A) :
  dropna (g <$> filter (λ x, g x ≠ None) l) = dropna (g <$> l).
Proof.
  unfold dropna. induction l as [|x l IH]; [done|].
  rewrite filter_cons, fmap_cons.
  destruct (g x) as [y|] eqn:Hx.
  - rewrite decide_True by done. rewrite fmap_cons, Hx. simpl. f_equal. exact IH.
  - rewrite decide_False by tauto. exact IH.
Qed.

Lemma length_dropna_filter {A B} (g : A → option B) (l : list A) :
  length (dropna (g <$> l)) = length (filter (λ x, g x ≠ None) l).
Proof.
  unfold dropna. induction l as [|x l IH]; [done|].
  rewrite filter_cons, fmap_cons.
  destruct (g x) as [y|] eqn:Hx.
  - rewrite decide_True by done. simpl. f_equal. exact IH.
  - rewrite decide_False by tauto. exact IH.
Qed.

(** X12: the box plot is drawn exactly when the filtered Table 2 has rows;
    its rows are, in order, the machine and the interval of the rows whose
    interval is not missing, so the intervals the box plot shows are those
    that the mean-interval indicator counts: the indicator divides the sum
    of the column by the number of rows of the box plot, and it shows
    "Sin datos" when the box plot has no row to show. *)
Theorem X12_boxplot_y_media a cluster_sel maquina_sel p :
  main a cluster_sel maquina_sel = Ok (Completa p) →
  (fig_box p = Box_info ↔ filas (t2 p) = [])
  ∧ (fig_box p = Box_info ∨ fig_box p = Box_fig [] → kpi_tiempo p = Sin_datos)
  ∧ ∀ box_data, fig_box p = Box_fig box_data →
      box_data = (λ f, (f2_maquina f, f2_tiempo f))
                   <$> filter (λ f, f2_tiempo f ≠ None) (filas (t2 p))
      ∧ dropna (snd <$> box_data) = dropna (f2_tiempo <$> filas (t2 p))
      ∧ (kpi_tiempo p = Sin_datos
         ↔ box_data = [] ∨ is_nan (mean (f2_tiempo <$> filas (t2 p))) = true)
      ∧ ∀ q, kpi_tiempo p = Dato q →
          q = (np_sum (default 0 <$> (f2_tiempo <$> filas (t2 p)))
               / float_of_nat (length box_data))%float.
Proof.
  intros Hmain.
  pose proof (λ f, t2_maquina a cluster_sel maquina_sel p f Hmain) as Hmaq.
  pose proof (main_kpi_tiempo _ _ _ _ Hmain) as Hk.
  destruct (main_inv_ex _ _ _ _ Hmain) as (tabla1 & tabla2 & tabla3 & Hload).
  destruct (main_inv _ _ _ _ _ _ _ Hmain Hload) as (_ & _ & _ & _ & _ & _ & _ & _ & Hb).
  set (col := f2_tiempo <$> filas (t2 p)) in *.
  assert (Hbd : filter (λ r : celda * option float64, r.1 ≠ None ∧ r.2 ≠ None)
                  ((λ f, (f2_maquina f, f2_tiempo f)) <$> filas (t2 p))
                = (λ f, (f2_maquina f, f2_tiempo f))
                    <$> filter (λ f, f2_tiempo f ≠ None) (filas (t2 p))).
  { rewrite filter_fmap. f_equal. apply filter_ext_in.
    intros f Hf. simpl. specialize (Hmaq f Hf). tauto. }
  assert (Hlen : length ((λ f, (f2_maquina f, f2_tiempo f))
                    <$> filter (λ f, f2_tiempo f ≠ None) (filas (t2 p)))
                 = length (dropna col)).
  { by rewrite length_fmap, <- length_dropna_filter. }
  assert (Hvals : dropna (snd <$> ((λ f, (f2_maquina f, f2_tiempo f))
                    <$> filter (λ f, f2_tiempo f ≠ None) (filas (t2 p))))
                  = dropna col).
  { rewrite <- list_fmap_compose. apply (dropna_fmap_filter f2_tiempo). }
  assert (Hnil : (λ f, (f2_maquina f, f2_tiempo f))
                    <$> filter (λ f, f2_tiempo f ≠ None) (filas (t2 p)) = []
                 ↔ Forall (λ v, v = None) col).
  { rewrite <- dropna_nil_Forall, <- !length_zero_iff_nil, Hlen. done. }
  rewrite Hk, Hb. unfold boxplot, empty.
  destruct (decide (filas (t2 p) = [])) as [He|Hne].
  - rewrite decide_False by tauto. split_and!; try done.
  - rewrite decide_True by tauto. rewrite Hbd. split_and!.
    + split; [done | tauto].
    + intros [[=]|[= Hn]]. apply Hnil in Hn. by rewrite (mean_sin_valores _ Hn).
    + intros box_data [= <-]. split; [done|]. split; [done|]. split.
      * rewrite Hnil. destruct (is_nan (mean col)) eqn:Hm; [tauto|].
        split; [done|]. intros [Hall|?]; [|done].
        by rewrite (mean_sin_valores _ Hall) in Hm.
      * intros q. destruct (is_nan (mean col)) eqn:Hm; [done|]. intros [= <-].
        rewrite Hlen. apply mean_con_valores. intros Hall.
        by rewrite (mean_sin_valores _ Hall) in Hm.
Qed.

(** X12 on the sample files. *)
Lemma X12_witness :
  ∃ p,
    main ejemplo Todos Todas = Ok (Completa p)
    ∧ (fig_box p = Box_info ↔ filas (t2 p) = []).
Proof.
  eexists. split; [calcula|].
  refine (proj1 (X12_boxplot_y_media ejemplo Todos Todas _ _)). calcula.
Defined.

(** ** The cluster of a machine *)

(** The rows left with a cluster selected are those of that cluster among
    the rows left with "Todos". *)
Lemma filas_t1_cluster tabla1 tabla2 tabla3 cluster_sel maquina_sel :
  cluster_sel ≠ Todos → COL_CLUSTER ∈ columns tabla1 →
  filas (filtro_maquina (filtro_cluster (tabla1, tabla2, tabla3) cluster_sel)
           maquina_sel).1.1
  = filter (λ f, astype_str (f1_cluster f) = cluster_sel)
      (filas (filtro_maquina (filtro_cluster (tabla1, tabla2, tabla3) Todos)
                maquina_sel).1.1).
Proof.
  intros Hcs Hcol. rewrite !filas_t1, !list_filter_filter.
  apply list_filter_iff. intros f. tauto.
Qed.

(** With "Todos" and one machine selected, the cluster shown is a cluster
    value of the rows left, and no value has more rows. *)
Lemma cluster_cat_moda (t : Tabla Fila1) maquina_sel :
  maquina_sel ≠ Todas → COL_CLUSTER ∈ columns t → filas t ≠ [] →
  let clusters := astype_str ∘ f1_cluster <$> filas t in
  cluster_cat t Todos maquina_sel ∈ clusters
  ∧ ∀ c, cuenta c clusters ≤ cuenta (cluster_cat t Todos maquina_sel) clusters.
Proof.
  intros Hms Hcol Hne clusters. unfold cluster_cat.
  rewrite (decide_False (P := Todos ≠ Todos)) by (intros H; by apply H).
  rewrite (decide_False (P := maquina_sel = Todas)) by exact Hms.
  rewrite decide_True by (unfold empty; tauto).
  fold clusters. destruct (mode clusters) as [|c moda] eqn:Hmode.
  - apply mode_nil_inv, fmap_nil_inv in Hmode. done.
  - assert (Hc : c ∈ mode clusters) by (rewrite Hmode; by left).
    by apply elem_of_mode in Hc.
Qed.

(** X13: with "Todos" and one machine selected, when the total of failures
    is not 0 and the cluster shown is an option of the cluster selector other
    than "Todos", selecting that cluster with the same machine keeps the
    rows of the machine that are of that cluster, which are not none, keeps
    the machine among the options and shows the same cluster; no other
    cluster selected with that machine gives a larger total of failures. *)
Theorem X13_cluster_de_la_maquina a maquina_sel p p' :
  main a Todos maquina_sel = Ok (Completa p) →
  maquina_sel ≠ Todas → 0 < kpi_total_fallas p →
  kpi_cluster p ∈ opciones_cluster p → kpi_cluster p ≠ Todos →
  main a (kpi_cluster p) maquina_sel = Ok (Completa p') →
  filas (t1 p')
    = filter (λ f, astype_str (f1_cluster f) = kpi_cluster p) (filas (t1 p))
  ∧ filas (t1 p') ≠ []
  ∧ maquina_sel ∈ opciones_maquina p'
  ∧ kpi_cluster p' = kpi_cluster p
  ∧ ∀ c p'', c ≠ Todos → main a c maquina_sel = Ok (Completa p'') →
      kpi_total_fallas p'' ≤ kpi_total_fallas p'.
Proof.
  intros Hmain Hms Htotal Hopt Hk Hmain'.
  destruct (main_inv_ex _ _ _ _ Hmain) as (tabla1 & tabla2 & tabla3 & Hload).
  destruct (main_inv _ _ _ _ _ _ _ Hmain Hload)
    as (Heq0 & Hoc & _ & Htot0 & _ & _ & Hkc0 & _).
  assert (Hcol : COL_CLUSTER ∈ columns tabla1).
  { rewrite Hoc in Hopt. apply elem_of_cons in Hopt as [?|Hopt]; [done|].
    unfold clusters_disp in Hopt. case_decide; [done|].
    by apply not_elem_of_nil in Hopt. }
  assert (Hne : filas (t1 p) ≠ []).
  { intros Hnil. rewrite Htot0 in Htotal. unfold total_fallas, empty in Htotal.
    rewrite decide_False in Htotal by tauto. lia. }
  clear Hoc Htot0.
  assert (Hcols : columns (t1 p) = columns tabla1).
  { rewrite <- (filtros_columns tabla1 tabla2 tabla3 Todos maquina_sel).
    by rewrite <- Heq0. }
  destruct (cluster_cat_moda (t1 p) maquina_sel Hms) as [Hin Hmax];
    [by rewrite Hcols|done|].
  rewrite <- Hkc0 in Hin, Hmax. clear Heq0 Hkc0.
  set (k := kpi_cluster p) in *.
  destruct (main_inv _ _ _ _ _ _ _ Hmain Hload) as (Heq & _).
  destruct (main_inv _ _ _ _ _ _ _ Hmain' Hload)
    as (Heq' & _ & (ops & Hops & Hop) & Htot' & _ & _ & Hkc & _).
  assert (Hlen : ∀ t, total_fallas t = length (filas t)).
  { intros t. unfold total_fallas, empty.
    destruct (decide (¬ filas t = [])) as [He|He]; [done|].
    apply dec_stable in He. by rewrite He. }
  assert (Hfilas : ∀ c q, c ≠ Todos → main a c maquina_sel = Ok (Completa q) →
            filas (t1 q) = filter (λ f, astype_str (f1_cluster f) = c) (filas (t1 p))).
  { intros c q Hc Hq. destruct (main_inv _ _ _ _ _ _ _ Hq Hload) as (Hq' & _).
    pose proof (filas_t1_cluster tabla1 tabla2 tabla3 c maquina_sel Hc Hcol) as Hf.
    by rewrite <- Hq', <- Heq in Hf. }
  pose proof (Hfilas k p' Hk Hmain') as H1.
  apply list_elem_of_fmap in Hin as (g & Hg & Hgin).
  assert (Hg' : g ∈ filas (t1 p')).
  { rewrite H1. apply list_elem_of_filter. split; [by rewrite Hg|done]. }
  split_and!.
  - done.
  - intros Hnil. rewrite Hnil in Hg'. by apply not_elem_of_nil in Hg'.
  - rewrite Hop. right. apply (elem_of_maquinas _ _ _ _ _ _ Hops). left.
    apply elem_of_maqs_t1. exists g.
    assert (Hgt : g ∈ filas tabla1 ∧ f1_maquina g = Some maquina_sel).
    { pose proof (filas_t1 tabla1 tabla2 tabla3 Todos maquina_sel) as Hf.
      rewrite <- Heq in Hf. simpl in Hf. rewrite Hf in Hgin.
      apply list_elem_of_filter in Hgin as [[?|?] [_ ?]%list_elem_of_filter]; done. }
    destruct Hgt. split_and!; try done. right. right. by rewrite Hg.
  - rewrite Hkc. unfold cluster_cat. by rewrite decide_True.
  - intros c p'' Hc Hmain''.
    destruct (main_inv _ _ _ _ _ _ _ Hmain'' Hload) as (_ & _ & _ & Htot'' & _).
    rewrite Htot', Htot'', !Hlen, H1, (Hfilas c p'' Hc Hmain'').
    pose proof (length_filter_cuenta (astype_str ∘ f1_cluster)) as Hlc.
    unfold compose at 1 in Hlc. rewrite !Hlc. apply Hmax.
Qed.

(** X13 on the sample files, with machine A. *)
Lemma X13_witness :
  ∃ p p',
    main ejemplo Todos (py "A") = Ok (Completa p)
    ∧ py "A" ≠ Todas ∧ 0 < kpi_total_fallas p
    ∧ kpi_cluster p ∈ opciones_cluster p ∧ kpi_cluster p ≠ Todos
    ∧ main ejemplo (kpi_cluster p) (py "A") = Ok (Completa p')
    ∧ kpi_cluster p' = kpi_cluster p.
Proof.
  assert (Hms : py "A" ≠ Todas) by decide_calcula.
  eexists _, _. split; [calcula|]. split; [exact Hms|].
  match goal with
  | |- 0 < kpi_total_fallas ?q ∧ _ =>
      assert (Hmain : main ejemplo Todos (py "A") = Ok (Completa q)) by calcula;
      assert (Htotal : 0 < kpi_total_fallas q) by (vm_compute; lia);
      assert (Hopt : kpi_cluster q ∈ opciones_cluster q) by decide_calcula;
      assert (Hk : kpi_cluster q ≠ Todos) by decide_calcula
  end.
  split; [exact Htotal|]. split; [exact Hopt|]. split; [exact Hk|]. split; [calcula|].
  refine (proj1 (proj2 (proj2 (proj2
            (X13_cluster_de_la_maquina ejemplo (py "A") _ _
               Hmain Hms Htotal Hopt Hk _))))).
  calcula.
Defined.

(** ** The bar charts *)

Lemma cuenta_dropna `{EqDecision A} (x : A) (col : list (option A)) :
  cuenta x (dropna col) = cuenta (Some x) col.
Proof.
  unfold dropna. induction col as [|[y|] col IH].
  - done.
  - change (omap id (Some y :: col)) with (y :: omap id col).
    rewrite !cuenta_cons, IH.
    destruct (decide (y = x)) as [->|Hy].
    + by rewrite decide_True.
    + rewrite decide_False; [done|]. by intros [= ?].
  - change (omap id (None :: col)) with (omap id col).
    rewrite cuenta_cons, IH. by rewrite decide_False.
Qed.

(** A bar chart of the filtered Table 1: one bar for each value of the
    column, as high as the number of rows with that value, the highest
    first; the rows without a value have no bar. *)
Lemma barras_spec col celdas (t : Tabla Fila1) :
  (barras col celdas t = Barras_info ↔ col ∉ columns t ∨ filas t = [])
  ∧ ∀ conteo, barras col celdas t = Barras_fig conteo →
      NoDup conteo.*1 ∧ Sorted ct_ge conteo
      ∧ (∀ x n, (x, n) ∈ conteo ↔ 0 < n ∧ n = cuenta (Some x) (celdas <$> filas t))
      ∧ sum_list conteo.*2 = length (filter (λ f, celdas f ≠ None) (filas t)).
Proof.
  unfold barras.
  destruct (decide (col ∈ columns t ∧ ¬ empty t)) as [[Hc He]|Hno]; unfold empty in *.
  - split.
    + split; [done|]. intros [Hn|Hn]; done.
    + intros conteo [= <-]. split_and!.
      * apply value_counts_NoDup.
      * apply sort_desc_Sorted.
      * intros x n. rewrite elem_of_value_counts, cuenta_pos, cuenta_dropna.
        split; [by intros [? ->] | by intros [? ->]].
      * by rewrite value_counts_suma, length_dropna_filter.
  - split; [|done]. split; [|done]. intros _.
    destruct (decide (col ∈ columns t)) as [Hc|Hc]; [|by left].
    right. destruct (filas t) as [|f l] eqn:Hf; [done|].
    exfalso. apply Hno. by split.
Qed.

Lemma total_fallas_length (t : Tabla Fila1) : total_fallas t = length (filas t).
Proof.
  unfold total_fallas, empty.
  destruct (decide (¬ filas t = [])) as [He|He]; [done|].
  apply dec_stable in He. by rewrite He.
Qed.

(** The header and the total of the filtered Table 1 of a page. *)
Lemma t1_pagina a cluster_sel maquina_sel p r1 :
  TABLA1_FINAL_CON_ID a = Some r1 →
  main a cluster_sel maquina_sel = Ok (Completa p) →
  columns (t1 p) = columns (cargada1 r1)
  ∧ kpi_total_fallas p = length (filas (t1 p)).
Proof.
  intros F1 Hmain.
  destruct (main_inv_ex _ _ _ _ Hmain) as (tabla1 & tabla2 & tabla3 & Hload).
  destruct (main_inv _ _ _ _ _ _ _ Hmain Hload) as (Heq & _ & _ & Htot & _).
  apply load_data_Ok in Hload as (r1' & _ & _ & F1' & _ & _ & _ & _ & _ & -> & _).
  rewrite F1 in F1'. injection F1' as <-. split.
  - rewrite <- (filtros_columns (cargada1 r1) tabla2 tabla3 cluster_sel maquina_sel).
    by rewrite <- Heq.
  - by rewrite Htot, total_fallas_length.
Qed.

(** X14: the chart of failures by shift is replaced by a message exactly
    when the first file has no shift column, under either name, or the
    filters leave no failure.  Otherwise it has one bar for each shift of the
    failures left, without repetition and by decreasing height; a bar is as
    high as the number of those failures in that shift, and the heights add up
    to the number of failures left that have a shift, which is the total of
    failures when none lacks its shift. *)
Theorem X14_fallas_por_turno a cluster_sel maquina_sel p r1 :
  TABLA1_FINAL_CON_ID a = Some r1 → sin_nombres_repetidos r1 →
  main a cluster_sel maquina_sel = Ok (Completa p) →
  (turno_counts (t1 p) = Barras_info
     ↔ ((py "Shift" ∉ columns r1) ∧ (py "Turno" ∉ columns r1)) ∨ kpi_total_fallas p = 0)
  ∧ ∀ conteo, turno_counts (t1 p) = Barras_fig conteo →
      NoDup conteo.*1 ∧ Sorted ct_ge conteo
      ∧ (∀ x n, (x, n) ∈ conteo
                ↔ 0 < n ∧ n = cuenta (Some x) (f1_turno <$> filas (t1 p)))
      ∧ sum_list conteo.*2 = length (filter (λ f, f1_turno f ≠ None) (filas (t1 p)))
      ∧ sum_list conteo.*2 ≤ kpi_total_fallas p
      ∧ ((∀ f, f ∈ filas (t1 p) → f1_turno f ≠ None) →
           sum_list conteo.*2 = kpi_total_fallas p).
Proof.
  intros F1 _ Hmain.
  destruct (t1_pagina _ _ _ _ _ F1 Hmain) as [Hcols Htot].
  destruct (barras_spec (py "Turno") f1_turno (t1 p)) as [Hinfo Hfig].
  fold (turno_counts (t1 p)) in Hinfo, Hfig. split.
  - rewrite Hinfo, Hcols, cargada1_Turno, Htot, length_zero_iff_nil. tauto.
  - intros conteo Hc. destruct (Hfig conteo Hc) as (Hnd & Hs & Hin & Hsum).
    split_and!; try done.
    + rewrite Hsum, Htot. apply length_filter.
    + intros Hall. rewrite Hsum, Htot. f_equal. by apply filter_all.
Qed.

(** X14 on three failures of two shifts. *)
Lemma X14_witness :
  ∃ p,
    TABLA1_FINAL_CON_ID archivos_turnos = Some (cruda1 filas1_turnos)
    ∧ sin_nombres_repetidos (cruda1 filas1_turnos)
    ∧ main archivos_turnos Todos Todas = Ok (Completa p)
    ∧ (turno_counts (t1 p) = Barras_info
       ↔ ((py "Shift" ∉ columns (cruda1 filas1_turnos))
          ∧ (py "Turno" ∉ columns (cruda1 filas1_turnos)))
         ∨ kpi_total_fallas p = 0).
Proof.
  assert (Hsin : sin_nombres_repetidos (cruda1 filas1_turnos)).
  { unfold sin_nombres_repetidos. decide_calcula. }
  eexists. split; [reflexivity|]. split; [exact Hsin|]. split; [calcula|].
  refine (proj1 (X14_fallas_por_turno archivos_turnos Todos Todas _ _ eq_refl Hsin _)).
  calcula.
Defined.

(** X15: the chart of failures by equipment type is replaced by a message
    exactly when the first file has no equipment-type column, under either
    name, or the filters leave no failure.  Otherwise it has one bar for each
    equipment type of the failures left, without repetition and by decreasing
    length; a bar is as long as the number of those failures of that type,
    and the lengths add up to the number of failures left that have a type,
    which is the total of failures when none lacks its type. *)
Theorem X15_fallas_por_eqtype a cluster_sel maquina_sel p r1 :
  TABLA1_FINAL_CON_ID a = Some r1 → sin_nombres_repetidos r1 →
  main a cluster_sel maquina_sel = Ok (Completa p) →
  (ubic_counts (t1 p) = Barras_info
     ↔ ((py "EQ Type" ∉ columns r1) ∧ (py "EQ_Type" ∉ columns r1)) ∨ kpi_total_fallas p = 0)
  ∧ ∀ conteo, ubic_counts (t1 p) = Barras_fig conteo →
      NoDup conteo.*1 ∧ Sorted ct_ge conteo
      ∧ (∀ x n, (x, n) ∈ conteo
                ↔ 0 < n ∧ n = cuenta (Some x) (f1_eqtype <$> filas (t1 p)))
      ∧ sum_list conteo.*2 = length (filter (λ f, f1_eqtype f ≠ None) (filas (t1 p)))
      ∧ sum_list conteo.*2 ≤ kpi_total_fallas p
      ∧ ((∀ f, f ∈ filas (t1 p) → f1_eqtype f ≠ None) →
           sum_list conteo.*2 = kpi_total_fallas p).
Proof.
  intros F1 _ Hmain.
  destruct (t1_pagina _ _ _ _ _ F1 Hmain) as [Hcols Htot].
  destruct (barras_spec (py "EQ_Type") f1_eqtype (t1 p)) as [Hinfo Hfig].
  fold (ubic_counts (t1 p)) in Hinfo, Hfig. split.
  - rewrite Hinfo, Hcols, cargada1_EQ_Type, Htot, length_zero_iff_nil. tauto.
  - intros conteo Hc. destruct (Hfig conteo Hc) as (Hnd & Hs & Hin & Hsum).
    split_and!; try done.
    + rewrite Hsum, Htot. apply length_filter.
    + intros Hall. rewrite Hsum, Htot. f_equal. by apply filter_all.
Qed.

(** X15 on three failures, one of them without equipment type, with machine
    A selected. *)
Lemma X15_witness :
  ∃ p,
    TABLA1_FINAL_CON_ID archivos_turnos = Some (cruda1 filas1_turnos)
    ∧ sin_nombres_repetidos (cruda1 filas1_turnos)
    ∧ main archivos_turnos Todos (py "A") = Ok (Completa p)
    ∧ (ubic_counts (t1 p) = Barras_info
       ↔ ((py "EQ Type" ∉ columns (cruda1 filas1_turnos))
          ∧ (py "EQ_Type" ∉ columns (cruda1 filas1_turnos)))
         ∨ kpi_total_fallas p = 0).
Proof.
  assert (Hsin : sin_nombres_repetidos (cruda1 filas1_turnos)).
  { unfold sin_nombres_repetidos. decide_calcula. }
  eexists. split; [reflexivity|]. split; [exact Hsin|]. split; [calcula|].
  refine (proj1 (X15_fallas_por_eqtype archivos_turnos Todos (py "A") _ _ eq_refl Hsin _)).
  calcula.
Defined.
